(** * gh-repo-transfer: migration validation and batch analysis

    A shallow embedding of the Go packages [validation] (the dependency
    classifier), [batch] (the batch analyzer and its free-text ruleset
    resolver) and the structured ruleset resolver of package
    [dependencies], with the properties of the specification proved or
    refuted on them. *)

From Stdlib Require Import ZArith Lia Bool List String Ascii DecimalString.
From stdpp Require Import base list strings.
Import ListNotations.

Local Open Scope string_scope.
Local Open Scope Z_scope.
Local Open Scope list_scope.

(** ** Go's [strings] and [fmt], as far as the packages use them

    Go strings are byte sequences; [string] (a list of 8-bit [ascii]) is
    the same data.  The byte-level functions are written out.  The two
    functions that depend on Unicode case tables, [strings.ToLower] and
    [strings.EqualFold], are taken as variables of the sections that use
    them; [ToLowerASCII] and [EqualFoldASCII] are what they compute on
    strings of ASCII bytes, and serve for concrete evaluations. *)

Module GoStrings.

(** [strings.HasPrefix(s, prefix)] *)
Definition HasPrefix (s prefix : string) : bool := String.prefix prefix s.

(** [s[n:]] *)
Fixpoint slice_from (n : nat) (s : string) : string :=
  match n, s with
  | O, _ => s
  | S n', String _ s' => slice_from n' s'
  | S _, EmptyString => EmptyString
  end.

(** [s[:n]] *)
Definition slice_to (n : nat) (s : string) : string := String.substring 0 n s.

(** [strings.TrimPrefix(s, prefix)]: [s] without the leading [prefix],
    or [s] itself when it does not start with it. *)
Definition TrimPrefix (s prefix : string) : string :=
  if HasPrefix s prefix then slice_from (String.length prefix) s else s.

(** [strings.Index(s, substr)]: byte index of the first occurrence, or -1. *)
Fixpoint Index (s substr : string) : Z :=
  if String.prefix substr s then 0
  else match s with
       | EmptyString => -1
       | String _ s' =>
           let i := Index s' substr in
           if i <? 0 then -1 else i + 1
       end.

(** [strings.Contains(s, substr)] is [Index(s, substr) >= 0]. *)
Definition Contains (s substr : string) : bool := 0 <=? Index s substr.

(** The scan of [strings.Split] for a non-empty separator: [skip] bytes
    of a separator just found are still to be passed over, [cur] is the
    piece being collected. *)
Fixpoint split_scan (sep : string) (skip : nat) (cur : string) (s : string)
  : list string :=
  match s with
  | EmptyString => [cur]
  | String c s' =>
      match skip with
      | S k => split_scan sep k cur s'
      | O =>
          if String.prefix sep s
          then cur :: split_scan sep (String.length sep - 1) EmptyString s'
          else split_scan sep O (cur +:+ String c EmptyString) s'
      end
  end.

(** [strings.Split(s, sep)].  With an empty separator Go cuts after every
    UTF-8 sequence, which for ASCII text is every byte; the packages only
    split on the literals ["/"] and [", "]. *)
Definition Split (s sep : string) : list string :=
  match sep with
  | EmptyString => map (fun c => String c EmptyString) (list_ascii_of_string s)
  | _ => split_scan sep O EmptyString s
  end.

(** [strings.Join(elems, sep)] *)
Definition Join (elems : list string) (sep : string) : string :=
  String.concat sep elems.

Definition lower_byte (c : ascii) : ascii :=
  let n := nat_of_ascii c in
  if ((65 <=? n) && (n <=? 90))%nat then ascii_of_nat (n + 32) else c.

(** [strings.ToLower] on ASCII text. *)
Fixpoint ToLowerASCII (s : string) : string :=
  match s with
  | EmptyString => EmptyString
  | String c s' => String (lower_byte c) (ToLowerASCII s')
  end.

(** [strings.EqualFold] on ASCII text. *)
Definition EqualFoldASCII (s t : string) : bool :=
  String.eqb (ToLowerASCII s) (ToLowerASCII t).

(** [%d] of [fmt.Sprintf] for a length. *)
Definition Itoa (n : nat) : string := NilEmpty.string_of_uint (Nat.to_uint n).

End GoStrings.

Import GoStrings.

(** ** Go's [int]

  64 bits, two's complement; [x++] wraps. *)

Definition int_min : Z := - 2 ^ 63.
Definition int_max : Z := 2 ^ 63 - 1.
Definition int_wrap (z : Z) : Z := (z + 2 ^ 63) mod 2 ^ 64 - 2 ^ 63.
Definition incr (x : Z) : Z := int_wrap (x + 1).

(** ** Package [types] *)

(** [type ValidationStatus string] with its six constants; the zero value
  is the empty string. *)
Definition ValidationStatus : Type := string.

Definition ValidationReady : ValidationStatus := "ready".
Definition ValidationSetupNeeded : ValidationStatus := "setup_needed".
Definition ValidationBlocker : ValidationStatus := "blocker".
Definition ValidationWarning : ValidationStatus := "warning".
Definition ValidationReview : ValidationStatus := "review".
Definition ValidationUnknown : ValidationStatus := "unknown".

Record ValidationResult : Type := mkValidationResult {
Item : string;
Status : ValidationStatus;
Message : string;
Recommendation : string
}.

Record ValidationSummary : Type := mkValidationSummary {
Ready : Z;
SetupNeeded : Z;
Blockers : Z;
Warnings : Z;
Review : Z;
Unknown : Z;
Total : Z
}.

Record MigrationValidation : Type := mkMigrationValidation {
TargetOrganization : string;
OverallReadiness : ValidationStatus;
Summary : ValidationSummary;
v_CodeDependencies : list ValidationResult;
v_CIDependencies : list ValidationResult;
v_AccessPermissions : list ValidationResult;
v_SecurityCompliance : list ValidationResult;
v_AppsIntegrations : list ValidationResult;
v_Governance : list ValidationResult
}.

Record OrgPolicy : Type := mkOrgPolicy {
Name : string;
PolicyStatus : string;
Restrictions : list string
}.

Record OrgMemberPrivileges : Type := mkOrgMemberPrivileges {
CanCreateRepos : bool;
CanForkPrivateRepos : bool;
TwoFactorRequired : bool;
WebCommitSignoffRequired : bool;
DefaultPermission : string;
RestrictionsActive : list string
}.

Record TargetOrgCapabilities : Type := mkTargetOrgCapabilities {
Organization : string;
Apps : list string;
Teams : list string;
cap_RepositoryPolicies : list OrgPolicy;
cap_MemberPrivileges : OrgMemberPrivileges;
Rulesets : list string;
Secrets : list string;
Variables : list string;
Runners : list string
}.

Record CodeDependencies : Type := mkCodeDependencies {
InternalRepositoryReferences : list string;
GitSubmodules : list string;
OrgPackageRegistries : list string;
HardcodedOrgReferences : list string;
OrgSpecificContainerRegistries : list string
}.

Record ActionsCIDependencies : Type := mkActionsCIDependencies {
OrganizationSecrets : list string;
OrganizationVariables : list string;
SelfHostedRunners : list string;
EnvironmentDependencies : list string;
OrgSpecificActions : list string;
RequiredWorkflows : list string;
CrossRepoWorkflowTriggers : list string
}.

Record AccessPermissions : Type := mkAccessPermissions {
AccessTeams : list string;
IndividualCollaborators : list string;
OrganizationRoles : list string;
OrganizationMembership : list string;
CodeownersRequirements : list string
}.

Record SecurityCompliance : Type := mkSecurityCompliance {
SecurityCampaigns : list string
}.

Record AppsIntegrations : Type := mkAppsIntegrations {
InstalledGitHubApps : list string;
PersonalAccessTokens : list string
}.

Record OrgAppsIntegrations : Type := mkOrgAppsIntegrations {
org_InstalledGitHubApps : list string
}.

Record OrgGovernance : Type := mkOrgGovernance {
OrganizationPolicies : list OrgPolicy;
RepositoryPolicies : list OrgPolicy;
MemberPrivileges : list string;
RepositoryRulesets : list OrgPolicy;
IssueTemplates : list string;
PullRequestTemplates : list string;
RequiredStatusChecks : list string
}.

Record OrganizationalDependencies : Type := mkOrganizationalDependencies {
Repository : string;
d_CodeDependencies : CodeDependencies;
d_ActionsCIDependencies : ActionsCIDependencies;
d_AccessPermissions : AccessPermissions;
d_SecurityCompliance : SecurityCompliance;
d_AppsIntegrations : AppsIntegrations;
d_OrgGovernance : OrgGovernance;
Validation : option MigrationValidation
}.

(** ** Loops that return from inside

  [for _, x := range xs { ... return r ... }]: the body either returns
  [r] ([Some r]) or falls through to the next element ([None]). *)

Fixpoint range_return {A R : Type} (xs : list A) (body : A -> option R) : option R :=
match xs with
| [] => None
| x :: xs' =>
    match body x with
    | Some r => Some r
    | None => range_return xs' body
    end
end.

(** ** Package [validation]: the dependency classifier *)

Module validation.
Section Validation.

(** [strings.ToLower] and [strings.EqualFold] of the Go library. *)
Variable ToLower : string -> string.
Variable EqualFold : string -> string -> bool.

Definition extractAppName (appString : string) : string :=
  let idx := Index appString " (" in
  if negb (idx =? -1) then slice_to (Z.to_nat idx) appString else appString.

Definition extractTeamName (teamString : string) : string :=
  let idx := Index teamString " (" in
  if negb (idx =? -1) then slice_to (Z.to_nat idx) teamString else teamString.

Definition extractSecretName (secretString : string) : string := secretString.
Definition extractVariableName (variableString : string) : string := variableString.
Definition extractRunnerName (runnerString : string) : string := runnerString.

Definition isAppAvailable (appName : string) (availableApps : list string) : bool :=
  existsb (fun available => EqualFold appName available) availableApps.

Definition commonApps : list string :=
  ["dependabot"; "github-actions"; "codecov"; "sonarcloud"].

Definition isCommonApp (appName : string) : bool :=
  existsb (fun common => Contains (ToLower appName) common) commonApps.

Definition isTeamAvailable (teamName : string) (availableTeams : list string) : bool :=
  existsb (fun available => EqualFold teamName available) availableTeams.

Definition isSecretAvailable (secretName : string) (availableSecrets : list string) : bool :=
  existsb (fun available => EqualFold secretName available) availableSecrets.

Definition isVariableAvailable (variableName : string) (availableVariables : list string) : bool :=
  existsb (fun available => EqualFold variableName available) availableVariables.

Definition isRunnerAvailable (runnerName : string) (availableRunners : list string) : bool :=
  existsb (fun available => EqualFold runnerName available) availableRunners.

(** [validateAppsIntegrations]: one result per installed app. *)
Definition validateAppsIntegrations (apps : AppsIntegrations)
    (capabilities : TargetOrgCapabilities) : list ValidationResult :=
  fold_left
    (fun results app =>
       let appName := extractAppName app in
       let '(status, message, recommendation) :=
         if isAppAvailable appName (Apps capabilities) then
           (ValidationReady, "App is available in target organization", "")
         else if isCommonApp appName then
           (ValidationSetupNeeded, "Standard app, can be installed",
            "Install " +:+ appName +:+ " in target organization")
         else
           (ValidationBlocker, "Custom app, requires manual setup",
            "Review app requirements and setup in target org") in
       results ++ [mkValidationResult app status message recommendation])
    (InstalledGitHubApps apps) [].

(** The body of the CODEOWNERS loop of [validateAccessPermissions]. *)
Definition validateCodeownersRequirement (capabilities : TargetOrgCapabilities)
    (results : list ValidationResult) (requirement : string) : list ValidationResult :=
  if HasPrefix requirement "Team: @" then
    let teamRef := TrimPrefix requirement "Team: @" in
    let parts := Split teamRef "/" in
    if (List.length parts =? 2)%nat then
      let teamName := nth 1 parts "" in
      let '(status, message, recommendation) :=
        if isTeamAvailable teamName (Teams capabilities) then
          (ValidationReady, "CODEOWNERS team exists in target organization", "")
        else
          (ValidationBlocker, "CODEOWNERS team does not exist in target organization",
           "Create team '" +:+ teamName +:+ "' in target organization or update CODEOWNERS") in
      results ++ [mkValidationResult requirement status message recommendation]
    else results
  else if HasPrefix requirement "User: @" then
    results ++ [mkValidationResult requirement ValidationWarning
                  "CODEOWNERS user requires manual setup in target organization"
                  "Invite user to target organization or update CODEOWNERS"]
  else results.

(** [validateAccessPermissions]: teams, then individual collaborators,
    then CODEOWNERS requirements.  [assignTeams] is received and not read. *)
Definition validateAccessPermissions (access : AccessPermissions)
    (capabilities : TargetOrgCapabilities) (assignTeams : bool) : list ValidationResult :=
  let results := [] in
  let results :=
    fold_left
      (fun results team =>
         let teamName := extractTeamName team in
         let '(status, message, recommendation) :=
           if isTeamAvailable teamName (Teams capabilities) then
             (ValidationReady, "Team exists in target organization", "")
           else
             (ValidationBlocker, "Team does not exist in target organization",
              "Create team '" +:+ teamName +:+ "' in target organization") in
         results ++ [mkValidationResult team status message recommendation])
      (AccessTeams access) results in
  let results :=
    fold_left
      (fun results collaborator =>
         results ++ [mkValidationResult collaborator ValidationWarning
                       "Individual access requires manual setup in target organization"
                       "Invite user to target organization and configure permissions"])
      (IndividualCollaborators access) results in
  fold_left (validateCodeownersRequirement capabilities)
    (CodeownersRequirements access) results.

(** [validateCIDependencies]: secrets, variables, runners, required workflows. *)
Definition validateCIDependencies (ci : ActionsCIDependencies)
    (capabilities : TargetOrgCapabilities) : list ValidationResult :=
  let results := [] in
  let results :=
    fold_left
      (fun results secret =>
         let secretName := extractSecretName secret in
         let '(status, message, recommendation) :=
           if isSecretAvailable secretName (Secrets capabilities) then
             (ValidationReady, "Secret exists in target organization", "")
           else
             (ValidationSetupNeeded, "Secret needs to be created in target organization",
              "Create secret '" +:+ secretName +:+ "' in target organization") in
         results ++ [mkValidationResult secret status message recommendation])
      (OrganizationSecrets ci) results in
  let results :=
    fold_left
      (fun results variable =>
         let variableName := extractVariableName variable in
         let '(status, message, recommendation) :=
           if isVariableAvailable variableName (Variables capabilities) then
             (ValidationReady, "Variable exists in target organization", "")
           else
             (ValidationSetupNeeded, "Variable needs to be created in target organization",
              "Create variable '" +:+ variableName +:+ "' in target organization") in
         results ++ [mkValidationResult variable status message recommendation])
      (OrganizationVariables ci) results in
  let results :=
    fold_left
      (fun results runner =>
         let runnerName := extractRunnerName runner in
         let '(status, message, recommendation) :=
           if isRunnerAvailable runnerName (Runners capabilities) then
             (ValidationReady, "Runner is available in target organization", "")
           else
             (ValidationSetupNeeded, "Self-hosted runner needs to be set up",
              "Configure runner '" +:+ runnerName +:+ "' in target organization") in
         results ++ [mkValidationResult runner status message recommendation])
      (SelfHostedRunners ci) results in
  fold_left
    (fun results workflow =>
       results ++ [mkValidationResult workflow ValidationReview
                     "Required workflow policy needs manual configuration"
                     "Set up equivalent required workflow policy in target organization"])
    (RequiredWorkflows ci) results.

Definition memberPrivilegeKeywords : list string :=
  ["member management"; "repository creation"; "private repository forking";
   "two-factor authentication"; "web commit signoff"].

(** [isMemberPrivilegePolicy] of package [validation]. *)
Definition isMemberPrivilegePolicy (policy : OrgPolicy) : bool :=
  let policyNameLower := ToLower (Name policy) in
  if existsb (fun keyword => Contains policyNameLower keyword) memberPrivilegeKeywords
  then true
  else if existsb
            (fun restriction =>
               let restrictionLower := ToLower restriction in
               existsb (fun keyword => Contains restrictionLower keyword)
                 memberPrivilegeKeywords)
            (Restrictions policy)
  then true
  else false.

(** [fmt.Sprintf("%s (status: %s)", policy.Name, policy.Status)] *)
Definition policyItem (policy : OrgPolicy) : string :=
  Name policy +:+ " (status: " +:+ PolicyStatus policy +:+ ")".

(** [validateMemberPrivilegePolicy] *)
Definition validateMemberPrivilegePolicy (policy : OrgPolicy)
    (targetPrivileges : OrgMemberPrivileges) : ValidationResult :=
  let missingRestrictions :=
    fold_left
      (fun missingRestrictions restriction =>
         let restrictionLower := ToLower restriction in
         if Contains restrictionLower "repository creation restricted" then
           if CanCreateRepos targetPrivileges
           then missingRestrictions ++ ["Repository creation needs to be restricted"]
           else missingRestrictions
         else if Contains restrictionLower "private repository forking restricted" then
           if CanForkPrivateRepos targetPrivileges
           then missingRestrictions ++ ["Private repository forking needs to be restricted"]
           else missingRestrictions
         else if Contains restrictionLower "two-factor authentication required" then
           if negb (TwoFactorRequired targetPrivileges)
           then missingRestrictions ++ ["Two-factor authentication needs to be required"]
           else missingRestrictions
         else if Contains restrictionLower "web commit signoff required" then
           if negb (WebCommitSignoffRequired targetPrivileges)
           then missingRestrictions ++ ["Web commit signoff needs to be required"]
           else missingRestrictions
         else missingRestrictions)
      (Restrictions policy) [] in
  if (List.length missingRestrictions =? 0)%nat then
    mkValidationResult (policyItem policy) ValidationReady
      "Member privilege settings meet policy requirements" ""
  else if (List.length missingRestrictions <? List.length (Restrictions policy))%nat then
    mkValidationResult (policyItem policy) ValidationSetupNeeded
      ("Some member privileges need adjustment ("
         +:+ Itoa (List.length missingRestrictions) +:+ " missing)")
      ("Configure missing restrictions: " +:+ Join missingRestrictions ", ")
  else
    mkValidationResult (policyItem policy) ValidationSetupNeeded
      "Member privileges need configuration to meet policy requirements"
      ("Configure required restrictions: " +:+ Join missingRestrictions ", ").

(** [validateRepositoryPolicy] *)
Definition validateRepositoryPolicy (policy : OrgPolicy)
    (targetPolicies : list OrgPolicy) : ValidationResult :=
  if existsb (fun targetPolicy => EqualFold (Name policy) (Name targetPolicy)) targetPolicies
  then
    mkValidationResult (policyItem policy) ValidationReview
      "Similar repository policy found, requires verification"
      "Verify policy configuration matches requirements"
  else
    mkValidationResult (policyItem policy) ValidationSetupNeeded
      "Repository policy needs to be configured"
      ("Set up '" +:+ Name policy +:+ "' repository policy in target organization").

(** [validateGovernance]: policies, issue templates, pull-request templates. *)
Definition validateGovernance (governance : OrgGovernance)
    (capabilities : TargetOrgCapabilities) : list ValidationResult :=
  let results := [] in
  let results :=
    fold_left
      (fun results policy =>
         if isMemberPrivilegePolicy policy then
           let result := validateMemberPrivilegePolicy policy (cap_MemberPrivileges capabilities) in
           results ++ [result]
         else
           let result := validateRepositoryPolicy policy (cap_RepositoryPolicies capabilities) in
           results ++ [result])
      (OrganizationPolicies governance) results in
  let results :=
    fold_left
      (fun results template =>
         results ++ [mkValidationResult template ValidationReview
                       "Issue template requires manual setup"
                       "Copy template to target organization's .github repository"])
      (IssueTemplates governance) results in
  fold_left
    (fun results template =>
       results ++ [mkValidationResult template ValidationReview
                     "PR template requires manual setup"
                     "Copy template to target organization's .github repository"])
    (PullRequestTemplates governance) results.

(** [validateCodeDependencies]: submodules. *)
Definition validateCodeDependencies (code : CodeDependencies)
    (capabilities : TargetOrgCapabilities) : list ValidationResult :=
  fold_left
    (fun results submodule =>
       if Contains submodule "external dependency" then
         results ++ [mkValidationResult submodule ValidationReview
                       "External repository access needs verification"
                       "Verify target organization has access to this external repository"]
       else
         results ++ [mkValidationResult submodule ValidationReview
                       "Internal submodule, may need access setup"
                       "Ensure target org has access to submodule repository"])
    (GitSubmodules code) [].

(** [validateSecurityCompliance]: security campaigns. *)
Definition validateSecurityCompliance (security : SecurityCompliance)
    (capabilities : TargetOrgCapabilities) : list ValidationResult :=
  fold_left
    (fun results campaign =>
       results ++ [mkValidationResult campaign ValidationReview
                     "Security campaign requires manual setup"
                     "Configure equivalent security measures in target organization"])
    (SecurityCampaigns security) [].

(** The [switch result.Status] of [calculateSummary], after [summary.Total++]. *)
Definition countResult (summary : ValidationSummary) (result : ValidationResult)
  : ValidationSummary :=
  let summary :=
    mkValidationSummary (Ready summary) (SetupNeeded summary) (Blockers summary)
      (Warnings summary) (Review summary) (Unknown summary) (incr (Total summary)) in
  if String.eqb (Status result) ValidationReady then
    mkValidationSummary (incr (Ready summary)) (SetupNeeded summary) (Blockers summary)
      (Warnings summary) (Review summary) (Unknown summary) (Total summary)
  else if String.eqb (Status result) ValidationSetupNeeded then
    mkValidationSummary (Ready summary) (incr (SetupNeeded summary)) (Blockers summary)
      (Warnings summary) (Review summary) (Unknown summary) (Total summary)
  else if String.eqb (Status result) ValidationBlocker then
    mkValidationSummary (Ready summary) (SetupNeeded summary) (incr (Blockers summary))
      (Warnings summary) (Review summary) (Unknown summary) (Total summary)
  else if String.eqb (Status result) ValidationWarning then
    mkValidationSummary (Ready summary) (SetupNeeded summary) (Blockers summary)
      (incr (Warnings summary)) (Review summary) (Unknown summary) (Total summary)
  else if String.eqb (Status result) ValidationReview then
    mkValidationSummary (Ready summary) (SetupNeeded summary) (Blockers summary)
      (Warnings summary) (incr (Review summary)) (Unknown summary) (Total summary)
  else
    mkValidationSummary (Ready summary) (SetupNeeded summary) (Blockers summary)
      (Warnings summary) (Review summary) (incr (Unknown summary)) (Total summary).

(** The six category lists in the order [calculateSummary] appends them. *)
Definition allResults (validation : MigrationValidation) : list ValidationResult :=
  let allResults := v_AppsIntegrations validation ++ v_AccessPermissions validation in
  let allResults := allResults ++ v_CIDependencies validation in
  let allResults := allResults ++ v_Governance validation in
  let allResults := allResults ++ v_CodeDependencies validation in
  allResults ++ v_SecurityCompliance validation.

(** [calculateSummary] *)
Definition calculateSummary (validation : MigrationValidation) : ValidationSummary :=
  let summary := mkValidationSummary 0 0 0 0 0 0 0 in
  fold_left countResult (allResults validation) summary.

(** [determineOverallReadiness] *)
Definition determineOverallReadiness (summary : ValidationSummary) : ValidationStatus :=
  if Blockers summary >? 0 then ValidationBlocker
  else if (SetupNeeded summary >? 0) || (Review summary >? 0) then ValidationSetupNeeded
  else if Warnings summary >? 0 then ValidationWarning
  else if Ready summary =? Total summary then ValidationReady
  else ValidationUnknown.

(** [ValidateAgainstTarget]: the record is created with zero [Summary] and
    [OverallReadiness], its six lists are filled, then the two are set. *)
Definition ValidateAgainstTarget (deps : OrganizationalDependencies)
    (capabilities : TargetOrgCapabilities) (assignTeams : bool) : MigrationValidation :=
  let validation :=
    {| TargetOrganization := Organization capabilities;
       OverallReadiness := "";
       Summary := mkValidationSummary 0 0 0 0 0 0 0;
       v_AppsIntegrations :=
         validateAppsIntegrations (d_AppsIntegrations deps) capabilities;
       v_AccessPermissions :=
         validateAccessPermissions (d_AccessPermissions deps) capabilities assignTeams;
       v_CIDependencies :=
         validateCIDependencies (d_ActionsCIDependencies deps) capabilities;
       v_Governance := validateGovernance (d_OrgGovernance deps) capabilities;
       v_CodeDependencies :=
         validateCodeDependencies (d_CodeDependencies deps) capabilities;
       v_SecurityCompliance :=
         validateSecurityCompliance (d_SecurityCompliance deps) capabilities |} in
  let summary := calculateSummary validation in
  {| TargetOrganization := TargetOrganization validation;
     OverallReadiness := determineOverallReadiness summary;
     Summary := summary;
     v_CodeDependencies := v_CodeDependencies validation;
     v_CIDependencies := v_CIDependencies validation;
     v_AccessPermissions := v_AccessPermissions validation;
     v_SecurityCompliance := v_SecurityCompliance validation;
     v_AppsIntegrations := v_AppsIntegrations validation;
     v_Governance := v_Governance validation |}.

End Validation.
End validation.

(** ** Package [dependencies]: policy categorisation and the structured
  ruleset resolver *)

Module dependencies.

Section Categorise.
Variable ToLower : string -> string.

  (** [isMemberPrivilegePolicyOrgLevel]; [separatePoliciesForJSON] of this
      package and the table formatter of package [output] carry the same
      body under the name [isMemberPrivilegePolicy]. *)
Definition isMemberPrivilegePolicyOrgLevel (policy : OrgPolicy) : bool :=
    if Contains (ToLower (Name policy)) "policy"
       && negb (String.eqb (Name policy) "Member Management Policy")
    then false
    else
      let policyNameLower := ToLower (Name policy) in
      if existsb (fun keyword => Contains policyNameLower keyword)
           validation.memberPrivilegeKeywords
      then true
      else if existsb
                (fun restriction =>
                   let restrictionLower := ToLower restriction in
                   existsb (fun keyword => Contains restrictionLower keyword)
                     validation.memberPrivilegeKeywords)
                (Restrictions policy)
      then true
      else false.
End Categorise.

Record NameCondition : Type := mkNameCondition {
  Include : list string;
  Exclude : list string
}.

Record RepositoryNameCondition : Type := mkRepositoryNameCondition {
  rn_Include : list string;
  rn_Exclude : list string;
  Protected : bool
}.

Record RulesetConditions : Type := mkRulesetConditions {
  RefName : NameCondition;
  RepositoryName : RepositoryNameCondition;
  RepositoryProperty : NameCondition
}.

(** The ruleset as decoded from [orgs/{owner}/rulesets]; of each rule only
    its [Type] is read anywhere. *)
Record OrgRuleset : Type := mkOrgRuleset {
  ID : Z;
  rs_Name : string;
  Enforcement : string;
  Source : string;
  Target : string;
  Conditions : RulesetConditions;
  Rules : list string
}.

(** [rulesetAppliesToRepo] on the structured conditions. *)
Definition rulesetAppliesToRepo (ruleset : OrgRuleset) (repo : string) : bool :=
  if (0 <? List.length (rn_Include (RepositoryName (Conditions ruleset))))%nat then
    match
      range_return (rn_Include (RepositoryName (Conditions ruleset)))
        (fun target =>
           if String.eqb target repo || Contains target "*" then
             match
               range_return (rn_Exclude (RepositoryName (Conditions ruleset)))
                 (fun exclude =>
                    if String.eqb exclude repo || Contains exclude "*"
                    then Some false else None)
             with
             | Some r => Some r
             | None => Some true
             end
           else None)
    with
    | Some r => r
    | None => false
    end
  else
    match
      range_return (rn_Exclude (RepositoryName (Conditions ruleset)))
        (fun exclude =>
           if String.eqb exclude repo || Contains exclude "*"
           then Some false else None)
    with
    | Some r => r
    | None => true
    end.

(** The restriction strings [analyzeOrgRepositoryRulesets] stores for a
    ruleset whose target is ["repository"]. *)
Definition rulesetRestrictions (ruleset : OrgRuleset) : list string :=
  let rn := RepositoryName (Conditions ruleset) in
  let restrictions := [] in
  let restrictions := restrictions ++ ["Enforcement: " +:+ Enforcement ruleset] in
  let restrictions :=
    if (0 <? List.length (rn_Include rn))%nat then
      restrictions ++ ["Targets repos: " +:+ Join (rn_Include rn) ", "]
    else if (List.length (rn_Exclude rn) =? 0)%nat && negb (Protected rn) then
      restrictions ++ ["Targets repos: All repositories"]
    else restrictions in
  let restrictions :=
    if (0 <? List.length (rn_Exclude rn))%nat then
      restrictions ++ ["Excludes repos: " +:+ Join (rn_Exclude rn) ", "]
    else restrictions in
  let restrictions :=
    if Protected rn then restrictions ++ ["Applies to protected repositories"]
    else restrictions in
  if (0 <? List.length (Rules ruleset))%nat then
    restrictions ++ ["Rules: " +:+ Join (Rules ruleset) ", "]
  else restrictions.

(** The policy record [analyzeOrgRepositoryRulesets] appends for it. *)
Definition rulesetPolicy (ruleset : OrgRuleset) : OrgPolicy :=
  mkOrgPolicy (rs_Name ruleset) (Enforcement ruleset) (rulesetRestrictions ruleset).

End dependencies.

(** ** Package [batch]: the batch analyzer *)

Module batch.

(** An [error] value is modelled by its message; [None] is [nil]. *)
Definition error : Type := string.

Record OrgInfo : Type := mkOrgInfo {
  DefaultRepositoryPermission : string;
  MembersCanCreateRepos : bool;
  MembersCanCreatePrivateRepos : bool;
  MembersCanCreateInternalRepos : bool;
  MembersCanCreatePublicRepos : bool;
  MembersCanCreatePages : bool;
  MembersCanForkPrivateRepos : bool;
  oi_WebCommitSignoffRequired : bool;
  MembersCanDeleteRepos : bool;
  MembersCanDeleteIssues : bool;
  MembersCanCreateTeams : bool;
  TwoFactorRequirementEnabled : bool
}.

(** [OrganizationContext]; its lock is held for the copy at the start of
    a task, never for an [append]. *)
Record OrganizationContext : Type := mkOrganizationContext {
  ctx_Organization : string;
  ctx_Apps : OrgAppsIntegrations;
  ctx_Governance : OrgGovernance;
  ctx_SecurityCampaigns : list string;
  ctx_OrganizationRoles : list string;
  ctx_OrgInfo : OrgInfo
}.

Record BatchAnalysisResult : Type := mkBatchAnalysisResult {
  br_Repository : string;
  Result : option OrganizationalDependencies;
  Error : option error
}.

(** The REST client and the analyzers of package [dependencies] that query
    it are network code.  They enter as an interface: each analyzer is
    given the category of [deps] it fills, the only part of [deps] it
    writes, and hands it back with its error. *)
Record Client : Type := mkClient {
  AnalyzeCodeDependencies :
    string -> string -> CodeDependencies -> CodeDependencies * option error;
  AnalyzeActionsCIDependencies :
    string -> string -> ActionsCIDependencies -> ActionsCIDependencies * option error;
  AnalyzeAccessPermissions :
    string -> string -> AccessPermissions -> AccessPermissions * option error;
  AnalyzeSecurityCompliance :
    string -> string -> SecurityCompliance -> SecurityCompliance * option error;
  AnalyzeAppsIntegrationsOrgLevel :
    string -> OrgAppsIntegrations -> OrgAppsIntegrations * option error;
  AnalyzeOrgGovernanceOrgLevel :
    string -> OrgGovernance -> OrgGovernance * option error;
  (** [client.Get("orgs/{owner}", &ctx.OrgInfo)] *)
  GetOrgInfo : string -> OrgInfo -> OrgInfo * option error;
  (** [client.Get("orgs/{owner}/security/campaigns", &campaigns)]: the
      decoded [(ID, Name)] records. *)
  GetSecurityCampaigns : string -> list (Z * string) * option error
}.

(** [parseRepository] *)
Definition parseRepository (repoSpec : string) : string * string * option error :=
  let parts := Split repoSpec "/" in
  if negb (List.length parts =? 2)%nat then
    ("", "", Some "repository must be in format 'owner/repo'")
  else (nth 0 parts "", nth 1 parts "", None).

(** [rulesetAppliesToRepo] on the restriction strings of a cached policy. *)
Definition rulesetAppliesToRepo (policy : OrgPolicy) (repo : string) : bool :=
  match
    range_return (Restrictions policy)
      (fun restriction =>
         if Contains restriction "Targets repos:" then
           let targets := TrimPrefix restriction "Targets repos: " in
           if String.eqb targets "All repositories" then Some true
           else
             let targetList := Split targets ", " in
             match
               range_return targetList
                 (fun target =>
                    if String.eqb target repo || Contains target "*"
                    then Some true else None)
             with
             | Some r => Some r
             | None => Some false
             end
         else if Contains restriction "Excludes repos:" then
           let excludes := TrimPrefix restriction "Excludes repos: " in
           let excludeList := Split excludes ", " in
           range_return excludeList
             (fun exclude =>
                if String.eqb exclude repo || Contains exclude "*"
                then Some false else None)
         else None)
  with
  | Some r => r
  | None =>
      match
        range_return (Restrictions policy)
          (fun restriction =>
             if Contains restriction "Targets repos:" then Some false else None)
      with
      | Some r => r
      | None => true
      end
  end.

(** *** Slices of policies and their backing arrays

    A Go slice is a header: a pointer to a backing array, a length and a
    capacity; assigning a struct copies the headers it holds, not the
    arrays.  A task of the batch obtains its
    [deps.OrgGovernance.RepositoryPolicies] by copying the cached
    [orgCtx.Governance], and changes it by [append] alone.  So the header
    points either to the array of the cache, which every task of the batch
    reaches, with a length of its own, or to an array that one of the
    task's own calls of [append] allocated, which no other goroutine
    reaches; of the latter only the elements matter.  The array of the
    cache is the list [cells] of its elements, as long as its capacity. *)
Inductive PolicySlice : Type :=
| Cached (len : nat)
| Fresh (elements : list OrgPolicy).

(** [append(slice, policy)]: in place while the length is below the
    capacity, else into a new array that receives a copy of the elements. *)
Definition sliceAppend (cells : list OrgPolicy) (slice : PolicySlice) (policy : OrgPolicy)
  : list OrgPolicy * PolicySlice :=
  match slice with
  | Cached len =>
      if (len <? List.length cells)%nat then (<[len := policy]> cells, Cached (S len))
      else (cells, Fresh (take len cells ++ [policy]))
  | Fresh elements => (cells, Fresh (elements ++ [policy]))
  end.

(** The elements a reader finds behind the header. *)
Definition sliceElements (cells : list OrgPolicy) (slice : PolicySlice) : list OrgPolicy :=
  match slice with
  | Cached len => take len cells
  | Fresh elements => elements
  end.

(** The body of the loop of [filterOrgRulesetsForRepo]. *)
Definition filterPolicy (repo : string) (cells : list OrgPolicy) (slice : PolicySlice)
    (policy : OrgPolicy) : list OrgPolicy * PolicySlice :=
  if rulesetAppliesToRepo policy repo then
    sliceAppend cells slice
      (mkOrgPolicy (Name policy) (PolicyStatus policy) (Restrictions policy))
  else (cells, slice).

(** [filterOrgRulesetsForRepo], run without another goroutine in between;
    of [deps] it reads and writes the header
    [deps.OrgGovernance.RepositoryPolicies] alone. *)
Definition filterOrgRulesetsForRepo (owner repo : string) (orgGovernance : OrgGovernance)
    (cells : list OrgPolicy) (slice : PolicySlice)
  : list OrgPolicy * PolicySlice * option error :=
  (fold_left (fun '(cells, slice) policy => filterPolicy repo cells slice policy)
     (OrganizationPolicies orgGovernance) (cells, slice),
   None).

(** [analyzeRepositorySpecificGovernance]; the analyzer's context has been
    set by the time it runs, and the error of the filter is only logged. *)
Definition analyzeRepositorySpecificGovernance (orgCtx : OrganizationContext)
    (owner repo : string) (cells : list OrgPolicy) (slice : PolicySlice)
  : list OrgPolicy * PolicySlice * option error :=
  let '(cells, slice, _) :=
    filterOrgRulesetsForRepo owner repo (ctx_Governance orgCtx) cells slice in
  (cells, slice, None).

Definition zeroOrgPolicy : OrgPolicy := mkOrgPolicy "" "" [].

Definition zeroOrgInfo : OrgInfo :=
  mkOrgInfo "" false false false false false false false false false false false.

Definition zeroOrgGovernance : OrgGovernance := mkOrgGovernance [] [] [] [] [] [] [].

Definition zeroDependencies (repoSpec : string) : OrganizationalDependencies :=
  mkOrganizationalDependencies repoSpec
    (mkCodeDependencies [] [] [] [] [])
    (mkActionsCIDependencies [] [] [] [] [] [] [])
    (mkAccessPermissions [] [] [] [] [])
    (mkSecurityCompliance [])
    (mkAppsIntegrations [] [])
    zeroOrgGovernance
    None.

(** What a reader of [*deps] finds: the record, with the elements behind
    the header of its repository policies. *)
Definition withRepositoryPolicies (deps : OrganizationalDependencies)
    (policies : list OrgPolicy) : OrganizationalDependencies :=
  mkOrganizationalDependencies (Repository deps) (d_CodeDependencies deps)
    (d_ActionsCIDependencies deps) (d_AccessPermissions deps)
    (d_SecurityCompliance deps) (d_AppsIntegrations deps)
    (mkOrgGovernance (OrganizationPolicies (d_OrgGovernance deps))
       policies
       (MemberPrivileges (d_OrgGovernance deps))
       (RepositoryRulesets (d_OrgGovernance deps))
       (IssueTemplates (d_OrgGovernance deps))
       (PullRequestTemplates (d_OrgGovernance deps))
       (RequiredStatusChecks (d_OrgGovernance deps)))
    (Validation deps).

(** A slot of [results] while the tasks run: [Result] is a pointer to the
    task's [deps], that is the record and the header of its repository
    policies. *)
Record Slot : Type := mkSlot {
  slot_Repository : string;
  slot_Result : option (OrganizationalDependencies * PolicySlice);
  slot_Error : option error
}.

(** The slot as the caller reads it once [AnalyzeRepositories] has
    returned, when the array of the cache holds [cells]. *)
Definition readSlot (cells : list OrgPolicy) (slot : Slot) : BatchAnalysisResult :=
  mkBatchAnalysisResult (slot_Repository slot)
    (match slot_Result slot with
     | Some (deps, slice) => Some (withRepositoryPolicies deps (sliceElements cells slice))
     | None => None
     end)
    (slot_Error slot).

(** A task [go func(index, repository)] of [AnalyzeRepositories], at the
    points where the scheduler may switch to another task: in the loop of
    [filterOrgRulesetsForRepo] with the policies [remaining], about to
    return the error of [parseRepository], or returned. *)
Inductive Task : Type :=
| Filtering (repository repo : string) (deps : OrganizationalDependencies)
    (slice : PolicySlice) (remaining : list OrgPolicy)
| Failing (repository : string) (err : error)
| Finished.

(** The memory the tasks share: the array of the cache and [results]. *)
Record State : Type := mkState {
  st_cells : list OrgPolicy;
  st_tasks : list Task;
  st_results : list Slot
}.

(** The task [index] runs up to its next switching point: one turn of the
    loop of the filter, or the write [results[index] = ...] that ends it.
    No lock orders the turns of two tasks; a turn is taken as one step, and
    what is proved of a batch does not rest on what a cell holds while two
    tasks write it. *)
Definition step (state : State) (index : nat) : State :=
  match st_tasks state !! index with
  | Some (Filtering repository repo deps slice (policy :: remaining)) =>
      let '(cells, slice) := filterPolicy repo (st_cells state) slice policy in
      mkState cells
        (<[index := Filtering repository repo deps slice remaining]> (st_tasks state))
        (st_results state)
  | Some (Filtering repository repo deps slice []) =>
      mkState (st_cells state)
        (<[index := Finished]> (st_tasks state))
        (<[index := mkSlot repository (Some (deps, slice)) None]> (st_results state))
  | Some (Failing repository err) =>
      mkState (st_cells state)
        (<[index := Finished]> (st_tasks state))
        (<[index := mkSlot repository None (Some err)]> (st_results state))
  | Some Finished => state
  | None => state
  end.

Section Analyzer.
(** The field [client] of the [BatchAnalyzer].  Its field [verbose] only
    selects what is written to the error stream, which is not part of
    the results. *)
Variable client : Client.

(** The capacity that the runtime leaves a slice of [n] policies built
    from [nil] by [n] calls of [append], as
    [separatePoliciesForJSONOrgLevel] builds the cached repository
    policies. *)
Variable capacity : nat -> nat.

(** [loadSecurityCampaigns] *)
Definition loadSecurityCampaigns (owner : string) (ctx : OrganizationContext)
  : OrganizationContext * option error :=
  let '(campaigns, err) := GetSecurityCampaigns client owner in
  match err with
  | Some err => (ctx, Some err)
  | None =>
      (fold_left
         (fun ctx campaign =>
            mkOrganizationContext (ctx_Organization ctx) (ctx_Apps ctx)
              (ctx_Governance ctx) (ctx_SecurityCampaigns ctx ++ [snd campaign])
              (ctx_OrganizationRoles ctx) (ctx_OrgInfo ctx))
         campaigns ctx,
       None)
  end.

(** [loadOrganizationContext]: the four loaders fill disjoint fields of
    [ctx]; their errors are collected for the log and never returned. *)
Definition loadOrganizationContext (owner : string)
  : OrganizationContext * option error :=
  let ctx := mkOrganizationContext owner (mkOrgAppsIntegrations [])
               zeroOrgGovernance [] [] zeroOrgInfo in
  let '(apps, _) := AnalyzeAppsIntegrationsOrgLevel client owner (ctx_Apps ctx) in
  let ctx := mkOrganizationContext (ctx_Organization ctx) apps (ctx_Governance ctx)
               (ctx_SecurityCampaigns ctx) (ctx_OrganizationRoles ctx) (ctx_OrgInfo ctx) in
  let '(governance, _) := AnalyzeOrgGovernanceOrgLevel client owner (ctx_Governance ctx) in
  let ctx := mkOrganizationContext (ctx_Organization ctx) (ctx_Apps ctx) governance
               (ctx_SecurityCampaigns ctx) (ctx_OrganizationRoles ctx) (ctx_OrgInfo ctx) in
  let '(info, _) := GetOrgInfo client owner (ctx_OrgInfo ctx) in
  let ctx := mkOrganizationContext (ctx_Organization ctx) (ctx_Apps ctx) (ctx_Governance ctx)
               (ctx_SecurityCampaigns ctx) (ctx_OrganizationRoles ctx) info in
  let '(ctx, _) := loadSecurityCampaigns owner ctx in
  (ctx, None).

(** The array behind the cached [orgCtx.Governance.RepositoryPolicies]:
    its elements, and the cells that the capacity leaves spare. *)
Definition cacheArray (orgCtx : OrganizationContext) : list OrgPolicy :=
  let policies := RepositoryPolicies (ctx_Governance orgCtx) in
  policies
    ++ replicate (capacity (List.length policies) - List.length policies) zeroOrgPolicy.

(** The record [deps] of [analyzeRepositoryWithContext]: the copies from
    the context, and what the four analyzers of package [dependencies]
    write, each to the category it fills; what they return is only
    logged. *)
Definition repositoryRecord (orgCtx : OrganizationContext) (owner repo repoSpec : string)
  : OrganizationalDependencies :=
  let deps := zeroDependencies repoSpec in
  let deps :=
    mkOrganizationalDependencies (Repository deps) (d_CodeDependencies deps)
      (d_ActionsCIDependencies deps) (d_AccessPermissions deps)
      (d_SecurityCompliance deps)
      (mkAppsIntegrations (org_InstalledGitHubApps (ctx_Apps orgCtx))
         (PersonalAccessTokens (d_AppsIntegrations deps)))
      (ctx_Governance orgCtx)
      (Validation deps) in
  let '(code, _) := AnalyzeCodeDependencies client owner repo (d_CodeDependencies deps) in
  let '(ci, _) :=
    AnalyzeActionsCIDependencies client owner repo (d_ActionsCIDependencies deps) in
  let '(access, _) := AnalyzeAccessPermissions client owner repo (d_AccessPermissions deps) in
  let '(security, _) :=
    AnalyzeSecurityCompliance client owner repo (d_SecurityCompliance deps) in
  mkOrganizationalDependencies (Repository deps) code ci access security
    (d_AppsIntegrations deps) (d_OrgGovernance deps) (Validation deps).

(** [analyzeRepositoryWithContext], run without another goroutine in
    between: the header of the repository policies is the copy of the
    cached one, and the filter appends to it. *)
Definition analyzeRepositoryWithContext (orgCtx : OrganizationContext)
    (cells : list OrgPolicy) (repoSpec : string)
  : list OrgPolicy * option (OrganizationalDependencies * PolicySlice) * option error :=
  let '(owner, repo, err) := parseRepository repoSpec in
  match err with
  | Some err => (cells, None, Some err)
  | None =>
      let deps := repositoryRecord orgCtx owner repo repoSpec in
      let slice := Cached (List.length (RepositoryPolicies (ctx_Governance orgCtx))) in
      let '(cells, slice, _) :=
        analyzeRepositorySpecificGovernance orgCtx owner repo cells slice in
      (cells, Some (deps, slice), None)
  end.

(** The task started for [repository], before its first step. *)
Definition startTask (orgCtx : OrganizationContext) (repository : string) : Task :=
  let '(owner, repo, err) := parseRepository repository in
  match err with
  | Some err => Failing repository err
  | None =>
      Filtering repository repo (repositoryRecord orgCtx owner repo repository)
        (Cached (List.length (RepositoryPolicies (ctx_Governance orgCtx))))
        (OrganizationPolicies (ctx_Governance orgCtx))
  end.

(** The wait: every task that has not returned runs to its end. *)
Definition waitAll (orgCtx : OrganizationContext) (repos : list string) : list nat :=
  flat_map
    (fun index =>
       replicate (S (List.length (OrganizationPolicies (ctx_Governance orgCtx)))) index)
    (seq 0 (List.length repos)).

(** [AnalyzeRepositories].  One task is started per index of [repos];
    [schedule] lists the indices of the tasks in the order in which the
    scheduler lets them take their steps, after which the function waits
    for all of them and returns. *)
Definition AnalyzeRepositories (schedule : list nat) (repos : list string)
  : list BatchAnalysisResult * option error :=
  if (List.length repos =? 0)%nat then ([], Some "no repositories provided")
  else
    let '(owner, _, err) := parseRepository (nth 0 repos "") in
    match err with
    | Some err =>
        ([], Some ("failed to parse repository " +:+ nth 0 repos "" +:+ ": " +:+ err))
    | None =>
        let '(orgCtx, err) := loadOrganizationContext owner in
        match err with
        | Some err =>
            ([], Some ("failed to load organization context: " +:+ err))
        | None =>
            let results := replicate (List.length repos) (mkSlot "" None None) in
            let state :=
              mkState (cacheArray orgCtx) (map (startTask orgCtx) repos) results in
            let state := fold_left step (schedule ++ waitAll orgCtx repos) state in
            (map (readSlot (st_cells state)) (st_results state), None)
        end
    end.

End Analyzer.

End batch.

(** ** The REST client, endpoint by endpoint

    [client.Get(path, &response)] decodes the answer to [path] into a
    value of the type of [response] and returns an error or [nil].  The
    client is taken as one function per type of response: the decoded
    value, and the error. *)

Module rest.

(** An installation as the organization-level analyzer decodes it; of its
    fields these three are read. *)
Record Installation : Type := mkInstallation {
  AppName : string;
  AppSlug : string;
  App_Name : string
}.

(** A self-hosted runner as the scanner decodes it. *)
Record Runner : Type := mkRunner {
  runner_Name : string;
  runner_Status : string
}.

Record RESTClient : Type := mkRESTClient {
  (** [{installations: [...]}] *)
  GetInstallations : string -> list Installation * option batch.error;
  (** the organization record *)
  GetOrgInfo : string -> batch.OrgInfo * option batch.error;
  (** the rulesets of an organization *)
  GetRulesets : string -> list dependencies.OrgRuleset * option batch.error;
  (** a response of which only the error is looked at *)
  GetContent : string -> option batch.error;
  (** a bare array of [{app_name, app_slug}] *)
  GetAppList : string -> list (string * string) * option batch.error;
  (** the [name] fields of an array of records, bare or under one key *)
  GetNames : string -> list string * option batch.error;
  (** [{runners: [...]}] *)
  GetRunners : string -> list Runner * option batch.error
}.

End rest.

(** ** Package [dependencies]: the organization-level analyzers *)

Module orglevel.

Section Analyzers.

Variable ToLower : string -> string.
Variable client : rest.RESTClient.

(** [AnalyzeAppsIntegrationsOrgLevel] *)
Definition AnalyzeAppsIntegrationsOrgLevel (owner : string) (apps : OrgAppsIntegrations)
  : OrgAppsIntegrations * option batch.error :=
  let '(response, err) := rest.GetInstallations client ("orgs/" +:+ owner +:+ "/installations") in
  match err with
  | Some err => (apps, Some ("failed to get organization app installations: " +:+ err))
  | None =>
      (fold_left
         (fun apps installation =>
            let appInfo := rest.AppName installation in
            let appInfo :=
              if String.eqb appInfo "" then rest.AppSlug installation else appInfo in
            let appInfo :=
              if String.eqb appInfo "" && negb (String.eqb (rest.App_Name installation) "")
              then rest.App_Name installation else appInfo in
            mkOrgAppsIntegrations
              (org_InstalledGitHubApps apps ++ [appInfo +:+ " (org-wide installation)"]))
         response apps,
       None)
  end.

(** [governance.OrganizationPolicies = append(governance.OrganizationPolicies, policy)] *)
Definition appendPolicy (governance : OrgGovernance) (policy : OrgPolicy) : OrgGovernance :=
  mkOrgGovernance (OrganizationPolicies governance ++ [policy])
    (RepositoryPolicies governance) (MemberPrivileges governance)
    (RepositoryRulesets governance) (IssueTemplates governance)
    (PullRequestTemplates governance) (RequiredStatusChecks governance).

(** The restrictions [checkSecurityAndMemberPoliciesOrgLevel] collects
    under ["Member Management Policy"]. *)
Definition membershipRestrictions (orgInfo : batch.OrgInfo) : list string :=
  let membershipRestrictions := [] in
  let membershipRestrictions :=
    if negb (batch.MembersCanCreateRepos orgInfo)
    then membershipRestrictions ++ ["Repository creation restricted"]
    else membershipRestrictions in
  let membershipRestrictions :=
    if negb (batch.MembersCanForkPrivateRepos orgInfo)
    then membershipRestrictions ++ ["Private repository forking restricted"]
    else membershipRestrictions in
  let membershipRestrictions :=
    if negb (batch.MembersCanDeleteRepos orgInfo)
    then membershipRestrictions ++ ["Repository deletion restricted"]
    else membershipRestrictions in
  let membershipRestrictions :=
    if negb (batch.MembersCanDeleteIssues orgInfo)
    then membershipRestrictions ++ ["Issue deletion restricted"]
    else membershipRestrictions in
  if negb (batch.MembersCanCreateTeams orgInfo)
  then membershipRestrictions ++ ["Team creation restricted"]
  else membershipRestrictions.

(** The restrictions it collects under ["Security Policy"]. *)
Definition securityRestrictions (orgInfo : batch.OrgInfo) : list string :=
  let securityRestrictions := [] in
  let securityRestrictions :=
    if batch.TwoFactorRequirementEnabled orgInfo
    then securityRestrictions ++ ["Two-factor authentication required"]
    else securityRestrictions in
  let securityRestrictions :=
    if batch.oi_WebCommitSignoffRequired orgInfo
    then securityRestrictions ++ ["Web commit signoff required"]
    else securityRestrictions in
  if negb (String.eqb (batch.DefaultRepositoryPermission orgInfo) "read")
  then securityRestrictions
         ++ ["Default repository permission: " +:+ batch.DefaultRepositoryPermission orgInfo]
  else securityRestrictions.

(** [checkSecurityAndMemberPoliciesOrgLevel] *)
Definition checkSecurityAndMemberPoliciesOrgLevel (owner : string) (governance : OrgGovernance)
  : OrgGovernance * option batch.error :=
  let '(orgInfo, err) := rest.GetOrgInfo client ("orgs/" +:+ owner) in
  match err with
  | Some err => (governance, Some ("failed to get organization info: " +:+ err))
  | None =>
      let governance :=
        if (0 <? List.length (membershipRestrictions orgInfo))%nat then
          appendPolicy governance
            (mkOrgPolicy "Member Management Policy" "active" (membershipRestrictions orgInfo))
        else governance in
      let governance :=
        if (0 <? List.length (securityRestrictions orgInfo))%nat then
          appendPolicy governance
            (mkOrgPolicy "Security Policy" "active" (securityRestrictions orgInfo))
        else governance in
      (governance, None)
  end.

(** [analyzeOrgRepositoryRulesets]: a failed request is not an error. *)
Definition analyzeOrgRepositoryRulesets (owner : string) (governance : OrgGovernance)
  : OrgGovernance * option batch.error :=
  let '(rulesets, err) := rest.GetRulesets client ("orgs/" +:+ owner +:+ "/rulesets") in
  match err with
  | Some _ => (governance, None)
  | None =>
      (fold_left
         (fun governance ruleset =>
            if String.eqb (dependencies.Target ruleset) "repository"
            then appendPolicy governance (dependencies.rulesetPolicy ruleset)
            else governance)
         rulesets governance,
       None)
  end.

(** [analyzeSecurityPoliciesOrgLevel] *)
Definition analyzeSecurityPoliciesOrgLevel (owner : string) (governance : OrgGovernance)
  : OrgGovernance * option batch.error :=
  let governance :=
    match rest.GetContent client ("repos/" +:+ owner +:+ "/.github/contents/SECURITY.md") with
    | None =>
        appendPolicy governance
          (mkOrgPolicy "Organization Security Policy" "active" ["SECURITY.md file present"])
    | Some _ => governance
    end in
  let governance :=
    match rest.GetContent client
            ("repos/" +:+ owner +:+ "/.github/contents/.github/dependabot.yml") with
    | None =>
        appendPolicy governance
          (mkOrgPolicy "Dependabot Configuration Policy" "active"
             ["Automated dependency updates configured"])
    | Some _ => governance
    end in
  (governance, None).

(** [analyzeOrganizationPoliciesOrgLevel] *)
Definition analyzeOrganizationPoliciesOrgLevel (owner : string) (governance : OrgGovernance)
  : OrgGovernance * option batch.error :=
  let '(governance, err) := checkSecurityAndMemberPoliciesOrgLevel owner governance in
  match err with
  | Some err => (governance, Some ("failed to check security and member policies: " +:+ err))
  | None =>
      let '(governance, err) := analyzeOrgRepositoryRulesets owner governance in
      match err with
      | Some err => (governance, Some ("failed to analyze org repository rulesets: " +:+ err))
      | None =>
          let '(governance, err) := analyzeSecurityPoliciesOrgLevel owner governance in
          match err with
          | Some err => (governance, Some ("failed to analyze security policies: " +:+ err))
          | None => (governance, None)
          end
      end
  end.

(** The first of [locations] that the [.github] repository of [owner]
    holds, as the template loops record it before their [break]. *)
Definition firstTemplate (owner : string) (locations : list string) : option string :=
  range_return locations
    (fun location =>
       match rest.GetContent client
               ("repos/" +:+ owner +:+ "/" +:+ ".github" +:+ "/contents/" +:+ location) with
       | None => Some (location +:+ " in " +:+ owner +:+ "/" +:+ ".github")
       | Some _ => None
       end).

(** [analyzeOrganizationTemplates] *)
Definition analyzeOrganizationTemplates (owner : string) (governance : OrgGovernance)
  : OrgGovernance * option batch.error :=
  match rest.GetContent client ("repos/" +:+ owner +:+ "/" +:+ ".github") with
  | Some _ => (governance, None)
  | None =>
      let governance :=
        match firstTemplate owner [".github/ISSUE_TEMPLATE"; "ISSUE_TEMPLATE"] with
        | Some templateInfo =>
            mkOrgGovernance (OrganizationPolicies governance)
              (RepositoryPolicies governance) (MemberPrivileges governance)
              (RepositoryRulesets governance) (IssueTemplates governance ++ [templateInfo])
              (PullRequestTemplates governance) (RequiredStatusChecks governance)
        | None => governance
        end in
      let governance :=
        match firstTemplate owner [".github/PULL_REQUEST_TEMPLATE"; "PULL_REQUEST_TEMPLATE"] with
        | Some templateInfo =>
            mkOrgGovernance (OrganizationPolicies governance)
              (RepositoryPolicies governance) (MemberPrivileges governance)
              (RepositoryRulesets governance) (IssueTemplates governance)
              (PullRequestTemplates governance ++ [templateInfo])
              (RequiredStatusChecks governance)
        | None => governance
        end in
      (governance, None)
  end.

(** [separatePoliciesForJSONOrgLevel] *)
Definition separatePoliciesForJSONOrgLevel (governance : OrgGovernance) : OrgGovernance :=
  let '(repoPolicies, memberPrivileges) :=
    fold_left
      (fun '(repoPolicies, memberPrivileges) policy =>
         if dependencies.isMemberPrivilegePolicyOrgLevel ToLower policy then
           (repoPolicies,
            fold_left (fun memberPrivileges restriction => memberPrivileges ++ [restriction])
              (Restrictions policy) memberPrivileges)
         else (repoPolicies ++ [policy], memberPrivileges))
      (OrganizationPolicies governance) ([], []) in
  mkOrgGovernance (OrganizationPolicies governance) repoPolicies memberPrivileges
    (RepositoryRulesets governance) (IssueTemplates governance)
    (PullRequestTemplates governance) (RequiredStatusChecks governance).

(** [AnalyzeOrgGovernanceOrgLevel] *)
Definition AnalyzeOrgGovernanceOrgLevel (owner : string) (governance : OrgGovernance)
  : OrgGovernance * option batch.error :=
  let '(governance, err) := analyzeOrganizationPoliciesOrgLevel owner governance in
  match err with
  | Some err => (governance, Some ("could not access organization policies: " +:+ err))
  | None =>
      let '(governance, err) := analyzeOrganizationTemplates owner governance in
      match err with
      | Some err => (governance, Some ("could not analyze organization templates: " +:+ err))
      | None => (separatePoliciesForJSONOrgLevel governance, None)
      end
  end.

End Analyzers.

End orglevel.

(** ** Package [validation]: the scanner of the target organization *)

Module scanner.

Section Scanner.

Variable ToLower : string -> string.
Variable client : rest.RESTClient.

(** [scanRepositoryPolicies] builds a list of policies from three
    endpoints, reading untyped rule parameters and printing floating-point
    numbers; the list it builds enters as [policiesFound]. *)
Variable policiesFound : string -> list OrgPolicy.

(** [scanRepositoryPolicies]: its last statements, which store the list
    and return no error. *)
Definition scanRepositoryPolicies (targetOrg : string) (capabilities : TargetOrgCapabilities)
  : TargetOrgCapabilities * option batch.error :=
  (mkTargetOrgCapabilities (Organization capabilities)
     (Apps capabilities) (Teams capabilities)
     (policiesFound targetOrg) (cap_MemberPrivileges capabilities)
     (Rulesets capabilities) (Secrets capabilities) (Variables capabilities)
     (Runners capabilities),
   None).

(** [scanAvailableApps] *)
Definition scanAvailableApps (targetOrg : string) (capabilities : TargetOrgCapabilities)
  : TargetOrgCapabilities * option batch.error :=
  let '(installations, err) :=
    rest.GetAppList client ("orgs/" +:+ targetOrg +:+ "/installations") in
  match err with
  | Some err => (capabilities, Some ("failed to get app installations: " +:+ err))
  | None =>
      (fold_left
         (fun capabilities installation =>
            let appInfo := fst installation in
            let appInfo := if String.eqb appInfo "" then snd installation else appInfo in
            mkTargetOrgCapabilities (Organization capabilities)
              (Apps capabilities ++ [appInfo]) (Teams capabilities)
              (cap_RepositoryPolicies capabilities) (cap_MemberPrivileges capabilities)
              (Rulesets capabilities) (Secrets capabilities) (Variables capabilities)
              (Runners capabilities))
         installations capabilities,
       None)
  end.

(** [scanAvailableTeams] *)
Definition scanAvailableTeams (targetOrg : string) (capabilities : TargetOrgCapabilities)
  : TargetOrgCapabilities * option batch.error :=
  let '(teams, err) := rest.GetNames client ("orgs/" +:+ targetOrg +:+ "/teams") in
  match err with
  | Some err => (capabilities, Some ("failed to get teams: " +:+ err))
  | None =>
      (fold_left
         (fun capabilities team =>
            mkTargetOrgCapabilities (Organization capabilities)
              (Apps capabilities) (Teams capabilities ++ [team])
              (cap_RepositoryPolicies capabilities) (cap_MemberPrivileges capabilities)
              (Rulesets capabilities) (Secrets capabilities) (Variables capabilities)
              (Runners capabilities))
         teams capabilities,
       None)
  end.

(** The restrictions [scanMemberPrivileges] lists as active. *)
Definition activeRestrictions (orgInfo : batch.OrgInfo) : list string :=
  let restrictions := [] in
  let restrictions :=
    if negb (batch.MembersCanCreateRepos orgInfo)
    then restrictions ++ ["Repository creation restricted"] else restrictions in
  let restrictions :=
    if negb (batch.MembersCanForkPrivateRepos orgInfo)
    then restrictions ++ ["Private repository forking restricted"] else restrictions in
  let restrictions :=
    if batch.TwoFactorRequirementEnabled orgInfo
    then restrictions ++ ["Two-factor authentication required"] else restrictions in
  if batch.oi_WebCommitSignoffRequired orgInfo
  then restrictions ++ ["Web commit signoff required"] else restrictions.

(** The member privileges [scanMemberPrivileges] stores for an
    organization record. *)
Definition memberPrivilegesOf (orgInfo : batch.OrgInfo) : OrgMemberPrivileges :=
  mkOrgMemberPrivileges (batch.MembersCanCreateRepos orgInfo)
    (batch.MembersCanForkPrivateRepos orgInfo)
    (batch.TwoFactorRequirementEnabled orgInfo)
    (batch.oi_WebCommitSignoffRequired orgInfo)
    (batch.DefaultRepositoryPermission orgInfo)
    (activeRestrictions orgInfo).

(** [scanMemberPrivileges] *)
Definition scanMemberPrivileges (targetOrg : string) (capabilities : TargetOrgCapabilities)
  : TargetOrgCapabilities * option batch.error :=
  let '(orgInfo, err) := rest.GetOrgInfo client ("orgs/" +:+ targetOrg) in
  match err with
  | Some err => (capabilities, Some ("failed to get organization info: " +:+ err))
  | None =>
      (mkTargetOrgCapabilities (Organization capabilities)
         (Apps capabilities) (Teams capabilities)
         (cap_RepositoryPolicies capabilities) (memberPrivilegesOf orgInfo)
         (Rulesets capabilities) (Secrets capabilities) (Variables capabilities)
         (Runners capabilities),
       None)
  end.

(** [scanAvailableSecrets] *)
Definition scanAvailableSecrets (targetOrg : string) (capabilities : TargetOrgCapabilities)
  : TargetOrgCapabilities * option batch.error :=
  let '(secrets, err) := rest.GetNames client ("orgs/" +:+ targetOrg +:+ "/actions/secrets") in
  match err with
  | Some err => (capabilities, Some ("failed to get secrets: " +:+ err))
  | None =>
      (fold_left
         (fun capabilities secret =>
            mkTargetOrgCapabilities (Organization capabilities)
              (Apps capabilities) (Teams capabilities)
              (cap_RepositoryPolicies capabilities) (cap_MemberPrivileges capabilities)
              (Rulesets capabilities) (Secrets capabilities ++ [secret])
              (Variables capabilities) (Runners capabilities))
         secrets capabilities,
       None)
  end.

(** [scanAvailableVariables] *)
Definition scanAvailableVariables (targetOrg : string) (capabilities : TargetOrgCapabilities)
  : TargetOrgCapabilities * option batch.error :=
  let '(variables, err) :=
    rest.GetNames client ("orgs/" +:+ targetOrg +:+ "/actions/variables") in
  match err with
  | Some err => (capabilities, Some ("failed to get variables: " +:+ err))
  | None =>
      (fold_left
         (fun capabilities variable =>
            mkTargetOrgCapabilities (Organization capabilities)
              (Apps capabilities) (Teams capabilities)
              (cap_RepositoryPolicies capabilities) (cap_MemberPrivileges capabilities)
              (Rulesets capabilities) (Secrets capabilities)
              (Variables capabilities ++ [variable]) (Runners capabilities))
         variables capabilities,
       None)
  end.

(** [scanAvailableRunners]: the runners whose status is ["online"]. *)
Definition scanAvailableRunners (targetOrg : string) (capabilities : TargetOrgCapabilities)
  : TargetOrgCapabilities * option batch.error :=
  let '(runners, err) := rest.GetRunners client ("orgs/" +:+ targetOrg +:+ "/actions/runners") in
  match err with
  | Some err => (capabilities, Some ("failed to get runners: " +:+ err))
  | None =>
      (fold_left
         (fun capabilities runner =>
            if String.eqb (ToLower (rest.runner_Status runner)) "online" then
              mkTargetOrgCapabilities (Organization capabilities)
                (Apps capabilities) (Teams capabilities)
                (cap_RepositoryPolicies capabilities) (cap_MemberPrivileges capabilities)
                (Rulesets capabilities) (Secrets capabilities)
                (Variables capabilities) (Runners capabilities ++ [rest.runner_Name runner])
            else capabilities)
         runners capabilities,
       None)
  end.

(** [ScanTargetOrganization]: the error of each scan is only logged. *)
Definition ScanTargetOrganization (targetOrg : string)
  : TargetOrgCapabilities * option batch.error :=
  let capabilities :=
    mkTargetOrgCapabilities targetOrg [] [] []
      (mkOrgMemberPrivileges false false false false "" []) [] [] [] [] in
  let '(capabilities, _) := scanAvailableApps targetOrg capabilities in
  let '(capabilities, _) := scanAvailableTeams targetOrg capabilities in
  let '(capabilities, _) := scanRepositoryPolicies targetOrg capabilities in
  let '(capabilities, _) := scanMemberPrivileges targetOrg capabilities in
  let '(capabilities, _) := scanAvailableSecrets targetOrg capabilities in
  let '(capabilities, _) := scanAvailableVariables targetOrg capabilities in
  let '(capabilities, _) := scanAvailableRunners targetOrg capabilities in
  (capabilities, None).

End Scanner.

End scanner.

(** ** Package [dependencies]: governance of a single repository *)

Module governance.

Section Governance.

Variable ToLower : string -> string.
Variable client : rest.RESTClient.

(** [isRepositoryRuleset] *)
Definition isRepositoryRuleset (policy : OrgPolicy) : bool :=
  if HasPrefix (Name policy) "Repository Ruleset:" then true
  else
    match
      range_return (Restrictions policy)
        (fun restriction =>
           let restrictionLower := ToLower restriction in
           if Contains restrictionLower "applies to:"
              || Contains restrictionLower "deletion restrictions"
              || Contains restrictionLower "pull request rules"
              || Contains restrictionLower "non_fast_forward"
              || Contains restrictionLower "workflows"
              || Contains restrictionLower "force push"
              || Contains restrictionLower "linear history"
              || Contains restrictionLower "required signatures"
              || Contains restrictionLower "required status checks"
           then Some true else None)
    with
    | Some answer => answer
    | None =>
        match
          range_return (Restrictions policy)
            (fun restriction =>
               let restrictionLower := ToLower restriction in
               if Contains restrictionLower "repository_visibility"
                  || Contains restrictionLower "repository_create"
                  || Contains restrictionLower "repository_delete"
               then Some false else None)
        with
        | Some answer => answer
        | None => false
        end
    end.

(** [deps.OrgGovernance.OrganizationPolicies = policies] *)
Definition withOrganizationPolicies (deps : OrganizationalDependencies)
    (policies : list OrgPolicy) : OrganizationalDependencies :=
  mkOrganizationalDependencies (Repository deps) (d_CodeDependencies deps)
    (d_ActionsCIDependencies deps) (d_AccessPermissions deps)
    (d_SecurityCompliance deps) (d_AppsIntegrations deps)
    (mkOrgGovernance policies
       (RepositoryPolicies (d_OrgGovernance deps))
       (MemberPrivileges (d_OrgGovernance deps))
       (RepositoryRulesets (d_OrgGovernance deps))
       (IssueTemplates (d_OrgGovernance deps))
       (PullRequestTemplates (d_OrgGovernance deps))
       (RequiredStatusChecks (d_OrgGovernance deps)))
    (Validation deps).

(** [analyzeOrgLevelRepositoryRulesets]; the restriction strings and the
    policy record are built as in [analyzeOrgRepositoryRulesets]. *)
Definition analyzeOrgLevelRepositoryRulesets (owner repo : string)
    (deps : OrganizationalDependencies) : OrganizationalDependencies * option batch.error :=
  let '(rulesets, err) := rest.GetRulesets client ("orgs/" +:+ owner +:+ "/rulesets") in
  match err with
  | Some err => (deps, Some ("failed to get org rulesets: " +:+ err))
  | None =>
      (fold_left
         (fun deps ruleset =>
            if String.eqb (dependencies.Target ruleset) "repository"
               && dependencies.rulesetAppliesToRepo ruleset repo
            then
              let orgPolicy := dependencies.rulesetPolicy ruleset in
              withOrganizationPolicies deps
                (OrganizationPolicies (d_OrgGovernance deps) ++ [orgPolicy])
            else deps)
         rulesets deps,
       None)
  end.

(** [separatePoliciesForJSON]; its [isMemberPrivilegePolicy] has the body
    of [isMemberPrivilegePolicyOrgLevel]. *)
Definition separatePoliciesForJSON (deps : OrganizationalDependencies)
  : OrganizationalDependencies :=
  let '(repoPolicies, repoRulesets, memberPrivileges) :=
    fold_left
      (fun '(repoPolicies, repoRulesets, memberPrivileges) policy =>
         if dependencies.isMemberPrivilegePolicyOrgLevel ToLower policy then
           (repoPolicies, repoRulesets,
            fold_left (fun memberPrivileges restriction => memberPrivileges ++ [restriction])
              (Restrictions policy) memberPrivileges)
         else if isRepositoryRuleset policy then
           (repoPolicies, repoRulesets ++ [policy], memberPrivileges)
         else (repoPolicies ++ [policy], repoRulesets, memberPrivileges))
      (OrganizationPolicies (d_OrgGovernance deps)) ([], [], []) in
  mkOrganizationalDependencies (Repository deps) (d_CodeDependencies deps)
    (d_ActionsCIDependencies deps) (d_AccessPermissions deps)
    (d_SecurityCompliance deps) (d_AppsIntegrations deps)
    (mkOrgGovernance (OrganizationPolicies (d_OrgGovernance deps))
       repoPolicies memberPrivileges repoRulesets
       (IssueTemplates (d_OrgGovernance deps))
       (PullRequestTemplates (d_OrgGovernance deps))
       (RequiredStatusChecks (d_OrgGovernance deps)))
    (Validation deps).

End Governance.

End governance.


(** * Specification predicates and sample data *)

(** ** Statuses and counters *)

(** The five statuses the classifier hands out. *)
Definition assigned_status (st : ValidationStatus) : Prop :=
  st = ValidationReady \/ st = ValidationSetupNeeded \/ st = ValidationBlocker \/
  st = ValidationWarning \/ st = ValidationReview.

(** After [n] results every counter is non-negative and the six status
    counters add up to [Total], which is [n]. *)
Definition summary_ok (n : Z) (s : ValidationSummary) : Prop :=
  0 <= Ready s /\ 0 <= SetupNeeded s /\ 0 <= Blockers s /\ 0 <= Warnings s /\
  0 <= Review s /\ 0 <= Unknown s /\
  Total s = Ready s + SetupNeeded s + Blockers s + Warnings s + Review s + Unknown s /\
  Total s = n.

(** The precedence in the words of the specification: blockers, then
    setup_needed or review, then warnings, then ready = total, else unknown. *)
Definition readiness_by_precedence (s : ValidationSummary) (r : ValidationStatus) : Prop :=
  (Blockers s > 0 -> r = ValidationBlocker) /\
  (Blockers s <= 0 -> SetupNeeded s > 0 \/ Review s > 0 -> r = ValidationSetupNeeded) /\
  (Blockers s <= 0 -> SetupNeeded s <= 0 -> Review s <= 0 -> Warnings s > 0 ->
   r = ValidationWarning) /\
  (Blockers s <= 0 -> SetupNeeded s <= 0 -> Review s <= 0 -> Warnings s <= 0 ->
   Ready s = Total s -> r = ValidationReady) /\
  (Blockers s <= 0 -> SetupNeeded s <= 0 -> Review s <= 0 -> Warnings s <= 0 ->
   Ready s <> Total s -> r = ValidationUnknown).

(** ** CODEOWNERS requirements *)

(** A requirement that starts with ["Team: @"] and whose remainder is not
    two segments around one ['/'], or that starts with neither ["Team: @"]
    nor ["User: @"]. *)
Definition codeowners_skipped (requirement : string) : Prop :=
  (HasPrefix requirement "Team: @" = true /\
   List.length (Split (TrimPrefix requirement "Team: @") "/") <> 2%nat)
  \/ (HasPrefix requirement "Team: @" = false /\ HasPrefix requirement "User: @" = false).

(** [deps] with [requirements] for its CODEOWNERS requirements. *)
Definition withCodeowners (deps : OrganizationalDependencies) (requirements : list string)
  : OrganizationalDependencies :=
  mkOrganizationalDependencies (Repository deps) (d_CodeDependencies deps)
    (d_ActionsCIDependencies deps)
    (mkAccessPermissions (AccessTeams (d_AccessPermissions deps))
       (IndividualCollaborators (d_AccessPermissions deps))
       (OrganizationRoles (d_AccessPermissions deps))
       (OrganizationMembership (d_AccessPermissions deps))
       requirements)
    (d_SecurityCompliance deps) (d_AppsIntegrations deps) (d_OrgGovernance deps)
    (Validation deps).

(** ** A sample repository and target organization *)

Definition sampleCapabilities : TargetOrgCapabilities :=
  mkTargetOrgCapabilities "target-org"
    ["Dependabot"]
    ["Frontend"]
    [mkOrgPolicy "Branch Protection Policy" "active" []]
    (mkOrgMemberPrivileges true true false false "read" [])
    []
    ["NPM_TOKEN"]
    []
    [].

(** The policy [checkSecurityAndMemberPoliciesOrgLevel] stores for an
    organization that requires two-factor authentication. *)
Definition securityPolicy : OrgPolicy :=
  mkOrgPolicy "Security Policy" "active" ["Two-factor authentication required"].

Definition sampleDependencies : OrganizationalDependencies :=
  mkOrganizationalDependencies "acme/site"
    (mkCodeDependencies [] ["libs/core -> github.com/other/core (external dependency)"] [] [] [])
    (mkActionsCIDependencies ["NPM_TOKEN"; "DEPLOY_KEY"] [] [] [] [] [] [])
    (mkAccessPermissions ["frontend (write)"; "backend (admin)"] ["alice"] [] []
       ["Team: @acme/frontend"; "User: @alice"; "Team: @frontend"; "docs/ @bob"])
    (mkSecurityCompliance [])
    (mkAppsIntegrations
       ["dependabot (org-wide installation)"; "my-codecov-bot"; "acme-deployer"] [])
    (mkOrgGovernance
       [securityPolicy; mkOrgPolicy "Branch Protection Policy" "active" ["Enforcement: active"]]
       [] [] [] [".github/ISSUE_TEMPLATE/bug.md"] [] [])
    None.

Definition sampleValidation : MigrationValidation :=
  validation.ValidateAgainstTarget ToLowerASCII EqualFoldASCII
    sampleDependencies sampleCapabilities false.

(** ** Ruleset conditions *)

Definition includeNames (ruleset : dependencies.OrgRuleset) : list string :=
  dependencies.rn_Include (dependencies.RepositoryName (dependencies.Conditions ruleset)).

Definition excludeNames (ruleset : dependencies.OrgRuleset) : list string :=
  dependencies.rn_Exclude (dependencies.RepositoryName (dependencies.Conditions ruleset)).

(** The test both resolvers apply to an entry: [entry == repo ||
    strings.Contains(entry, "*")]. *)
Definition entry_matches (repo entry : string) : bool :=
  String.eqb entry repo || Contains entry "*".

(** The entry equals the repository name or contains the character ['*']. *)
Definition name_matches (repo entry : string) : Prop :=
  entry = repo \/ Contains entry "*" = true.

(** A ruleset for the repositories [web-*], [web-legacy] excepted. *)
Definition webRuleset : dependencies.OrgRuleset :=
  dependencies.mkOrgRuleset 7 "web rules" "active" "Organization" "repository"
    (dependencies.mkRulesetConditions
       (dependencies.mkNameCondition [] [])
       (dependencies.mkRepositoryNameCondition ["web-*"] ["web-legacy"] false)
       (dependencies.mkNameCondition [] []))
    ["deletion"].

(** ** Batches *)

(** The identifier does not split on ['/'] into exactly a domain and a name. *)
Definition malformed (repoSpec : string) : Prop :=
  List.length (Split repoSpec "/") <> 2%nat.

(** The error [parseRepository] returns. *)
Definition batch_format_error : batch.error := "repository must be in format 'owner/repo'".

(** The organization context of a batch: loaded for the owner named by
    the first repository. *)
Definition batch_context (client : batch.Client) (repos : list string)
  : batch.OrganizationContext :=
  fst (batch.loadOrganizationContext client (fst (fst (batch.parseRepository (nth 0 repos ""))))).

(** The name of the repository in an identifier. *)
Definition repositoryName (repoSpec : string) : string :=
  snd (fst (batch.parseRepository repoSpec)).

(** The cached organization policies that the free-text resolver accepts
    for the repository of an identifier. *)
Definition acceptedPolicies (orgCtx : batch.OrganizationContext) (repoSpec : string)
  : list OrgPolicy :=
  List.filter (fun policy => batch.rulesetAppliesToRepo policy (repositoryName repoSpec))
    (OrganizationPolicies (batch.ctx_Governance orgCtx)).

(** The cached repository policies. *)
Definition cachedPolicies (orgCtx : batch.OrganizationContext) : list OrgPolicy :=
  RepositoryPolicies (batch.ctx_Governance orgCtx).

(** The schedule without the steps of the task [index]. *)
Definition withoutTask (index : nat) (schedule : list nat) : list nat :=
  List.filter (fun other => negb (other =? index)%nat) schedule.

(** A capacity that leaves no cell spare. *)
Definition fullCapacity (n : nat) : nat := n.

(** The capacity of a slice that doubles from one cell, as the runtime
    grows a short slice of policies: the least power of two that holds [n]
    elements. *)
Definition doublingCapacity (n : nat) : nat :=
  if (n =? 0)%nat then 0%nat
  else fold_left (fun cap _ => if (cap <? n)%nat then (2 * cap)%nat else cap) (seq 0 n) 1%nat.

(** A client whose every request succeeds and finds nothing. *)
Definition quietClient : batch.Client :=
  batch.mkClient
    (fun _ _ deps => (deps, None))
    (fun _ _ deps => (deps, None))
    (fun _ _ deps => (deps, None))
    (fun _ _ deps => (deps, None))
    (fun _ apps => (apps, None))
    (fun _ governance => (governance, None))
    (fun _ info => (info, None))
    (fun _ => ([], None)).

(** ** Counting results by status *)

(** The number of results of [l] whose status is [st]. *)
Definition count_status (st : ValidationStatus) (l : list ValidationResult) : nat :=
  List.length (List.filter (fun r => String.eqb (Status r) st) l).

(** The number of results of [l] whose status is none of the five that
    [calculateSummary] names. *)
Definition count_unnamed (l : list ValidationResult) : nat :=
  List.length
    (List.filter
       (fun r =>
          negb (String.eqb (Status r) ValidationReady)
          && negb (String.eqb (Status r) ValidationSetupNeeded)
          && negb (String.eqb (Status r) ValidationBlocker)
          && negb (String.eqb (Status r) ValidationWarning)
          && negb (String.eqb (Status r) ValidationReview))
       l).

(** Every counter of [s] is the number of results of [l] with its status. *)
Definition summary_counts (l : list ValidationResult) (s : ValidationSummary) : Prop :=
  Ready s = Z.of_nat (count_status ValidationReady l)
  /\ SetupNeeded s = Z.of_nat (count_status ValidationSetupNeeded l)
  /\ Blockers s = Z.of_nat (count_status ValidationBlocker l)
  /\ Warnings s = Z.of_nat (count_status ValidationWarning l)
  /\ Review s = Z.of_nat (count_status ValidationReview l)
  /\ Unknown s = Z.of_nat (count_unnamed l)
  /\ Total s = Z.of_nat (List.length l).

(** The statuses of the categories that are never blocking. *)
Definition mild_status (st : ValidationStatus) : Prop :=
  st = ValidationReady \/ st = ValidationSetupNeeded \/ st = ValidationReview.

(** The CODEOWNERS requirements [validateAccessPermissions] gives a result
    to: a team reference with two segments, or a user reference. *)
Definition codeowners_kept (requirement : string) : bool :=
  if HasPrefix requirement "Team: @" then
    (List.length (Split (TrimPrefix requirement "Team: @") "/") =? 2)%nat
  else HasPrefix requirement "User: @".

(** ** Bytes of a string *)

(** The number of bytes of [s] equal to [c]. *)
Fixpoint count_byte (c : ascii) (s : string) : nat :=
  match s with
  | EmptyString => 0
  | String d s' => (if Ascii.eqb d c then 1 else 0) + count_byte c s'
  end.

(** ** Restriction strings *)

(** A restriction string that mentions no targeting. *)
Definition plain_restriction (restriction : string) : Prop :=
  Contains restriction "Targets repos:" = false
  /\ Contains restriction "Excludes repos:" = false.

(** Names that survive being joined with [", "] and split again. *)
Definition splittable (names : list string) : Prop :=
  forall name, In name names -> Contains name ", " = false.

(** ** Installations *)

(** The name [AnalyzeAppsIntegrationsOrgLevel] chooses for an installation:
    its app name, else its slug, else the name of its app. *)
Definition installationName (installation : rest.Installation) : string :=
  if negb (String.eqb (rest.AppName installation) "") then rest.AppName installation
  else if negb (String.eqb (rest.AppSlug installation) "") then rest.AppSlug installation
  else rest.App_Name installation.

(** A target whose member privileges are all restricted. *)
Definition strictest (targetPrivileges : OrgMemberPrivileges) : Prop :=
  CanCreateRepos targetPrivileges = false
  /\ CanForkPrivateRepos targetPrivileges = false
  /\ TwoFactorRequired targetPrivileges = true
  /\ WebCommitSignoffRequired targetPrivileges = true.

(** ** Governance records *)

(** [g'] is [g] with [policies] appended to its organization policies. *)
Definition policies_appended (g g' : OrgGovernance) : Prop :=
  exists policies,
    g' = mkOrgGovernance (OrganizationPolicies g ++ policies) (RepositoryPolicies g)
           (MemberPrivileges g) (RepositoryRulesets g) (IssueTemplates g)
           (PullRequestTemplates g) (RequiredStatusChecks g).

(** [g'] differs from [g] at most by policies appended to its organization
    policies and by templates appended to its template lists. *)
Definition governance_extends (g g' : OrgGovernance) : Prop :=
  (exists policies, OrganizationPolicies g' = OrganizationPolicies g ++ policies)
  /\ (exists templates,
         IssueTemplates g' = IssueTemplates g ++ templates
         /\ (List.length templates <= 1)%nat)
  /\ (exists templates,
         PullRequestTemplates g' = PullRequestTemplates g ++ templates
         /\ (List.length templates <= 1)%nat)
  /\ RepositoryRulesets g' = RepositoryRulesets g
  /\ RequiredStatusChecks g' = RequiredStatusChecks g.

(** ** Answers of the client *)

(** The list a request answered, or no element when it failed. *)
Definition answered {A : Type} (response : list A * option batch.error) : list A :=
  match snd response with
  | None => fst response
  | Some _ => []
  end.

(** The name [scanAvailableApps] keeps of an installation: its app name,
    else its slug. *)
Definition listedAppName (installation : string * string) : string :=
  if String.eqb (fst installation) "" then snd installation else fst installation.

(** ** A sample organization behind the REST client *)

(** An organization record with every member privilege restricted. *)
Definition strictOrgInfo : batch.OrgInfo :=
  batch.mkOrgInfo "read" false false false false false false true false false false true.

(** A ruleset for the repositories [web-*] and [api], nothing excepted. *)
Definition includeRuleset : dependencies.OrgRuleset :=
  dependencies.mkOrgRuleset 8 "release rules" "active" "Organization" "repository"
    (dependencies.mkRulesetConditions
       (dependencies.mkNameCondition [] [])
       (dependencies.mkRepositoryNameCondition ["web-*"; "api"] [] false)
       (dependencies.mkNameCondition [] []))
    ["deletion"; "non_fast_forward"].

(** The client of an organization with one installation and one ruleset,
    whose teams cannot be listed. *)
Definition sampleREST : rest.RESTClient :=
  rest.mkRESTClient
    (fun _ => ([rest.mkInstallation "" "deploy-bot" ""], None))
    (fun _ => (strictOrgInfo, None))
    (fun _ => ([includeRuleset], None))
    (fun _ => None)
    (fun _ => ([("", "deploy-bot")], None))
    (fun path =>
       if String.eqb path "orgs/acme/teams" then ([], Some "HTTP 403")
       else (["NPM_TOKEN"], None))
    (fun _ => ([rest.mkRunner "builder-1" "Online"; rest.mkRunner "builder-2" "offline"], None)).

(** What the scanner finds in that organization. *)
Definition scannedCapabilities : TargetOrgCapabilities :=
  fst (scanner.ScanTargetOrganization ToLowerASCII sampleREST (fun _ => []) "acme").

(** What the organization-level analyzer finds there, starting from
    nothing. *)
Definition analyzedGovernance : OrgGovernance :=
  fst (orglevel.AnalyzeOrgGovernanceOrgLevel ToLowerASCII sampleREST "acme"
         batch.zeroOrgGovernance).



(** ** Rulesets as the analyzers store them *)

(** The restriction strings stored for the ruleset can be read back: it
    does not use includes and excludes together, its names hold no [", "],
    no include is literally ["All repositories"], and the strings of its
    enforcement, rules and excludes spell no targeting prefix. *)
Definition stored_faithfully (ruleset : dependencies.OrgRuleset) : Prop :=
  (includeNames ruleset = [] \/ excludeNames ruleset = [])
  /\ plain_restriction ("Enforcement: " +:+ dependencies.Enforcement ruleset)
  /\ plain_restriction ("Rules: " +:+ Join (dependencies.Rules ruleset) ", ")
  /\ Contains ("Excludes repos: " +:+ Join (excludeNames ruleset) ", ") "Targets repos:" = false
  /\ splittable (includeNames ruleset)
  /\ splittable (excludeNames ruleset)
  /\ ~ In "All repositories" (includeNames ruleset).

(** The words by which [isRepositoryRuleset] recognises a branch-level
    rule in a restriction. *)
Definition branchRuleKeywords : list string :=
  ["applies to:"; "deletion restrictions"; "pull request rules"; "non_fast_forward";
   "workflows"; "force push"; "linear history"; "required signatures";
   "required status checks"].

(** The policy is named as a repository ruleset, or one of its
    restrictions, in lower case, holds a branch-rule keyword. *)
Definition names_branch_rules (ToLower : string -> string) (policy : OrgPolicy) : bool :=
  HasPrefix (Name policy) "Repository Ruleset:"
  || existsb
       (fun restriction =>
          existsb (fun keyword => Contains (ToLower restriction) keyword) branchRuleKeywords)
       (Restrictions policy).


(** ** The tasks of a batch *)

(** The steps a task has still to take. *)
Definition actions (task : option batch.Task) : nat :=
  match task with
  | Some (batch.Filtering _ _ _ _ remaining) => S (List.length remaining)
  | Some (batch.Failing _ _) => 1
  | Some batch.Finished => 0
  | None => 0
  end.

(** What holds of the header of a task that has appended the policies
    [done] to its copy of the cached header, the array of the cache having
    [cap] cells of which [cached] are the first: it still points to that
    array, or it points to an array of the task's own, which the task
    allocated when it found the array of the cache full. *)
Definition slice_inv (cached : list OrgPolicy) (cap : nat) (slice : batch.PolicySlice)
    (done : list OrgPolicy) : Prop :=
  match slice with
  | batch.Cached len =>
      len = (List.length cached + List.length done)%nat /\ (len <= cap)%nat
  | batch.Fresh elements =>
      List.length elements = (List.length cached + List.length done)%nat
      /\ take (List.length cached) elements = cached
      /\ (cap < List.length elements)%nat
      /\ (cap = List.length cached -> elements = cached ++ done)
  end.

(** What holds of the task started for [repository] at any point of a
    batch: it is where the scheduler left it, or it has stored its slot. *)
Definition task_inv (client : batch.Client) (orgCtx : batch.OrganizationContext)
    (cap : nat) (state : batch.State) (index : nat) (repository : string) : Prop :=
  match batch.parseRepository repository with
  | (_, _, Some err) =>
      batch.st_tasks state !! index = Some (batch.Failing repository err)
      \/ (batch.st_tasks state !! index = Some batch.Finished
          /\ batch.st_results state !! index
             = Some (batch.mkSlot repository None (Some err)))
  | (owner, repo, None) =>
      (exists slice visited remaining,
          batch.st_tasks state !! index
          = Some (batch.Filtering repository repo
                    (batch.repositoryRecord client orgCtx owner repo repository)
                    slice remaining)
          /\ OrganizationPolicies (batch.ctx_Governance orgCtx) = visited ++ remaining
          /\ slice_inv (cachedPolicies orgCtx) cap slice
               (List.filter (fun policy => batch.rulesetAppliesToRepo policy repo) visited))
      \/ (exists slice,
             batch.st_tasks state !! index = Some batch.Finished
             /\ batch.st_results state !! index
                = Some (batch.mkSlot repository
                          (Some (batch.repositoryRecord client orgCtx owner repo repository,
                                 slice))
                          None)
             /\ slice_inv (cachedPolicies orgCtx) cap slice
                  (List.filter (fun policy => batch.rulesetAppliesToRepo policy repo)
                     (OrganizationPolicies (batch.ctx_Governance orgCtx))))
  end.

(** What holds of the shared memory at any point of a batch. *)
Definition batch_inv (client : batch.Client) (orgCtx : batch.OrganizationContext)
    (cap : nat) (repos : list string) (state : batch.State) : Prop :=
  List.length (batch.st_tasks state) = List.length repos
  /\ List.length (batch.st_results state) = List.length repos
  /\ List.length (batch.st_cells state) = cap
  /\ take (List.length (cachedPolicies orgCtx)) (batch.st_cells state) = cachedPolicies orgCtx
  /\ forall index repository,
       repos !! index = Some repository ->
       task_inv client orgCtx cap state index repository.

(** The shared memory when the tasks of a batch start. *)
Definition startState (client : batch.Client) (capacity : nat -> nat)
    (orgCtx : batch.OrganizationContext) (repos : list string) : batch.State :=
  batch.mkState (batch.cacheArray capacity orgCtx)
    (map (batch.startTask client orgCtx) repos)
    (replicate (List.length repos) (batch.mkSlot "" None None)).

(** The shared memory when [AnalyzeRepositories] returns. *)
Definition finalState (client : batch.Client) (capacity : nat -> nat)
    (orgCtx : batch.OrganizationContext) (schedule : list nat) (repos : list string)
  : batch.State :=
  fold_left batch.step (schedule ++ batch.waitAll orgCtx repos)
    (startState client capacity orgCtx repos).

(** Two states of the shared memory that differ at most in the task
    [index] and its slot. *)
Definition same_but (index : nat) (a b : batch.State) : Prop :=
  batch.st_cells a = batch.st_cells b
  /\ List.length (batch.st_results a) = List.length (batch.st_results b)
  /\ forall other,
       other <> index ->
       batch.st_tasks a !! other = batch.st_tasks b !! other
       /\ batch.st_results a !! other = batch.st_results b !! other.


(** ** A sample organization with one ruleset per repository *)

(** A ruleset for the repository [repo] alone. *)
Definition onlyRuleset (id : Z) (repo : string) : dependencies.OrgRuleset :=
  dependencies.mkOrgRuleset id ("only-" +:+ repo) "active" "Organization" "repository"
    (dependencies.mkRulesetConditions
       (dependencies.mkNameCondition [] [])
       (dependencies.mkRepositoryNameCondition [repo] [] false)
       (dependencies.mkNameCondition [] []))
    ["deletion"].

(** An organization record that restricts nothing. *)
Definition openOrgInfo : batch.OrgInfo :=
  batch.mkOrgInfo "read" true true true true true true false true true true false.

(** The client of an organization with three rulesets, no installation
    and no file in its [.github] repository. *)
Definition rulesetsREST : rest.RESTClient :=
  rest.mkRESTClient
    (fun _ => ([], None))
    (fun _ => (openOrgInfo, None))
    (fun _ => ([onlyRuleset 1 "a"; onlyRuleset 2 "b"; onlyRuleset 3 "c"], None))
    (fun _ => Some "HTTP 404")
    (fun _ => ([], None))
    (fun _ => ([], None))
    (fun _ => ([], None)).

(** The analyzers of the batch over that client: the organization
    governance is what the organization-level analyzer finds, and the
    analyzers of a repository find nothing. *)
Definition rulesetsClient : batch.Client :=
  batch.mkClient
    (fun _ _ code => (code, None))
    (fun _ _ ci => (ci, None))
    (fun _ _ access => (access, None))
    (fun _ _ security => (security, None))
    (fun _ apps => (apps, None))
    (orglevel.AnalyzeOrgGovernanceOrgLevel ToLowerASCII rulesetsREST)
    (fun _ info => (info, None))
    (fun _ => ([], None)).

(** The names of the repository policies in the slot [index] of a result. *)
Definition slotPolicies (results : list batch.BatchAnalysisResult) (index : nat)
  : list string :=
  match results !! index with
  | Some (batch.mkBatchAnalysisResult _ (Some deps) _) =>
      map Name (RepositoryPolicies (d_OrgGovernance deps))
  | _ => []
  end.


(** ** Governance with one policy *)

(** The governance of a repository whose organization policies are the
    one policy [policy]. *)
Definition governanceOf (policy : OrgPolicy) : OrgGovernance :=
  mkOrgGovernance [policy] [] [] [] [] [] [].


(** * Properties *)

(** ** Loops that append *)

Lemma fold_left_Forall {A B : Type} (P : B -> Prop) (body : list B -> A -> list B)
    (xs : list A) (init : list B) :
  (forall acc x, Forall P acc -> Forall P (body acc x)) ->
  Forall P init -> Forall P (fold_left body xs init).
Proof.
  intros Hbody. revert init.
  induction xs as [|x xs IH]; intros init Hinit; simpl; [assumption|].
  apply IH, Hbody, Hinit.
Qed.

Lemma fold_left_length_le {A B : Type} (body : list B -> A -> list B)
    (xs : list A) (init : list B) :
  (forall acc x, (List.length (body acc x) <= S (List.length acc))%nat) ->
  (List.length (fold_left body xs init) <= List.length init + List.length xs)%nat.
Proof.
  intros Hbody. revert init.
  induction xs as [|x xs IH]; intros init; simpl; [lia|].
  specialize (IH (body init x)). specialize (Hbody init x). lia.
Qed.

Lemma Forall_snoc {B : Type} (P : B -> Prop) (acc : list B) (b : B) :
  Forall P acc -> P b -> Forall P (acc ++ [b]).
Proof. intros Hacc Hb. apply Forall_app. split; [assumption | constructor; auto]. Qed.

(** ** Go's [int] does not wrap below its maximum *)

Lemma incr_small (x : Z) : 0 <= x < int_max -> incr x = x + 1.
Proof.
  unfold incr, int_wrap, int_max. intros Hx.
  rewrite Z.mod_small; lia.
Qed.

(** ** The summary counters *)

Lemma countResult_ok (n : Z) (s : ValidationSummary) (r : ValidationResult) :
  summary_ok n s -> n < int_max -> summary_ok (n + 1) (validation.countResult s r).
Proof.
  unfold summary_ok. intros (Hr & Hs & Hb & Hw & Hv & Hu & Hsum & Hn) Hlt.
  unfold validation.countResult.
  repeat match goal with
         | |- context [if String.eqb ?a ?b then _ else _] => destruct (String.eqb a b)
         end;
    cbn [Ready SetupNeeded Blockers Warnings Review Unknown Total];
    rewrite !incr_small by lia; lia.
Qed.

Lemma fold_countResult_ok (l : list ValidationResult) :
  forall (n : Z) (s : ValidationSummary),
    summary_ok n s -> n + Z.of_nat (List.length l) <= int_max ->
    summary_ok (n + Z.of_nat (List.length l)) (fold_left validation.countResult l s).
Proof.
  induction l as [|r l IH]; intros n s Hok Hle.
  - simpl. rewrite Z.add_0_r. exact Hok.
  - cbn [List.length fold_left] in *.
    replace (n + Z.of_nat (S (List.length l))) with (n + 1 + Z.of_nat (List.length l)) by lia.
    apply IH; [apply countResult_ok; [assumption | lia] | lia].
Qed.

Lemma summary_ok_zero : summary_ok 0 (mkValidationSummary 0 0 0 0 0 0 0).
Proof. unfold summary_ok; cbn; lia. Qed.

Lemma calculateSummary_ok (v : MigrationValidation) :
  Z.of_nat (List.length (validation.allResults v)) <= int_max ->
  summary_ok (Z.of_nat (List.length (validation.allResults v))) (validation.calculateSummary v).
Proof.
  intros Hle. unfold validation.calculateSummary.
  apply (fold_countResult_ok (validation.allResults v) 0 _ summary_ok_zero). lia.
Qed.

Lemma countResult_Unknown (s : ValidationSummary) (r : ValidationResult) :
  assigned_status (Status r) -> Unknown (validation.countResult s r) = Unknown s.
Proof.
  unfold assigned_status, validation.countResult.
  intros [H | [H | [H | [H | H]]]]; rewrite H; reflexivity.
Qed.

Lemma fold_countResult_Unknown (l : list ValidationResult) :
  forall s, Forall (fun r => assigned_status (Status r)) l ->
            Unknown (fold_left validation.countResult l s) = Unknown s.
Proof.
  induction l as [|r l IH]; intros s Hall; [reflexivity|].
  inversion Hall; subst. simpl. rewrite IH by assumption.
  apply countResult_Unknown. assumption.
Qed.

(** ** The overall readiness *)

Local Ltac readiness_cases s :=
  unfold validation.determineOverallReadiness;
  destruct (Z.gtb_spec (Blockers s) 0);
  destruct (Z.gtb_spec (SetupNeeded s) 0);
  destruct (Z.gtb_spec (Review s) 0);
  destruct (Z.gtb_spec (Warnings s) 0);
  destruct (Z.eqb_spec (Ready s) (Total s));
  cbn [orb].

Lemma determineOverallReadiness_precedence (s : ValidationSummary) :
  readiness_by_precedence s (validation.determineOverallReadiness s).
Proof.
  unfold readiness_by_precedence.
  readiness_cases s; repeat split; intros; try reflexivity; try lia;
    match goal with Hyp : _ \/ _ |- _ => destruct Hyp; lia end.
Qed.

Lemma determineOverallReadiness_blocker (s : ValidationSummary) :
  validation.determineOverallReadiness s = ValidationBlocker <-> Blockers s > 0.
Proof.
  readiness_cases s; split; intros Hyp; try reflexivity; try lia; try discriminate Hyp.
Qed.

Lemma assigned_status_not_unknown (st : ValidationStatus) :
  assigned_status st -> st <> ValidationUnknown.
Proof.
  unfold assigned_status. intros [H | [H | [H | [H | H]]]]; rewrite H; discriminate.
Qed.

Lemma determineOverallReadiness_known (n : Z) (s : ValidationSummary) :
  summary_ok n s -> Unknown s = 0 ->
  validation.determineOverallReadiness s <> ValidationUnknown.
Proof.
  unfold summary_ok. intros (Hr & Hs & Hb & Hw & Hv & Hu & Hsum & Hn) Hunk.
  readiness_cases s; try discriminate; lia.
Qed.

(** ** The classifier *)

Section ValidationProperties.

Variable ToLower : string -> string.
Variable EqualFold : string -> string -> bool.

Local Abbreviation Validate := (validation.ValidateAgainstTarget ToLower EqualFold).

Local Ltac status_cases :=
  unfold assigned_status, ValidationReady, ValidationSetupNeeded, ValidationBlocker,
    ValidationWarning, ValidationReview; cbn [Status]; auto 6.

Local Ltac split_ifs :=
  repeat match goal with
         | |- context [if ?b then _ else _] => destruct b
         end.

Local Ltac appended_status :=
  apply fold_left_Forall;
  [ intros acc x Hacc; split_ifs; cbn beta iota; try assumption;
    (apply Forall_snoc; [assumption | status_cases])
  | try solve [constructor] ].

Lemma validateAppsIntegrations_status apps capabilities :
  Forall (fun r => assigned_status (Status r))
    (validation.validateAppsIntegrations ToLower EqualFold apps capabilities).
Proof. unfold validation.validateAppsIntegrations. appended_status. Qed.

Lemma validateCodeownersRequirement_status capabilities acc requirement :
  Forall (fun r => assigned_status (Status r)) acc ->
  Forall (fun r => assigned_status (Status r))
    (validation.validateCodeownersRequirement EqualFold capabilities acc requirement).
Proof.
  intros Hacc. unfold validation.validateCodeownersRequirement.
  split_ifs; cbn beta iota; try assumption;
    (apply Forall_snoc; [assumption | status_cases]).
Qed.

Lemma validateAccessPermissions_status access capabilities assignTeams :
  Forall (fun r => assigned_status (Status r))
    (validation.validateAccessPermissions EqualFold access capabilities assignTeams).
Proof.
  unfold validation.validateAccessPermissions. cbn zeta.
  apply fold_left_Forall; [intros; apply validateCodeownersRequirement_status; assumption|].
  appended_status. appended_status.
Qed.

Lemma validateCIDependencies_status ci capabilities :
  Forall (fun r => assigned_status (Status r))
    (validation.validateCIDependencies EqualFold ci capabilities).
Proof.
  unfold validation.validateCIDependencies. cbn zeta.
  appended_status. appended_status. appended_status. appended_status.
Qed.

Lemma validateMemberPrivilegePolicy_status policy targetPrivileges :
  assigned_status (Status (validation.validateMemberPrivilegePolicy ToLower policy targetPrivileges)).
Proof.
  unfold validation.validateMemberPrivilegePolicy. cbn zeta.
  split_ifs; status_cases.
Qed.

Lemma validateRepositoryPolicy_status policy targetPolicies :
  assigned_status (Status (validation.validateRepositoryPolicy EqualFold policy targetPolicies)).
Proof. unfold validation.validateRepositoryPolicy. split_ifs; status_cases. Qed.

Lemma validateGovernance_status governance capabilities :
  Forall (fun r => assigned_status (Status r))
    (validation.validateGovernance ToLower EqualFold governance capabilities).
Proof.
  unfold validation.validateGovernance. cbn zeta.
  appended_status. appended_status.
  apply fold_left_Forall; [| solve [constructor]].
  intros acc x Hacc.
  destruct (validation.isMemberPrivilegePolicy ToLower x);
    (apply Forall_snoc; [assumption |]).
  - apply validateMemberPrivilegePolicy_status.
  - apply validateRepositoryPolicy_status.
Qed.

Lemma validateCodeDependencies_status code capabilities :
  Forall (fun r => assigned_status (Status r))
    (validation.validateCodeDependencies code capabilities).
Proof. unfold validation.validateCodeDependencies. appended_status. Qed.

Lemma validateSecurityCompliance_status security capabilities :
  Forall (fun r => assigned_status (Status r))
    (validation.validateSecurityCompliance security capabilities).
Proof. unfold validation.validateSecurityCompliance. appended_status. Qed.

Lemma Validate_status deps capabilities assignTeams :
  Forall (fun r => assigned_status (Status r))
    (validation.allResults (Validate deps capabilities assignTeams)).
Proof.
  unfold validation.allResults, validation.ValidateAgainstTarget.
  cbn [v_AppsIntegrations v_AccessPermissions v_CIDependencies v_Governance
       v_CodeDependencies v_SecurityCompliance].
  repeat (apply Forall_app; split).
  - apply validateAppsIntegrations_status.
  - apply validateAccessPermissions_status.
  - apply validateCIDependencies_status.
  - apply validateGovernance_status.
  - apply validateCodeDependencies_status.
  - apply validateSecurityCompliance_status.
Qed.

(** C6: the overall readiness of every validation returned by
    [ValidateAgainstTarget] follows the precedence blocker, setup_needed
    (for a setup_needed or a review count), warning, ready (when [Ready]
    equals [Total]), unknown; it is [blocker] exactly when [Blockers] is
    positive. *)
Theorem overall_readiness_precedence deps capabilities assignTeams :
  readiness_by_precedence
    (Summary (Validate deps capabilities assignTeams))
    (OverallReadiness (Validate deps capabilities assignTeams))
  /\ (OverallReadiness (Validate deps capabilities assignTeams) = ValidationBlocker
      <-> Blockers (Summary (Validate deps capabilities assignTeams)) > 0).
Proof.
  cbn [validation.ValidateAgainstTarget Summary OverallReadiness].
  split.
  - apply determineOverallReadiness_precedence.
  - apply determineOverallReadiness_blocker.
Qed.

(** C7: in every validation returned by [ValidateAgainstTarget] (its result
    lists being Go slices, of a length within [int]), [Total] is the sum of
    the six status counters and is the number of results in the six
    category lists. *)
Theorem summary_total_is_sum deps capabilities assignTeams :
  Z.of_nat (List.length (validation.allResults (Validate deps capabilities assignTeams)))
    <= int_max ->
  Total (Summary (Validate deps capabilities assignTeams))
    = Ready (Summary (Validate deps capabilities assignTeams))
      + SetupNeeded (Summary (Validate deps capabilities assignTeams))
      + Blockers (Summary (Validate deps capabilities assignTeams))
      + Warnings (Summary (Validate deps capabilities assignTeams))
      + Review (Summary (Validate deps capabilities assignTeams))
      + Unknown (Summary (Validate deps capabilities assignTeams))
  /\ Total (Summary (Validate deps capabilities assignTeams))
     = Z.of_nat
         (List.length (v_CodeDependencies (Validate deps capabilities assignTeams))
          + List.length (v_CIDependencies (Validate deps capabilities assignTeams))
          + List.length (v_AccessPermissions (Validate deps capabilities assignTeams))
          + List.length (v_SecurityCompliance (Validate deps capabilities assignTeams))
          + List.length (v_AppsIntegrations (Validate deps capabilities assignTeams))
          + List.length (v_Governance (Validate deps capabilities assignTeams))).
Proof.
  intros Hle.
  pose proof (calculateSummary_ok _ Hle) as Hok.
  change (validation.calculateSummary (Validate deps capabilities assignTeams))
    with (Summary (Validate deps capabilities assignTeams)) in Hok.
  destruct Hok as (_ & _ & _ & _ & _ & _ & Hsum & Hn).
  split; [exact Hsum|].
  rewrite Hn. unfold validation.allResults.
  rewrite !length_app. f_equal. lia.
Qed.

(** C8: [assignTeams] has no effect on what [ValidateAgainstTarget] returns. *)
Theorem assignTeams_unobservable deps capabilities :
  validation.ValidateAgainstTarget ToLower EqualFold deps capabilities true
  = validation.ValidateAgainstTarget ToLower EqualFold deps capabilities false.
Proof.
  unfold validation.ValidateAgainstTarget.
  assert (Haccess :
    validation.validateAccessPermissions EqualFold (d_AccessPermissions deps) capabilities true
    = validation.validateAccessPermissions EqualFold (d_AccessPermissions deps) capabilities false)
    by reflexivity.
  rewrite Haccess. reflexivity.
Qed.

(** C9: every result of [ValidateAgainstTarget] carries one of the statuses
    ready, setup_needed, blocker, warning, review and never unknown; the
    [Unknown] counter is 0, and (the result lists being Go slices, of a
    length within [int]) the overall readiness is not unknown. *)
Theorem unknown_never_assigned deps capabilities assignTeams :
  (forall r, In r (validation.allResults (Validate deps capabilities assignTeams)) ->
             assigned_status (Status r) /\ Status r <> ValidationUnknown)
  /\ Unknown (Summary (Validate deps capabilities assignTeams)) = 0
  /\ (Z.of_nat (List.length (validation.allResults (Validate deps capabilities assignTeams)))
        <= int_max ->
      OverallReadiness (Validate deps capabilities assignTeams) <> ValidationUnknown).
Proof.
  pose proof (Validate_status deps capabilities assignTeams) as Hall.
  assert (Hunk : Unknown (Summary (Validate deps capabilities assignTeams)) = 0).
  { change (Summary (Validate deps capabilities assignTeams))
      with (validation.calculateSummary (Validate deps capabilities assignTeams)).
    unfold validation.calculateSummary.
    rewrite fold_countResult_Unknown by exact Hall. reflexivity. }
  split; [| split].
  - intros r Hin. apply (proj1 (List.Forall_forall _ _)) with (x := r) in Hall; [| exact Hin].
    split; [exact Hall|]. apply assigned_status_not_unknown, Hall.
  - exact Hunk.
  - intros Hle.
    pose proof (calculateSummary_ok _ Hle) as Hok.
    change (validation.calculateSummary (Validate deps capabilities assignTeams))
      with (Summary (Validate deps capabilities assignTeams)) in Hok.
    change (OverallReadiness (Validate deps capabilities assignTeams))
      with (validation.determineOverallReadiness
              (Summary (Validate deps capabilities assignTeams))).
    apply determineOverallReadiness_known with
      (n := Z.of_nat (List.length (validation.allResults (Validate deps capabilities assignTeams))));
      assumption.
Qed.

Lemma validateCodeownersRequirement_skipped capabilities acc requirement :
  codeowners_skipped requirement ->
  validation.validateCodeownersRequirement EqualFold capabilities acc requirement = acc.
Proof.
  unfold codeowners_skipped, validation.validateCodeownersRequirement.
  intros [[Hteam Hparts] | [Hteam Huser]]; rewrite Hteam.
  - apply Nat.eqb_neq in Hparts. rewrite Hparts. reflexivity.
  - rewrite Huser. reflexivity.
Qed.

Lemma validateCodeownersRequirement_length capabilities acc requirement :
  (List.length (validation.validateCodeownersRequirement EqualFold capabilities acc requirement)
   <= S (List.length acc))%nat.
Proof.
  unfold validation.validateCodeownersRequirement.
  split_ifs; cbn beta iota; rewrite ?length_app; simpl; lia.
Qed.

Lemma validateAccessPermissions_length access capabilities assignTeams :
  (List.length (validation.validateAccessPermissions EqualFold access capabilities assignTeams)
   <= List.length (AccessTeams access) + List.length (IndividualCollaborators access)
      + List.length (CodeownersRequirements access))%nat.
Proof.
  unfold validation.validateAccessPermissions. cbn zeta.
  etransitivity; [apply fold_left_length_le, validateCodeownersRequirement_length|].
  apply Nat.add_le_mono_r.
  etransitivity; [apply fold_left_length_le|].
  { intros acc x. rewrite length_app. simpl. lia. }
  apply Nat.add_le_mono_r.
  etransitivity; [apply fold_left_length_le|].
  { intros acc x. split_ifs; cbn beta iota; rewrite length_app; simpl; lia. }
  simpl. lia.
Qed.

Lemma validateAccessPermissions_skipped teams collaborators roles membership
    before after requirement capabilities assignTeams :
  codeowners_skipped requirement ->
  validation.validateAccessPermissions EqualFold
    (mkAccessPermissions teams collaborators roles membership (before ++ requirement :: after))
    capabilities assignTeams
  = validation.validateAccessPermissions EqualFold
      (mkAccessPermissions teams collaborators roles membership (before ++ after))
      capabilities assignTeams.
Proof.
  intros Hskip. unfold validation.validateAccessPermissions.
  cbn [AccessTeams IndividualCollaborators CodeownersRequirements]. cbn zeta.
  rewrite !fold_left_app. cbn [fold_left].
  rewrite validateCodeownersRequirement_skipped by exact Hskip. reflexivity.
Qed.

(** C10: a CODEOWNERS requirement that starts with ["Team: @"] and whose
    remainder does not split on ['/'] into two segments, or that starts with
    neither ["Team: @"] nor ["User: @"], yields no result: the validation is
    the one obtained without the item (lists, summary and readiness alike),
    and the access results are fewer than the discovered access items. *)
Theorem codeowners_item_omitted deps before after requirement capabilities assignTeams :
  codeowners_skipped requirement ->
  Validate (withCodeowners deps (before ++ requirement :: after)) capabilities assignTeams
  = Validate (withCodeowners deps (before ++ after)) capabilities assignTeams
  /\ (List.length
        (v_AccessPermissions
           (Validate (withCodeowners deps (before ++ requirement :: after))
              capabilities assignTeams))
      < List.length (AccessTeams (d_AccessPermissions deps))
        + List.length (IndividualCollaborators (d_AccessPermissions deps))
        + List.length (before ++ requirement :: after))%nat.
Proof.
  intros Hskip.
  assert (Haccess :
    validation.validateAccessPermissions EqualFold
      (d_AccessPermissions (withCodeowners deps (before ++ requirement :: after)))
      capabilities assignTeams
    = validation.validateAccessPermissions EqualFold
        (d_AccessPermissions (withCodeowners deps (before ++ after)))
        capabilities assignTeams).
  { unfold withCodeowners. cbn [d_AccessPermissions].
    apply validateAccessPermissions_skipped, Hskip. }
  split.
  - unfold validation.ValidateAgainstTarget.
    rewrite Haccess. reflexivity.
  - cbn [validation.ValidateAgainstTarget v_AccessPermissions].
    rewrite Haccess.
    pose proof (validateAccessPermissions_length
                  (d_AccessPermissions (withCodeowners deps (before ++ after)))
                  capabilities assignTeams) as Hlen.
    unfold withCodeowners in Hlen.
    cbn [d_AccessPermissions AccessTeams IndividualCollaborators CodeownersRequirements] in Hlen.
    unfold withCodeowners. cbn [d_AccessPermissions].
    rewrite !length_app in *. cbn [List.length]. lia.
Qed.

End ValidationProperties.

(** ** The classifier on a sample repository

    ASCII text throughout, so [ToLowerASCII] and [EqualFoldASCII] are Go's
    [strings.ToLower] and [strings.EqualFold] here. *)

(** C7, at the sample: fourteen results, counted 4 + 3 + 2 + 2 + 3 + 0. *)
Lemma summary_total_is_sum_witness :
  Z.of_nat (List.length (validation.allResults sampleValidation)) <= int_max
  /\ Summary sampleValidation = mkValidationSummary 4 3 2 2 3 0 14
  /\ Total (Summary sampleValidation)
     = Ready (Summary sampleValidation) + SetupNeeded (Summary sampleValidation)
       + Blockers (Summary sampleValidation) + Warnings (Summary sampleValidation)
       + Review (Summary sampleValidation) + Unknown (Summary sampleValidation).
Proof.
  assert (Hle : Z.of_nat (List.length (validation.allResults sampleValidation)) <= int_max)
    by (vm_compute; discriminate).
  split; [exact Hle|]. split; [vm_compute; reflexivity|].
  exact (proj1 (summary_total_is_sum ToLowerASCII EqualFoldASCII
                  sampleDependencies sampleCapabilities false Hle)).
Defined.

(** C9, at the sample: the overall readiness is [blocker], not unknown. *)
Lemma unknown_never_assigned_witness :
  Z.of_nat (List.length (validation.allResults sampleValidation)) <= int_max
  /\ Unknown (Summary sampleValidation) = 0
  /\ OverallReadiness sampleValidation <> ValidationUnknown.
Proof.
  assert (Hle : Z.of_nat (List.length (validation.allResults sampleValidation)) <= int_max)
    by (vm_compute; discriminate).
  destruct (unknown_never_assigned ToLowerASCII EqualFoldASCII
              sampleDependencies sampleCapabilities false) as (_ & Hunk & Hready).
  split; [exact Hle|]. split; [exact Hunk | exact (Hready Hle)].
Defined.

(** C10, at the sample: ["Team: @frontend"] (one segment) is skipped, and
    four CODEOWNERS items leave two results. *)
Lemma codeowners_item_omitted_witness :
  codeowners_skipped "Team: @frontend"
  /\ validation.ValidateAgainstTarget ToLowerASCII EqualFoldASCII
       (withCodeowners sampleDependencies
          (["Team: @acme/frontend"; "User: @alice"] ++ "Team: @frontend" :: ["docs/ @bob"]))
       sampleCapabilities false
     = validation.ValidateAgainstTarget ToLowerASCII EqualFoldASCII
         (withCodeowners sampleDependencies
            (["Team: @acme/frontend"; "User: @alice"] ++ ["docs/ @bob"]))
         sampleCapabilities false.
Proof.
  assert (Hskip : codeowners_skipped "Team: @frontend").
  { left. split; [reflexivity | vm_compute; discriminate]. }
  split; [exact Hskip|].
  exact (proj1 (codeowners_item_omitted ToLowerASCII EqualFoldASCII sampleDependencies
                  ["Team: @acme/frontend"; "User: @alice"] ["docs/ @bob"]
                  "Team: @frontend" sampleCapabilities false Hskip)).
Defined.


(** ** The ruleset resolvers *)

Lemma range_return_guard {A R : Type} (p : A -> bool) (v : R) (body : A -> option R)
    (xs : list A) :
  (forall x, body x = if p x then Some v else None) ->
  range_return xs body = if existsb p xs then Some v else None.
Proof.
  intros Hbody. induction xs as [|x xs IH]; [reflexivity|].
  simpl. rewrite Hbody. destruct (p x); [reflexivity | exact IH].
Qed.

Lemma entry_matches_spec (repo entry : string) :
  entry_matches repo entry = true <-> name_matches repo entry.
Proof.
  unfold entry_matches, name_matches. rewrite orb_true_iff, String.eqb_eq. reflexivity.
Qed.

Lemma existsb_entry_matches (repo : string) (names : list string) :
  existsb (entry_matches repo) names = true
  <-> exists entry, In entry names /\ name_matches repo entry.
Proof.
  rewrite existsb_exists. split; intros (entry & Hin & Hm); exists entry;
    (split; [exact Hin | apply entry_matches_spec, Hm]).
Qed.

Lemma not_existsb_entry_matches (repo : string) (names : list string) :
  existsb (entry_matches repo) names = false
  <-> forall entry, In entry names -> ~ name_matches repo entry.
Proof.
  split.
  - intros Hnone entry Hin Hm.
    assert (Hsome : existsb (entry_matches repo) names = true)
      by (apply existsb_entry_matches; exists entry; auto).
    congruence.
  - intros Hall. destruct (existsb (entry_matches repo) names) eqn:Hex; [|reflexivity].
    apply existsb_entry_matches in Hex as (entry & Hin & Hm).
    exfalso. exact (Hall entry Hin Hm).
Qed.

(** The two loops of the structured resolver, as boolean searches. *)
Lemma structured_resolver_searches (ruleset : dependencies.OrgRuleset) (repo : string) :
  dependencies.rulesetAppliesToRepo ruleset repo
  = (match includeNames ruleset with
     | [] => true
     | _ :: _ => existsb (entry_matches repo) (includeNames ruleset)
     end)
    && negb (existsb (entry_matches repo) (excludeNames ruleset)).
Proof.
  unfold dependencies.rulesetAppliesToRepo, includeNames, excludeNames.
  set (inc := dependencies.rn_Include _). set (exc := dependencies.rn_Exclude _).
  assert (Hexc :
    range_return exc
      (fun exclude => if String.eqb exclude repo || Contains exclude "*"
                      then Some false else None)
    = if existsb (entry_matches repo) exc then Some false else None)
    by (apply range_return_guard; reflexivity).
  rewrite Hexc.
  destruct inc as [|t inc'] eqn:Hinc.
  - cbn [List.length Nat.ltb Nat.leb]. destruct (existsb (entry_matches repo) exc); reflexivity.
  - rewrite <- Hinc.
    replace (0 <? List.length inc)%nat with true
      by (rewrite Hinc; reflexivity).
    rewrite (range_return_guard (entry_matches repo)
               (negb (existsb (entry_matches repo) exc))).
    + destruct (existsb (entry_matches repo) inc),
               (existsb (entry_matches repo) exc); reflexivity.
    + intros x. unfold entry_matches.
      destruct (String.eqb x repo || Contains x "*");
        destruct (existsb _ exc); reflexivity.
Qed.

(** C5: the structured resolver answers true exactly when the include list
    is empty or has an entry that equals the repository name or contains
    ['*'], and no exclude entry equals the name or contains ['*'].  With a
    non-empty include list without a match it answers false; with both
    lists empty it answers true. *)
Theorem structured_resolver_spec (ruleset : dependencies.OrgRuleset) (repo : string) :
  (dependencies.rulesetAppliesToRepo ruleset repo = true
   <-> (includeNames ruleset = []
        \/ exists target, In target (includeNames ruleset) /\ name_matches repo target)
       /\ (forall exclude, In exclude (excludeNames ruleset) -> ~ name_matches repo exclude))
  /\ (includeNames ruleset <> [] ->
      (forall target, In target (includeNames ruleset) -> ~ name_matches repo target) ->
      dependencies.rulesetAppliesToRepo ruleset repo = false)
  /\ (includeNames ruleset = [] -> excludeNames ruleset = [] ->
      dependencies.rulesetAppliesToRepo ruleset repo = true).
Proof.
  rewrite structured_resolver_searches.
  split; [| split].
  - rewrite andb_true_iff, negb_true_iff, not_existsb_entry_matches.
    apply and_iff_compat_r.
    destruct (includeNames ruleset) as [|t inc'] eqn:Hinc.
    + split; [left; reflexivity | reflexivity].
    + rewrite existsb_entry_matches. split; [intros H; right; exact H|].
      intros [Hnil | H]; [discriminate Hnil | exact H].
  - intros Hne Hnone. apply not_existsb_entry_matches in Hnone.
    destruct (includeNames ruleset) as [|t inc']; [congruence|].
    rewrite Hnone. reflexivity.
  - intros Hinc Hexc. rewrite Hinc, Hexc. reflexivity.
Qed.

(** C4: for the ruleset that includes [web-*] and excludes [web-legacy],
    the restriction strings stored by the scanner put ["Targets repos:"]
    before ["Excludes repos:"], both match [web-legacy], and the free-text
    resolver answers true on them; the structured resolver answers false,
    and so does the free-text resolver once the two strings are swapped. *)
Theorem free_text_resolver_include_before_exclude :
  Restrictions (dependencies.rulesetPolicy webRuleset)
  = ["Enforcement: active"; "Targets repos: web-*"; "Excludes repos: web-legacy";
     "Rules: deletion"]
  /\ batch.rulesetAppliesToRepo (dependencies.rulesetPolicy webRuleset) "web-legacy" = true
  /\ batch.rulesetAppliesToRepo
       (mkOrgPolicy "web rules" "active"
          ["Enforcement: active"; "Excludes repos: web-legacy"; "Targets repos: web-*";
           "Rules: deletion"])
       "web-legacy" = false
  /\ dependencies.rulesetAppliesToRepo webRuleset "web-legacy" = false.
Proof. repeat split; vm_compute; reflexivity. Qed.

(** ** The batch analyzer *)

Lemma OrgPolicy_eta (policy : OrgPolicy) :
  mkOrgPolicy (Name policy) (PolicyStatus policy) (Restrictions policy) = policy.
Proof. destruct policy. reflexivity. Qed.

Lemma malformed_dec (repoSpec : string) : malformed repoSpec \/ ~ malformed repoSpec.
Proof.
  unfold malformed.
  destruct (Nat.eq_dec (List.length (Split repoSpec "/")) 2%nat); [right | left]; auto.
Qed.

Lemma parseRepository_malformed (repoSpec : string) :
  malformed repoSpec ->
  batch.parseRepository repoSpec = ("", "", Some batch_format_error).
Proof.
  unfold malformed, batch.parseRepository. intros Hparts.
  apply Nat.eqb_neq in Hparts. rewrite Hparts. reflexivity.
Qed.

Lemma parseRepository_wellformed (repoSpec : string) :
  ~ malformed repoSpec ->
  batch.parseRepository repoSpec
  = (nth 0 (Split repoSpec "/") "", nth 1 (Split repoSpec "/") "", None).
Proof.
  unfold malformed, batch.parseRepository. intros Hparts.
  destruct (Nat.eqb_spec (List.length (Split repoSpec "/")) 2); [reflexivity | contradiction].
Qed.

(** *** Appending to a slice *)

Lemma filterPolicy_appends (repo : string) (cells : list OrgPolicy)
    (slice : batch.PolicySlice) (policy : OrgPolicy) :
  batch.filterPolicy repo cells slice policy
  = if batch.rulesetAppliesToRepo policy repo then batch.sliceAppend cells slice policy
    else (cells, slice).
Proof. unfold batch.filterPolicy. rewrite OrgPolicy_eta. reflexivity. Qed.

Lemma sliceAppend_length (cells : list OrgPolicy) (slice : batch.PolicySlice)
    (policy : OrgPolicy) :
  List.length (fst (batch.sliceAppend cells slice policy)) = List.length cells.
Proof.
  destruct slice as [len|elements]; cbn [batch.sliceAppend]; [| reflexivity].
  destruct (len <? List.length cells)%nat; cbn [fst]; [apply length_insert | reflexivity].
Qed.

Lemma sliceAppend_below (cells : list OrgPolicy) (slice : batch.PolicySlice)
    (policy : OrgPolicy) (cached done : list OrgPolicy) (cap : nat) :
  slice_inv cached cap slice done ->
  take (List.length cached) (fst (batch.sliceAppend cells slice policy))
  = take (List.length cached) cells.
Proof.
  destruct slice as [len|elements]; cbn [batch.sliceAppend slice_inv]; [| reflexivity].
  intros [-> _].
  destruct (_ <? List.length cells)%nat; cbn [fst]; [| reflexivity].
  apply take_insert_ge. lia.
Qed.

Lemma sliceAppend_inv (cells : list OrgPolicy) (slice : batch.PolicySlice)
    (policy : OrgPolicy) (cached done : list OrgPolicy) :
  take (List.length cached) cells = cached ->
  slice_inv cached (List.length cells) slice done ->
  slice_inv cached (List.length cells) (snd (batch.sliceAppend cells slice policy))
    (done ++ [policy]).
Proof.
  intros Hcached.
  destruct slice as [len|elements]; cbn [batch.sliceAppend slice_inv].
  - intros [-> Hle].
    destruct (Nat.ltb_spec (List.length cached + List.length done) (List.length cells))
      as [Hlt|Hge]; cbn [snd slice_inv].
    + rewrite length_app. cbn [List.length]. lia.
    + assert (Hfull :
        (List.length cached + List.length done)%nat = List.length cells) by lia.
      rewrite Hfull, firstn_all.
      rewrite !length_app. cbn [List.length].
      split; [lia|]. split.
      { rewrite take_app_le by lia. exact Hcached. }
      split; [lia|].
      intros Hcap.
      assert (Hdone : done = []) by (apply length_zero_iff_nil; lia).
      subst done. cbn [app].
      rewrite <- Hcached at 1. rewrite <- Hcap, firstn_all. reflexivity.
  - intros (Hlen & Hprefix & Hover & Hfull).
    cbn [snd slice_inv]. rewrite !length_app. cbn [List.length].
    split; [lia|]. split.
    { rewrite take_app_le by lia. exact Hprefix. }
    split; [lia|].
    intros Hcap. rewrite (Hfull Hcap), <- app_assoc. reflexivity.
Qed.

Lemma filterPolicy_length (repo : string) (cells : list OrgPolicy)
    (slice : batch.PolicySlice) (policy : OrgPolicy) :
  List.length (fst (batch.filterPolicy repo cells slice policy)) = List.length cells.
Proof.
  rewrite filterPolicy_appends.
  destruct (batch.rulesetAppliesToRepo policy repo); [apply sliceAppend_length | reflexivity].
Qed.

Lemma filterPolicy_below (repo : string) (cells : list OrgPolicy)
    (slice : batch.PolicySlice) (policy : OrgPolicy) (cached done : list OrgPolicy)
    (cap : nat) :
  slice_inv cached cap slice done ->
  take (List.length cached) (fst (batch.filterPolicy repo cells slice policy))
  = take (List.length cached) cells.
Proof.
  intros Hinv. rewrite filterPolicy_appends.
  destruct (batch.rulesetAppliesToRepo policy repo);
    [exact (sliceAppend_below cells slice policy cached done cap Hinv) | reflexivity].
Qed.

Lemma filterPolicy_inv (repo : string) (cells : list OrgPolicy)
    (slice : batch.PolicySlice) (policy : OrgPolicy) (cached visited : list OrgPolicy) :
  take (List.length cached) cells = cached ->
  slice_inv cached (List.length cells) slice
    (List.filter (fun policy => batch.rulesetAppliesToRepo policy repo) visited) ->
  slice_inv cached (List.length cells) (snd (batch.filterPolicy repo cells slice policy))
    (List.filter (fun policy => batch.rulesetAppliesToRepo policy repo) (visited ++ [policy])).
Proof.
  intros Hcached Hinv. rewrite filterPolicy_appends, List.filter_app. cbn [List.filter].
  destruct (batch.rulesetAppliesToRepo policy repo).
  - apply sliceAppend_inv; assumption.
  - rewrite app_nil_r. exact Hinv.
Qed.

(** *** One step of a task *)

Lemma step_other (state : batch.State) (index other : nat) :
  other <> index ->
  batch.st_tasks (batch.step state index) !! other = batch.st_tasks state !! other
  /\ batch.st_results (batch.step state index) !! other = batch.st_results state !! other.
Proof.
  intros Hne. unfold batch.step.
  destruct (batch.st_tasks state !! index) as [[repository repo deps slice [|policy remaining]
                                               |repository err|]|];
    try destruct (batch.filterPolicy _ _ _ _);
    cbn [batch.st_tasks batch.st_results];
    rewrite ?list_lookup_insert_ne by congruence; split; reflexivity.
Qed.

Lemma step_lengths (state : batch.State) (index : nat) :
  List.length (batch.st_tasks (batch.step state index)) = List.length (batch.st_tasks state)
  /\ List.length (batch.st_results (batch.step state index))
     = List.length (batch.st_results state)
  /\ List.length (batch.st_cells (batch.step state index))
     = List.length (batch.st_cells state).
Proof.
  unfold batch.step.
  destruct (batch.st_tasks state !! index) as [[repository repo deps slice [|policy remaining]
                                               |repository err|]|];
    try (pose proof (filterPolicy_length repo (batch.st_cells state) slice policy) as Hlen;
         destruct (batch.filterPolicy _ _ _ _); cbn [fst] in Hlen);
    cbn [batch.st_tasks batch.st_results batch.st_cells];
    rewrite ?length_insert; auto.
Qed.

Lemma step_actions (state : batch.State) (index : nat) :
  actions (batch.st_tasks (batch.step state index) !! index)
  = Nat.pred (actions (batch.st_tasks state !! index)).
Proof.
  unfold batch.step.
  destruct (batch.st_tasks state !! index) as [[repository repo deps slice [|policy remaining]
                                               |repository err|]|] eqn:Htask;
    try destruct (batch.filterPolicy _ _ _ _);
    cbn [batch.st_tasks];
    try (rewrite list_lookup_insert_eq by (apply lookup_lt_Some in Htask; exact Htask));
    rewrite ?Htask; reflexivity.
Qed.

Section BatchProperties.

Variable client : batch.Client.
Variable capacity : nat -> nat.

Local Ltac split_pairs :=
  repeat match goal with
         | |- context [let '(_, _) := ?p in _] => destruct p
         end.

Lemma loadOrganizationContext_no_error (owner : string) :
  snd (batch.loadOrganizationContext client owner) = None.
Proof.
  unfold batch.loadOrganizationContext. split_pairs. reflexivity.
Qed.

Lemma step_inv (orgCtx : batch.OrganizationContext) (cap : nat) (repos : list string)
    (state : batch.State) (index : nat) :
  batch_inv client orgCtx cap repos state ->
  batch_inv client orgCtx cap repos (batch.step state index).
Proof.
  intros (Htasks & Hresults & Hcells & Hcached & Hinv).
  destruct (step_lengths state index) as (Ht & Hr & Hc).
  assert (Hothers : forall other repository,
             other <> index -> repos !! other = Some repository ->
             task_inv client orgCtx cap (batch.step state index) other repository).
  { intros other repository Hne Hother.
    specialize (Hinv other repository Hother). unfold task_inv in *.
    destruct (step_other state index other Hne) as [-> ->]. exact Hinv. }
  destruct (batch.st_tasks state !! index) as [task|] eqn:Htask.
  2:{ unfold batch.step. rewrite Htask. repeat split; assumption. }
  assert (Hindex : (index < List.length repos)%nat)
    by (apply lookup_lt_Some in Htask; lia).
  destruct (lookup_lt_is_Some_2 repos index Hindex) as [repository Hrepository].
  specialize (Hinv index repository Hrepository).
  split; [lia|]. split; [lia|]. split; [lia|].
  assert (Hstep :
    take (List.length (cachedPolicies orgCtx)) (batch.st_cells (batch.step state index))
    = cachedPolicies orgCtx
    /\ task_inv client orgCtx cap (batch.step state index) index repository).
  { unfold task_inv in *. unfold batch.step. rewrite Htask.
    destruct (batch.parseRepository repository) as [[owner repo] [err|]].
    - destruct Hinv as [Hfailing | [Hfinished Hslot]].
      + rewrite Htask in Hfailing. injection Hfailing as ->.
        cbn [batch.st_cells batch.st_tasks batch.st_results].
        split; [exact Hcached|]. right.
        rewrite !list_lookup_insert_eq by lia. split; reflexivity.
      + rewrite Htask in Hfinished. injection Hfinished as ->.
        split; [exact Hcached|]. right. rewrite Htask. split; [reflexivity | exact Hslot].
    - destruct Hinv as [(slice & visited & remaining & Hfiltering & Hsplit & Hslice)
                       | (slice & Hfinished & Hslot & Hslice)].
      + rewrite Htask in Hfiltering. injection Hfiltering as ->.
        destruct remaining as [|policy remaining].
        * cbn [batch.st_cells batch.st_tasks batch.st_results].
          split; [exact Hcached|]. right. exists slice.
          rewrite !list_lookup_insert_eq by lia.
          rewrite app_nil_r in Hsplit. rewrite Hsplit.
          split; [reflexivity|]. split; [reflexivity | exact Hslice].
        * subst cap.
          pose proof (filterPolicy_below repo (batch.st_cells state) slice policy
                        _ _ _ Hslice) as Hbelow.
          pose proof (filterPolicy_inv repo (batch.st_cells state) slice policy
                        _ visited Hcached Hslice) as Hnext.
          destruct (batch.filterPolicy repo (batch.st_cells state) slice policy)
            as [cells' slice'].
          cbn [fst snd] in *.
          cbn [batch.st_cells batch.st_tasks batch.st_results].
          split; [rewrite Hbelow; exact Hcached|]. left.
          exists slice', (visited ++ [policy]), remaining.
          rewrite list_lookup_insert_eq by lia.
          split; [reflexivity|]. split; [rewrite <- app_assoc; exact Hsplit | exact Hnext].
      + rewrite Htask in Hfinished. injection Hfinished as ->.
        split; [exact Hcached|]. right. exists slice. rewrite Htask.
        split; [reflexivity|]. split; [exact Hslot | exact Hslice]. }
  destruct Hstep as [Hcached' Hown]. split; [exact Hcached'|].
  intros other repository' Hother.
  destruct (decide (other = index)) as [->|Hne].
  - rewrite Hrepository in Hother. injection Hother as <-. exact Hown.
  - apply Hothers; assumption.
Qed.

Lemma run_inv (orgCtx : batch.OrganizationContext) (cap : nat) (repos : list string)
    (schedule : list nat) :
  forall state,
    batch_inv client orgCtx cap repos state ->
    batch_inv client orgCtx cap repos (fold_left batch.step schedule state).
Proof.
  induction schedule as [|index schedule IH]; intros state Hinv; [exact Hinv|].
  cbn [fold_left]. apply IH, step_inv, Hinv.
Qed.

Lemma start_inv (orgCtx : batch.OrganizationContext) (repos : list string) :
  batch_inv client orgCtx (List.length (batch.cacheArray capacity orgCtx)) repos
    (startState client capacity orgCtx repos).
Proof.
  unfold startState, batch_inv. cbn [batch.st_tasks batch.st_results batch.st_cells].
  split; [apply length_map|]. split; [apply length_replicate|]. split; [reflexivity|].
  split.
  { unfold batch.cacheArray, cachedPolicies. cbv zeta.
    rewrite take_app_le by lia. apply firstn_all. }
  intros index repository Hrepository. unfold task_inv.
  assert (Htask :
    map (batch.startTask client orgCtx) repos !! index
    = Some (batch.startTask client orgCtx repository)).
  { change (map ?f repos) with (f <$> repos).
    rewrite list_lookup_fmap, Hrepository. reflexivity. }
  cbn [batch.st_tasks batch.st_results]. rewrite Htask. unfold batch.startTask.
  destruct (batch.parseRepository repository) as [[owner repo] [err|]].
  - left. reflexivity.
  - left. eexists _, [], _. split; [reflexivity|]. split; [reflexivity|].
    cbn [List.filter slice_inv List.length]. unfold cachedPolicies, batch.cacheArray.
    cbv zeta. rewrite length_app. lia.
Qed.

(** *** Every task returns *)

Lemma run_actions_le (schedule : list nat) :
  forall (state : batch.State) (index : nat),
    (actions (batch.st_tasks (fold_left batch.step schedule state) !! index)
     <= actions (batch.st_tasks state !! index))%nat.
Proof.
  induction schedule as [|next schedule IH]; intros state index; [reflexivity|].
  cbn [fold_left]. etransitivity; [apply IH|].
  destruct (decide (index = next)) as [->|Hne].
  - rewrite step_actions. lia.
  - destruct (step_other state next index Hne) as [-> _]. reflexivity.
Qed.

Lemma run_replicate (turns index : nat) :
  forall state : batch.State,
    actions (batch.st_tasks (fold_left batch.step (replicate turns index) state) !! index)
    = (actions (batch.st_tasks state !! index) - turns)%nat.
Proof.
  induction turns as [|turns IH]; intros state; cbn [replicate fold_left]; [lia|].
  rewrite IH, step_actions. lia.
Qed.

Lemma run_waits (bound : nat) (indices : list nat) :
  forall state : batch.State,
    (forall index, (actions (batch.st_tasks state !! index) <= bound)%nat) ->
    forall index,
      In index indices ->
      actions
        (batch.st_tasks
           (fold_left batch.step
              (flat_map (fun index => replicate bound index) indices) state) !! index)
      = 0%nat.
Proof.
  induction indices as [|first indices IH]; intros state Hbound index Hin; [destruct Hin|].
  cbn [flat_map]. rewrite fold_left_app.
  assert (Hbound' : forall index,
             (actions
                (batch.st_tasks
                   (fold_left batch.step (replicate bound first) state) !! index)
              <= bound)%nat).
  { intros other. etransitivity; [apply run_actions_le | apply Hbound]. }
  destruct (in_dec Nat.eq_dec index indices) as [Hrest|Hnot].
  - apply IH; assumption.
  - destruct Hin as [->|Hrest]; [| contradiction].
    apply Nat.le_0_r. etransitivity; [apply run_actions_le|].
    rewrite run_replicate. specialize (Hbound index). lia.
Qed.

Lemma start_actions (orgCtx : batch.OrganizationContext) (repos : list string)
    (index : nat) :
  (actions (batch.st_tasks (startState client capacity orgCtx repos) !! index)
   <= S (List.length (OrganizationPolicies (batch.ctx_Governance orgCtx))))%nat.
Proof.
  unfold startState. cbn [batch.st_tasks].
  change (map ?f repos) with (f <$> repos). rewrite list_lookup_fmap.
  destruct (repos !! index) as [repository|]; cbn [fmap option_fmap option_map actions];
    [| lia].
  unfold batch.startTask.
  destruct (batch.parseRepository repository) as [[owner repo] [err|]];
    cbn [actions]; lia.
Qed.

Lemma final_inv (orgCtx : batch.OrganizationContext) (schedule : list nat)
    (repos : list string) :
  batch_inv client orgCtx (List.length (batch.cacheArray capacity orgCtx)) repos
    (finalState client capacity orgCtx schedule repos).
Proof. apply run_inv, start_inv. Qed.

Lemma final_finished (orgCtx : batch.OrganizationContext) (schedule : list nat)
    (repos : list string) (index : nat) :
  (index < List.length repos)%nat ->
  batch.st_tasks (finalState client capacity orgCtx schedule repos) !! index
  = Some batch.Finished.
Proof.
  intros Hindex.
  assert (Hdone :
    actions (batch.st_tasks (finalState client capacity orgCtx schedule repos) !! index)
    = 0%nat).
  { unfold finalState. rewrite fold_left_app. unfold batch.waitAll.
    apply run_waits; [| apply in_seq; lia].
    intros other. etransitivity; [apply run_actions_le | apply start_actions]. }
  destruct (final_inv orgCtx schedule repos) as (Htasks & _).
  destruct (lookup_lt_is_Some_2
              (batch.st_tasks (finalState client capacity orgCtx schedule repos)) index)
    as [task Htask]; [lia|].
  rewrite Htask in *. destruct task; cbn [actions] in Hdone; [lia | lia | reflexivity].
Qed.

(** The slot of every resource when the batch returns. *)
Lemma final_slot (orgCtx : batch.OrganizationContext) (schedule : list nat)
    (repos : list string) (index : nat) (repository : string) :
  repos !! index = Some repository ->
  match batch.parseRepository repository with
  | (_, _, Some err) =>
      batch.st_results (finalState client capacity orgCtx schedule repos) !! index
      = Some (batch.mkSlot repository None (Some err))
  | (owner, repo, None) =>
      exists slice,
        batch.st_results (finalState client capacity orgCtx schedule repos) !! index
        = Some (batch.mkSlot repository
                  (Some (batch.repositoryRecord client orgCtx owner repo repository, slice))
                  None)
        /\ slice_inv (cachedPolicies orgCtx) (List.length (batch.cacheArray capacity orgCtx))
             slice (acceptedPolicies orgCtx repository)
  end.
Proof.
  intros Hrepository.
  pose proof (final_finished orgCtx schedule repos index
                (lookup_lt_Some _ _ _ Hrepository)) as Hfinished.
  destruct (final_inv orgCtx schedule repos) as (_ & _ & _ & _ & Hinv).
  specialize (Hinv index repository Hrepository). unfold task_inv in Hinv.
  unfold acceptedPolicies, repositoryName.
  destruct (batch.parseRepository repository) as [[owner repo] [err|]]; cbn [fst snd].
  - destruct Hinv as [Hfailing | [_ Hslot]]; [congruence | exact Hslot].
  - destruct Hinv as [(slice & visited & remaining & Hfiltering & _)
                     | (slice & _ & Hslot & Hslice)]; [congruence|].
    exists slice. split; assumption.
Qed.

Lemma AnalyzeRepositories_runs (schedule : list nat) (repos : list string) :
  repos <> [] -> ~ malformed (nth 0 repos "") ->
  batch.AnalyzeRepositories client capacity schedule repos
  = (map (batch.readSlot
            (batch.st_cells
               (finalState client capacity (batch_context client repos) schedule repos)))
       (batch.st_results
          (finalState client capacity (batch_context client repos) schedule repos)),
     None).
Proof.
  intros Hne Hgood. unfold batch.AnalyzeRepositories, batch_context, finalState, startState.
  destruct repos as [|first others]; [congruence|].
  cbn [List.length Nat.eqb].
  rewrite parseRepository_wellformed by exact Hgood.
  pose proof (loadOrganizationContext_no_error
                (nth 0 (Split (nth 0 (first :: others) "") "/") "")) as Herr.
  destruct (batch.loadOrganizationContext client _) as [orgCtx err].
  cbn [snd] in Herr. subst err. reflexivity.
Qed.

Lemma AnalyzeRepositories_aborts (schedule : list nat) (repos : list string) :
  repos <> [] -> malformed (nth 0 repos "") ->
  batch.AnalyzeRepositories client capacity schedule repos
  = ([], Some ("failed to parse repository " +:+ nth 0 repos "" +:+ ": " +:+ batch_format_error)).
Proof.
  intros Hne Hbad. unfold batch.AnalyzeRepositories.
  destruct repos as [|first others]; [congruence|].
  cbn [List.length Nat.eqb].
  rewrite parseRepository_malformed by exact Hbad. reflexivity.
Qed.

(** The slots as the caller reads them. *)
Lemma read_slot (orgCtx : batch.OrganizationContext) (schedule : list nat)
    (repos : list string) (index : nat) (repository : string) :
  repos !! index = Some repository ->
  (malformed repository ->
   map (batch.readSlot (batch.st_cells (finalState client capacity orgCtx schedule repos)))
     (batch.st_results (finalState client capacity orgCtx schedule repos)) !! index
   = Some (batch.mkBatchAnalysisResult repository None (Some batch_format_error)))
  /\ (~ malformed repository ->
      exists slice,
        map (batch.readSlot (batch.st_cells (finalState client capacity orgCtx schedule repos)))
          (batch.st_results (finalState client capacity orgCtx schedule repos)) !! index
        = Some (batch.mkBatchAnalysisResult repository
                  (Some (batch.withRepositoryPolicies
                           (batch.repositoryRecord client orgCtx
                              (fst (fst (batch.parseRepository repository)))
                              (repositoryName repository) repository)
                           (batch.sliceElements
                              (batch.st_cells
                                 (finalState client capacity orgCtx schedule repos))
                              slice)))
                  None)
        /\ slice_inv (cachedPolicies orgCtx) (List.length (batch.cacheArray capacity orgCtx))
             slice (acceptedPolicies orgCtx repository)).
Proof.
  intros Hrepository.
  pose proof (final_slot orgCtx schedule repos index repository Hrepository) as Hslot.
  change (map ?f ?l) with (f <$> l). rewrite list_lookup_fmap.
  unfold repositoryName. split.
  - intros Hbad. rewrite parseRepository_malformed in Hslot by exact Hbad.
    rewrite Hslot. reflexivity.
  - intros Hgood. rewrite parseRepository_wellformed in * by exact Hgood.
    destruct Hslot as (slice & Hslot & Hslice). exists slice.
    rewrite Hslot. split; [reflexivity | exact Hslice].
Qed.

Lemma repositoryRecord_Repository (orgCtx : batch.OrganizationContext)
    (owner repo repoSpec : string) :
  Repository (batch.repositoryRecord client orgCtx owner repo repoSpec) = repoSpec.
Proof. unfold batch.repositoryRecord. split_pairs. reflexivity. Qed.

(** *** A task that runs from its start to its end

    A task that the scheduler lets run without a switch does what
    [analyzeRepositoryWithContext] does, and stores it in its slot. *)

Lemma run_finished (turns index : nat) (state : batch.State) :
  batch.st_tasks state !! index = Some batch.Finished ->
  fold_left batch.step (replicate turns index) state = state.
Proof.
  intros Hfinished. induction turns as [|turns IH]; [reflexivity|].
  cbn [replicate fold_left].
  replace (batch.step state index) with state
    by (unfold batch.step; rewrite Hfinished; reflexivity).
  exact IH.
Qed.

Lemma run_filtering (repo : string) (remaining : list OrgPolicy) :
  forall (state : batch.State) (index : nat) (repository : string)
         (deps : OrganizationalDependencies) (slice : batch.PolicySlice),
    batch.st_tasks state !! index
    = Some (batch.Filtering repository repo deps slice remaining) ->
    fold_left batch.step (replicate (S (List.length remaining)) index) state
    = batch.mkState
        (fst (fold_left
                (fun '(cells, slice) policy => batch.filterPolicy repo cells slice policy)
                remaining (batch.st_cells state, slice)))
        (<[index := batch.Finished]> (batch.st_tasks state))
        (<[index :=
             batch.mkSlot repository
               (Some (deps,
                      snd (fold_left
                             (fun '(cells, slice) policy =>
                                batch.filterPolicy repo cells slice policy)
                             remaining (batch.st_cells state, slice))))
               None]> (batch.st_results state)).
Proof.
  induction remaining as [|policy remaining IH];
    intros state index repository deps slice Htask.
  - cbn [List.length replicate fold_left fst snd]. unfold batch.step. rewrite Htask.
    reflexivity.
  - cbn [List.length fold_left].
    change (replicate (S (S (List.length remaining))) index)
      with (index :: replicate (S (List.length remaining)) index).
    cbn [fold_left].
    assert (Hstep :
      batch.step state index
      = batch.mkState
          (fst (batch.filterPolicy repo (batch.st_cells state) slice policy))
          (<[index :=
               batch.Filtering repository repo deps
                 (snd (batch.filterPolicy repo (batch.st_cells state) slice policy))
                 remaining]> (batch.st_tasks state))
          (batch.st_results state)).
    { unfold batch.step. rewrite Htask.
      destruct (batch.filterPolicy repo (batch.st_cells state) slice policy).
      reflexivity. }
    rewrite Hstep.
    destruct (batch.filterPolicy repo (batch.st_cells state) slice policy)
      as [cells' slice'].
    cbn [fst snd].
    rewrite (IH _ index repository deps slice').
    + cbn [batch.st_cells batch.st_tasks batch.st_results].
      rewrite list_insert_insert_eq. reflexivity.
    + cbn [batch.st_tasks]. apply list_lookup_insert_eq.
      exact (lookup_lt_Some _ _ _ Htask).
Qed.

Lemma task_runs_alone (orgCtx : batch.OrganizationContext) (state : batch.State)
    (index : nat) (repository : string) :
  batch.st_tasks state !! index = Some (batch.startTask client orgCtx repository) ->
  fold_left batch.step
    (replicate (S (List.length (OrganizationPolicies (batch.ctx_Governance orgCtx)))) index)
    state
  = batch.mkState
      (fst (fst (batch.analyzeRepositoryWithContext client orgCtx
                   (batch.st_cells state) repository)))
      (<[index := batch.Finished]> (batch.st_tasks state))
      (<[index :=
           batch.mkSlot repository
             (snd (fst (batch.analyzeRepositoryWithContext client orgCtx
                          (batch.st_cells state) repository)))
             (snd (batch.analyzeRepositoryWithContext client orgCtx
                     (batch.st_cells state) repository))]> (batch.st_results state)).
Proof.
  unfold batch.startTask, batch.analyzeRepositoryWithContext,
    batch.analyzeRepositorySpecificGovernance, batch.filterOrgRulesetsForRepo.
  destruct (batch.parseRepository repository) as [[owner repo] [err|]]; intros Htask.
  - cbn [replicate fold_left fst snd].
    assert (Hfirst :
      batch.step state index
      = batch.mkState (batch.st_cells state)
          (<[index := batch.Finished]> (batch.st_tasks state))
          (<[index := batch.mkSlot repository None (Some err)]> (batch.st_results state)))
      by (unfold batch.step; rewrite Htask; reflexivity).
    rewrite Hfirst. apply run_finished. cbn [batch.st_tasks].
    apply list_lookup_insert_eq. exact (lookup_lt_Some _ _ _ Htask).
  - rewrite (run_filtering repo _ state index repository _ _ Htask).
    destruct (fold_left _ _ _) as [cells' slice']. reflexivity.
Qed.

(** *** A task that fails writes its own slot only *)

Lemma same_but_sym (index : nat) (a b : batch.State) :
  same_but index a b -> same_but index b a.
Proof.
  intros (Hcells & Hlen & Hothers). split; [congruence|]. split; [congruence|].
  intros other Hne. destruct (Hothers other Hne). split; congruence.
Qed.

Lemma same_but_step_both (index next : nat) (a b : batch.State) :
  next <> index ->
  same_but index a b ->
  same_but index (batch.step a next) (batch.step b next).
Proof.
  intros Hne (Hcells & Hlen & Hothers).
  destruct (Hothers next Hne) as [Htask Hslot].
  assert (Hrest : forall other,
             other <> index -> other <> next ->
             batch.st_tasks (batch.step a next) !! other
             = batch.st_tasks (batch.step b next) !! other
             /\ batch.st_results (batch.step a next) !! other
                = batch.st_results (batch.step b next) !! other).
  { intros other Hindex Hnext.
    destruct (step_other a next other Hnext) as [-> ->].
    destruct (step_other b next other Hnext) as [-> ->].
    apply Hothers, Hindex. }
  assert (Hinsert : forall slot : batch.Slot,
             <[next := slot]> (batch.st_results a) !! next
             = <[next := slot]> (batch.st_results b) !! next).
  { intros slot.
    destruct (Nat.lt_ge_cases next (List.length (batch.st_results a))) as [Hlt|Hge].
    - rewrite !list_lookup_insert_eq by lia. reflexivity.
    - rewrite !list_insert_ge by lia. exact Hslot. }
  assert (Ha : forall task, batch.st_tasks a !! next = Some task ->
                (next < List.length (batch.st_tasks a))%nat
                /\ (next < List.length (batch.st_tasks b))%nat).
  { intros task Hsome. split; [exact (lookup_lt_Some _ _ _ Hsome)|].
    rewrite Htask in Hsome. exact (lookup_lt_Some _ _ _ Hsome). }
  destruct (step_lengths a next) as (_ & Hra & _).
  destruct (step_lengths b next) as (_ & Hrb & _).
  split; [| split; [congruence|]].
  - unfold batch.step. rewrite <- Htask, <- Hcells.
    destruct (batch.st_tasks a !! next) as [[repository repo deps slice [|policy remaining]
                                            |repository err|]|];
      try destruct (batch.filterPolicy _ _ _ _); first [reflexivity | exact Hcells].
  - intros other Hindex.
    destruct (decide (other = next)) as [->|Hnext]; [| apply Hrest; assumption].
    unfold batch.step. rewrite <- Htask, <- Hcells.
    destruct (batch.st_tasks a !! next) as [[repository repo deps slice [|policy remaining]
                                            |repository err|]|] eqn:Hnext;
      try destruct (batch.filterPolicy _ _ _ _);
      cbn [batch.st_tasks batch.st_results];
      try (destruct (Ha _ eq_refl) as [Hlta Hltb];
           rewrite !(list_lookup_insert_eq (batch.st_tasks a)) by exact Hlta;
           rewrite !(list_lookup_insert_eq (batch.st_tasks b)) by exact Hltb);
      first [ exact (Hothers next Hne)
            | split; first [reflexivity | exact Hslot | apply Hinsert | congruence] ].
Qed.

Lemma same_but_step_left (index : nat) (a b : batch.State) :
  (forall repository repo deps slice remaining,
      batch.st_tasks a !! index
      <> Some (batch.Filtering repository repo deps slice remaining)) ->
  same_but index a b ->
  same_but index (batch.step a index) b.
Proof.
  intros Hfails (Hcells & Hlen & Hothers).
  destruct (step_lengths a index) as (_ & Hresults & _).
  split.
  { rewrite <- Hcells. unfold batch.step.
    destruct (batch.st_tasks a !! index) as [[repository repo deps slice remaining
                                             |repository err|]|] eqn:Ha;
      [exfalso; eapply Hfails; reflexivity | reflexivity..]. }
  split; [congruence|].
  intros other Hne. destruct (step_other a index other Hne) as [-> ->].
  apply Hothers, Hne.
Qed.

Lemma failing_task (orgCtx : batch.OrganizationContext) (cap : nat) (repos : list string)
    (state : batch.State) (index : nat) (repository : string) :
  repos !! index = Some repository ->
  malformed repository ->
  batch_inv client orgCtx cap repos state ->
  forall repository' repo deps slice remaining,
    batch.st_tasks state !! index
    <> Some (batch.Filtering repository' repo deps slice remaining).
Proof.
  intros Hrepository Hbad (_ & _ & _ & _ & Hinv).
  specialize (Hinv index repository Hrepository). unfold task_inv in Hinv.
  rewrite parseRepository_malformed in Hinv by exact Hbad.
  intros repository' repo deps slice remaining Htask.
  destruct Hinv as [Hfailing | [Hfinished _]]; congruence.
Qed.

Lemma same_but_run (orgCtx : batch.OrganizationContext) (cap : nat) (repos : list string)
    (index : nat) (repository : string) (schedule : list nat) :
  repos !! index = Some repository ->
  malformed repository ->
  forall a b,
    batch_inv client orgCtx cap repos a ->
    same_but index a b ->
    same_but index (fold_left batch.step schedule a)
      (fold_left batch.step (withoutTask index schedule) b).
Proof.
  intros Hrepository Hbad.
  induction schedule as [|next schedule IH]; intros a b Ha Hsame; [exact Hsame|].
  unfold withoutTask in *. cbn [fold_left List.filter].
  destruct (Nat.eqb_spec next index) as [->|Hne]; cbn [negb].
  - apply IH; [apply step_inv, Ha|].
    apply same_but_step_left; [| exact Hsame].
    exact (failing_task orgCtx cap repos a index repository Hrepository Hbad Ha).
  - cbn [fold_left]. apply IH; [apply step_inv, Ha|].
    apply same_but_step_both; assumption.
Qed.

Lemma same_but_wait (orgCtx : batch.OrganizationContext) (cap : nat) (repos : list string)
    (index : nat) (repository : string) (schedule : list nat) :
  repos !! index = Some repository ->
  malformed repository ->
  forall a b,
    batch_inv client orgCtx cap repos a ->
    batch_inv client orgCtx cap repos b ->
    same_but index a b ->
    same_but index (fold_left batch.step schedule a) (fold_left batch.step schedule b).
Proof.
  intros Hrepository Hbad.
  induction schedule as [|next schedule IH]; intros a b Ha Hb Hsame; [exact Hsame|].
  cbn [fold_left]. apply IH; [apply step_inv, Ha | apply step_inv, Hb |].
  destruct (Nat.eq_dec next index) as [->|Hne].
  - apply same_but_step_left;
      [exact (failing_task orgCtx cap repos a index repository Hrepository Hbad Ha)|].
    apply same_but_sym, same_but_step_left;
      [exact (failing_task orgCtx cap repos b index repository Hrepository Hbad Hb)|].
    apply same_but_sym, Hsame.
  - apply same_but_step_both; assumption.
Qed.

Lemma same_but_refl (index : nat) (state : batch.State) : same_but index state state.
Proof. split; [reflexivity|]. split; [reflexivity|]. intros; split; reflexivity. Qed.

(** Where the scheduler places the step of a task that fails changes no
    slot. *)
Lemma final_without (orgCtx : batch.OrganizationContext) (schedule : list nat)
    (repos : list string) (index : nat) (repository : string) :
  repos !! index = Some repository ->
  malformed repository ->
  batch.st_cells (finalState client capacity orgCtx (withoutTask index schedule) repos)
  = batch.st_cells (finalState client capacity orgCtx schedule repos)
  /\ batch.st_results (finalState client capacity orgCtx (withoutTask index schedule) repos)
     = batch.st_results (finalState client capacity orgCtx schedule repos).
Proof.
  intros Hrepository Hbad.
  assert (Hsame :
    same_but index (finalState client capacity orgCtx schedule repos)
      (finalState client capacity orgCtx (withoutTask index schedule) repos)).
  { unfold finalState. rewrite !fold_left_app.
    eapply same_but_wait; [exact Hrepository | exact Hbad | apply run_inv, start_inv
                          | apply run_inv, start_inv |].
    eapply same_but_run; [exact Hrepository | exact Hbad | apply start_inv
                         | apply same_but_refl]. }
  destruct Hsame as (Hcells & Hlen & Hothers). split; [congruence|].
  apply list_eq. intros other.
  destruct (decide (other = index)) as [->|Hne].
  - pose proof (final_slot orgCtx schedule repos index repository Hrepository) as Ha.
    pose proof (final_slot orgCtx (withoutTask index schedule) repos index repository
                  Hrepository) as Hb.
    rewrite parseRepository_malformed in Ha, Hb by exact Hbad. congruence.
  - destruct (Hothers other Hne) as [_ Hslots]. symmetry. exact Hslots.
Qed.

(** C2, as the code has it: when the first identifier of a non-empty batch
    is well formed, [AnalyzeRepositories] returns one slot per resource,
    whatever the schedule of the tasks.  The slot of a resource with a
    malformed identifier holds the identifier, the error and no facts, and
    its task writes nothing else: striking its steps from the schedule
    changes no slot of the result.  The slot of a resource with a
    well-formed identifier holds the identifier, facts and no error.  When
    the first identifier is malformed, [AnalyzeRepositories] returns that
    error and no slot. *)
Theorem malformed_resource_fills_own_slot (schedule : list nat) (repos : list string) :
  repos <> [] ->
  (~ malformed (nth 0 repos "") ->
   exists results,
     batch.AnalyzeRepositories client capacity schedule repos = (results, None)
     /\ List.length results = List.length repos
     /\ forall i repository,
          repos !! i = Some repository ->
          (malformed repository ->
           results !! i
           = Some (batch.mkBatchAnalysisResult repository None (Some batch_format_error))
           /\ batch.AnalyzeRepositories client capacity (withoutTask i schedule) repos
              = (results, None))
          /\ (~ malformed repository ->
              exists deps,
                results !! i
                = Some (batch.mkBatchAnalysisResult repository (Some deps) None)
                /\ Repository deps = repository))
  /\ (malformed (nth 0 repos "") ->
      batch.AnalyzeRepositories client capacity schedule repos
      = ([], Some ("failed to parse repository " +:+ nth 0 repos ""
                     +:+ ": " +:+ batch_format_error))).
Proof.
  intros Hne. split.
  - intros Hgood. eexists. split; [apply AnalyzeRepositories_runs; assumption|].
    split.
    { rewrite length_map.
      exact (proj1 (proj2 (final_inv (batch_context client repos) schedule repos))). }
    intros i repository Hi.
    destruct (read_slot (batch_context client repos) schedule repos i repository Hi)
      as [Hbad Hok].
    split.
    + intros Hmalformed. split; [exact (Hbad Hmalformed)|].
      rewrite AnalyzeRepositories_runs by assumption.
      destruct (final_without (batch_context client repos) schedule repos i repository
                  Hi Hmalformed) as [-> ->].
      reflexivity.
    + intros Hwell. destruct (Hok Hwell) as (slice & Hslot & _).
      eexists. split; [exact Hslot|].
      cbn [batch.withRepositoryPolicies Repository]. apply repositoryRecord_Repository.
  - intros Hbad. apply AnalyzeRepositories_aborts; assumption.
Qed.

(** C3: when [AnalyzeRepositories] returns a result list for a non-empty
    batch, the list is as long as the input and its slot [i] carries the
    identifier of input [i]; under any other schedule of the tasks the
    identifiers of the slots are again the input, in its order. *)
Theorem results_in_input_order (schedule : list nat) (repos : list string)
    (results : list batch.BatchAnalysisResult) :
  repos <> [] ->
  batch.AnalyzeRepositories client capacity schedule repos = (results, None) ->
  List.length results = List.length repos
  /\ (forall i repository,
        repos !! i = Some repository ->
        exists slot, results !! i = Some slot /\ batch.br_Repository slot = repository)
  /\ (forall schedule',
        map batch.br_Repository
          (fst (batch.AnalyzeRepositories client capacity schedule' repos))
        = repos).
Proof.
  intros Hne Hrun.
  destruct (malformed_dec (nth 0 repos "")) as [Hbad|Hgood].
  { rewrite AnalyzeRepositories_aborts in Hrun by assumption. discriminate Hrun. }
  assert (Hslots : forall schedule' i repository,
             repos !! i = Some repository ->
             exists slot,
               fst (batch.AnalyzeRepositories client capacity schedule' repos) !! i
               = Some slot
               /\ batch.br_Repository slot = repository).
  { intros schedule' i repository Hi.
    rewrite AnalyzeRepositories_runs by assumption. cbn [fst].
    destruct (read_slot (batch_context client repos) schedule' repos i repository Hi)
      as [Hmalformed Hwell].
    destruct (malformed_dec repository) as [Hb|Hg].
    - eexists. split; [exact (Hmalformed Hb) | reflexivity].
    - destruct (Hwell Hg) as (slice & Hslot & _).
      eexists. split; [exact Hslot | reflexivity]. }
  assert (Hlength : forall schedule',
             List.length (fst (batch.AnalyzeRepositories client capacity schedule' repos))
             = List.length repos).
  { intros schedule'. rewrite AnalyzeRepositories_runs by assumption. cbn [fst].
    rewrite length_map.
    exact (proj1 (proj2 (final_inv (batch_context client repos) schedule' repos))). }
  split; [| split].
  - specialize (Hlength schedule). rewrite Hrun in Hlength. exact Hlength.
  - intros i repository Hi. specialize (Hslots schedule i repository Hi).
    rewrite Hrun in Hslots. exact Hslots.
  - intros schedule'. apply list_eq. intros i.
    change (map ?f ?l) with (f <$> l). rewrite list_lookup_fmap.
    destruct (repos !! i) as [repository|] eqn:Hi.
    + destruct (Hslots schedule' i repository Hi) as (slot & -> & <-). reflexivity.
    + apply lookup_ge_None in Hi.
      rewrite (proj2 (lookup_ge_None _ i)); [reflexivity|].
      rewrite Hlength. exact Hi.
Qed.

End BatchProperties.

(** ** Batches of three *)

Lemma sample_nonempty : ["acme/a"; "broken"; "acme/b"] <> [].
Proof. discriminate. Defined.

(** C2, the claim as stated, fails when the malformed identifier comes
    first: the batch returns the error and no slot at all. *)
Lemma first_malformed_aborts_batch :
  malformed "broken"
  /\ batch.AnalyzeRepositories quietClient doublingCapacity [0; 1]%nat ["broken"; "acme/site"]
     = ([], Some "failed to parse repository broken: repository must be in format 'owner/repo'")
  /\ List.length
       (fst (batch.AnalyzeRepositories quietClient doublingCapacity [0; 1]%nat
               ["broken"; "acme/site"]))
     <> List.length ["broken"; "acme/site"].
Proof.
  split; [vm_compute; discriminate|].
  split; [vm_compute; reflexivity | vm_compute; discriminate].
Qed.

(** C2 as amended, at the sample: the malformed second identifier fills
    its own slot, the batch returns three slots, and the results are the
    same when the step of the second task is struck from the schedule. *)
Lemma malformed_resource_fills_own_slot_witness :
  ~ malformed "acme/a"
  /\ exists results,
       batch.AnalyzeRepositories rulesetsClient doublingCapacity [2; 0; 1; 2; 0]%nat
         ["acme/a"; "broken"; "acme/b"]
       = (results, None)
       /\ List.length results = 3%nat
       /\ results !! 1%nat
          = Some (batch.mkBatchAnalysisResult "broken" None (Some batch_format_error))
       /\ batch.AnalyzeRepositories rulesetsClient doublingCapacity
            (withoutTask 1 [2; 0; 1; 2; 0]%nat) ["acme/a"; "broken"; "acme/b"]
          = (results, None).
Proof.
  assert (Hgood : ~ malformed "acme/a") by (vm_compute; intros H; apply H; reflexivity).
  assert (Hbad : malformed "broken") by (vm_compute; discriminate).
  split; [exact Hgood|].
  destruct (proj1 (malformed_resource_fills_own_slot rulesetsClient doublingCapacity
                     [2; 0; 1; 2; 0]%nat ["acme/a"; "broken"; "acme/b"] sample_nonempty)
              Hgood) as (results & Hrun & Hlen & Hslots).
  exists results. split; [exact Hrun|]. split; [exact Hlen|].
  exact (proj1 (Hslots 1%nat "broken" eq_refl) Hbad).
Defined.

(** C3, at the sample: three slots, in input order, under two schedules. *)
Lemma results_in_input_order_witness :
  map batch.br_Repository
    (fst (batch.AnalyzeRepositories rulesetsClient doublingCapacity [2; 0; 1; 2; 0]%nat
            ["acme/a"; "broken"; "acme/b"]))
  = ["acme/a"; "broken"; "acme/b"]
  /\ List.length
       (fst (batch.AnalyzeRepositories rulesetsClient doublingCapacity [2; 0; 1; 2; 0]%nat
               ["acme/a"; "broken"; "acme/b"]))
     = List.length ["acme/a"; "broken"; "acme/b"]
  /\ map batch.br_Repository
       (fst (batch.AnalyzeRepositories rulesetsClient doublingCapacity [0; 0; 2; 1]%nat
               ["acme/a"; "broken"; "acme/b"]))
     = ["acme/a"; "broken"; "acme/b"].
Proof.
  split; [vm_compute; reflexivity|].
  destruct (results_in_input_order rulesetsClient doublingCapacity [2; 0; 1; 2; 0]%nat
              ["acme/a"; "broken"; "acme/b"] _ sample_nonempty
              (surjective_pairing _)) as (Hlen & _ & Hany).
  split; [exact Hlen | exact (Hany [0; 0; 2; 1]%nat)].
Defined.

(** * Further properties *)

(** ** Loops that append, element by element *)

Lemma fold_left_appending {A B : Type} (body : list B -> A -> list B)
    (xs : list A) (init : list B) :
  (forall acc x, body acc x = acc ++ body [] x) ->
  fold_left body xs init = init ++ flat_map (body []) xs.
Proof.
  intros Hbody. revert init.
  induction xs as [|x xs IH]; intros init; simpl.
  - rewrite app_nil_r. reflexivity.
  - rewrite IH, Hbody, <- app_assoc. reflexivity.
Qed.

(** ** The counters count *)

Lemma count_status_snoc (st : ValidationStatus) (l : list ValidationResult)
    (r : ValidationResult) :
  count_status st (l ++ [r])
  = (count_status st l + if String.eqb (Status r) st then 1 else 0)%nat.
Proof.
  unfold count_status. rewrite List.filter_app, length_app. simpl.
  destruct (String.eqb (Status r) st); reflexivity.
Qed.

Lemma count_status_le (st : ValidationStatus) (l : list ValidationResult) :
  (count_status st l <= List.length l)%nat.
Proof. unfold count_status. apply List.filter_length_le. Qed.

Lemma count_unnamed_le (l : list ValidationResult) :
  (count_unnamed l <= List.length l)%nat.
Proof. unfold count_unnamed. apply List.filter_length_le. Qed.

Lemma countResult_counts (p : list ValidationResult) (s : ValidationSummary)
    (r : ValidationResult) :
  summary_counts p s -> Z.of_nat (List.length p) < int_max ->
  summary_counts (p ++ [r]) (validation.countResult s r).
Proof.
  unfold summary_counts. intros (Hr & Hs & Hb & Hw & Hv & Hu & Ht) Hlt.
  pose proof (count_status_le ValidationReady p).
  pose proof (count_status_le ValidationSetupNeeded p).
  pose proof (count_status_le ValidationBlocker p).
  pose proof (count_status_le ValidationWarning p).
  pose proof (count_status_le ValidationReview p).
  pose proof (count_unnamed_le p).
  rewrite !count_status_snoc, length_app.
  unfold count_unnamed in *. rewrite List.filter_app, length_app.
  unfold validation.countResult. cbn [List.filter List.length].
  destruct (String.eqb_spec (Status r) ValidationReady) as [E1|E1];
    destruct (String.eqb_spec (Status r) ValidationSetupNeeded) as [E2|E2];
    destruct (String.eqb_spec (Status r) ValidationBlocker) as [E3|E3];
    destruct (String.eqb_spec (Status r) ValidationWarning) as [E4|E4];
    destruct (String.eqb_spec (Status r) ValidationReview) as [E5|E5];
    try (exfalso;
         unfold ValidationReady, ValidationSetupNeeded, ValidationBlocker,
           ValidationWarning, ValidationReview in *; congruence);
    cbn [Ready SetupNeeded Blockers Warnings Review Unknown Total negb andb List.length];
    rewrite !incr_small by lia; repeat split; lia.
Qed.

Lemma fold_countResult_counts (l : list ValidationResult) :
  forall (p : list ValidationResult) (s : ValidationSummary),
    summary_counts p s ->
    Z.of_nat (List.length (p ++ l)) <= int_max ->
    summary_counts (p ++ l) (fold_left validation.countResult l s).
Proof.
  induction l as [|r l IH]; intros p s Hs Hle.
  - rewrite app_nil_r. exact Hs.
  - cbn [fold_left].
    replace (p ++ r :: l) with ((p ++ [r]) ++ l) in * by (rewrite <- app_assoc; reflexivity).
    apply IH; [| exact Hle].
    apply countResult_counts; [exact Hs|].
    rewrite !length_app in Hle. cbn [List.length] in Hle. lia.
Qed.

Section CounterProperties.

Variable ToLower : string -> string.
Variable EqualFold : string -> string -> bool.

(** X1: in every validation returned by [ValidateAgainstTarget] (of a
    length within [int]), each counter of the summary is the number of
    results that carry its status, and [Total] the number of results. *)
Theorem summary_counts_results deps capabilities assignTeams :
  Z.of_nat
    (List.length
       (validation.allResults
          (validation.ValidateAgainstTarget ToLower EqualFold deps capabilities assignTeams)))
    <= int_max ->
  summary_counts
    (validation.allResults
       (validation.ValidateAgainstTarget ToLower EqualFold deps capabilities assignTeams))
    (Summary (validation.ValidateAgainstTarget ToLower EqualFold deps capabilities assignTeams)).
Proof.
  intros Hle.
  change (Summary (validation.ValidateAgainstTarget ToLower EqualFold deps capabilities assignTeams))
    with (fold_left validation.countResult
            (validation.allResults
               (validation.ValidateAgainstTarget ToLower EqualFold deps capabilities assignTeams))
            (mkValidationSummary 0 0 0 0 0 0 0)).
  apply (fold_countResult_counts _ [] (mkValidationSummary 0 0 0 0 0 0 0)).
  - unfold summary_counts. cbn. repeat split; reflexivity.
  - exact Hle.
Qed.

End CounterProperties.


(** ** What blocks a migration, and what makes it ready *)

Lemma count_status_pos (st : ValidationStatus) (l : list ValidationResult) :
  (0 < count_status st l)%nat <-> exists r, In r l /\ Status r = st.
Proof.
  unfold count_status. induction l as [|x l IH]; simpl.
  - split; [lia | intros (r & [] & _)].
  - destruct (String.eqb_spec (Status x) st) as [E|E]; simpl.
    + split; [intros _; exists x; auto | lia].
    + rewrite IH. split.
      * intros (r & Hin & Hst). exists r. auto.
      * intros (r & [-> | Hin] & Hst); [contradiction | exists r; auto].
Qed.

Lemma count_status_all (st : ValidationStatus) (l : list ValidationResult) :
  (forall r, In r l -> Status r = st) -> count_status st l = List.length l.
Proof.
  unfold count_status. induction l as [|x l IH]; intros Hall; simpl; [reflexivity|].
  rewrite (Hall x) by (left; reflexivity). rewrite String.eqb_refl. simpl.
  rewrite IH; [reflexivity|]. intros r Hin. apply Hall. right. exact Hin.
Qed.

Lemma count_status_none (st : ValidationStatus) (l : list ValidationResult) :
  (forall r, In r l -> Status r <> st) -> count_status st l = 0%nat.
Proof.
  intros Hall. destruct (count_status st l) eqn:E; [reflexivity|].
  assert (Hpos : (0 < count_status st l)%nat) by lia.
  apply count_status_pos in Hpos as (r & Hin & Hst).
  exfalso. exact (Hall r Hin Hst).
Qed.

Lemma exists_status_flat_map {A : Type} (g : A -> list ValidationResult)
    (c : A -> Prop) (l : list A) (st : ValidationStatus) :
  (forall x, (exists r, In r (g x) /\ Status r = st) <-> c x) ->
  (exists r, In r (flat_map g l) /\ Status r = st) <-> exists x, In x l /\ c x.
Proof.
  intros Hg. split.
  - intros (r & Hin & Hst). apply in_flat_map in Hin as (x & Hx & Hr).
    exists x. split; [exact Hx|]. apply Hg. exists r. auto.
  - intros (x & Hx & Hc). apply Hg in Hc as (r & Hr & Hst).
    exists r. split; [| exact Hst]. apply in_flat_map. exists x. auto.
Qed.

Lemma mild_status_not_blocker (st : ValidationStatus) :
  mild_status st -> st <> ValidationBlocker /\ st <> ValidationWarning.
Proof.
  unfold mild_status. intros [H | [H | H]]; rewrite H; split; discriminate.
Qed.

Section ReadinessProperties.

Variable ToLower : string -> string.
Variable EqualFold : string -> string -> bool.

Local Ltac split_ifs :=
  repeat match goal with
         | |- context [if ?b then _ else _] => destruct b
         end.

Local Ltac mild_cases :=
  unfold mild_status, ValidationReady, ValidationSetupNeeded, ValidationReview;
  cbn [Status]; auto.

Local Ltac appended_mild :=
  apply fold_left_Forall;
  [ intros acc x Hacc; split_ifs; cbn beta iota; try assumption;
    (apply Forall_snoc; [assumption | mild_cases])
  | try solve [constructor] ].

Lemma validateCIDependencies_mild ci capabilities :
  Forall (fun r => mild_status (Status r))
    (validation.validateCIDependencies EqualFold ci capabilities).
Proof.
  unfold validation.validateCIDependencies. cbn zeta.
  appended_mild. appended_mild. appended_mild. appended_mild.
Qed.

Lemma validateGovernance_mild governance capabilities :
  Forall (fun r => mild_status (Status r))
    (validation.validateGovernance ToLower EqualFold governance capabilities).
Proof.
  unfold validation.validateGovernance. cbn zeta.
  appended_mild. appended_mild.
  apply fold_left_Forall; [| solve [constructor]].
  intros acc x Hacc.
  destruct (validation.isMemberPrivilegePolicy ToLower x);
    (apply Forall_snoc; [assumption |]).
  - unfold validation.validateMemberPrivilegePolicy. cbn zeta. split_ifs; mild_cases.
  - unfold validation.validateRepositoryPolicy. split_ifs; mild_cases.
Qed.

Lemma validateCodeDependencies_mild code capabilities :
  Forall (fun r => mild_status (Status r))
    (validation.validateCodeDependencies code capabilities).
Proof. unfold validation.validateCodeDependencies. appended_mild. Qed.

Lemma validateSecurityCompliance_mild security capabilities :
  Forall (fun r => mild_status (Status r))
    (validation.validateSecurityCompliance security capabilities).
Proof. unfold validation.validateSecurityCompliance. appended_mild. Qed.

(** X2: the results for CI dependencies, governance, code dependencies and
    security compliance are ready, setup_needed or review: none of them is
    ever a blocker or a warning. *)
Theorem four_categories_never_block deps capabilities assignTeams (r : ValidationResult) :
  In r (v_CIDependencies
          (validation.ValidateAgainstTarget ToLower EqualFold deps capabilities assignTeams))
  \/ In r (v_Governance
             (validation.ValidateAgainstTarget ToLower EqualFold deps capabilities assignTeams))
  \/ In r (v_CodeDependencies
             (validation.ValidateAgainstTarget ToLower EqualFold deps capabilities assignTeams))
  \/ In r (v_SecurityCompliance
             (validation.ValidateAgainstTarget ToLower EqualFold deps capabilities assignTeams)) ->
  mild_status (Status r)
  /\ Status r <> ValidationBlocker /\ Status r <> ValidationWarning.
Proof.
  cbn [validation.ValidateAgainstTarget v_CIDependencies v_Governance
       v_CodeDependencies v_SecurityCompliance].
  intros Hin.
  assert (Hmild : mild_status (Status r)).
  { destruct Hin as [Hin | [Hin | [Hin | Hin]]];
      revert r Hin; apply List.Forall_forall.
    - apply validateCIDependencies_mild.
    - apply validateGovernance_mild.
    - apply validateCodeDependencies_mild.
    - apply validateSecurityCompliance_mild. }
  split; [exact Hmild | apply mild_status_not_blocker, Hmild].
Qed.

End ReadinessProperties.


Lemma exists_status_app (l1 l2 : list ValidationResult) (st : ValidationStatus) :
  (exists r, In r (l1 ++ l2) /\ Status r = st)
  <-> (exists r, In r l1 /\ Status r = st) \/ (exists r, In r l2 /\ Status r = st).
Proof.
  split.
  - intros (r & Hin & Hst). apply in_app_or in Hin as [Hin | Hin]; [left | right];
      exists r; auto.
  - intros [(r & Hin & Hst) | (r & Hin & Hst)]; exists r; split; auto;
      apply in_or_app; auto.
Qed.

Section BlockedProperties.

Variable ToLower : string -> string.
Variable EqualFold : string -> string -> bool.

Local Ltac split_ifs :=
  repeat match goal with
         | |- context [if ?b then _ else _] => destruct b
         end.

Local Ltac appending :=
  intros acc x; split_ifs; cbn beta iota; rewrite ?app_nil_r; reflexivity.

Local Ltac status_clash :=
  unfold ValidationReady, ValidationSetupNeeded, ValidationBlocker,
    ValidationWarning, ValidationReview in *; cbn [Status] in *; congruence.

Lemma validateAppsIntegrations_blocker apps capabilities :
  (exists r, In r (validation.validateAppsIntegrations ToLower EqualFold apps capabilities)
             /\ Status r = ValidationBlocker)
  <-> exists app,
        In app (InstalledGitHubApps apps)
        /\ validation.isAppAvailable EqualFold (validation.extractAppName app)
             (Apps capabilities) = false
        /\ validation.isCommonApp ToLower (validation.extractAppName app) = false.
Proof.
  unfold validation.validateAppsIntegrations.
  rewrite fold_left_appending by appending. cbn [app].
  apply exists_status_flat_map. intros app.
  destruct (validation.isAppAvailable EqualFold (validation.extractAppName app)
              (Apps capabilities));
    destruct (validation.isCommonApp ToLower (validation.extractAppName app));
    cbn beta iota; split.
  all: try (intros (r & [<- | []] & Hst); status_clash).
  all: try (intros (H1 & H2); discriminate).
  - intros _. auto.
  - intros _. eexists. split; [left; reflexivity | reflexivity].
Qed.

Lemma validateCodeownersRequirement_appending capabilities acc requirement :
  validation.validateCodeownersRequirement EqualFold capabilities acc requirement
  = acc ++ validation.validateCodeownersRequirement EqualFold capabilities [] requirement.
Proof.
  unfold validation.validateCodeownersRequirement.
  split_ifs; cbn beta iota; rewrite ?app_nil_r; reflexivity.
Qed.

Lemma validateCodeownersRequirement_blocker capabilities requirement :
  (exists r,
      In r (validation.validateCodeownersRequirement EqualFold capabilities [] requirement)
      /\ Status r = ValidationBlocker)
  <-> HasPrefix requirement "Team: @" = true
      /\ List.length (Split (TrimPrefix requirement "Team: @") "/") = 2%nat
      /\ validation.isTeamAvailable EqualFold
           (nth 1 (Split (TrimPrefix requirement "Team: @") "/") "")
           (Teams capabilities) = false.
Proof.
  unfold validation.validateCodeownersRequirement.
  destruct (HasPrefix requirement "Team: @").
  - destruct (Nat.eqb_spec (List.length (Split (TrimPrefix requirement "Team: @") "/")) 2)
      as [Hlen|Hlen].
    + destruct (validation.isTeamAvailable EqualFold _ (Teams capabilities));
        cbn beta iota; split.
      * intros (r & [<- | []] & Hst). status_clash.
      * intros (_ & _ & H). discriminate H.
      * intros _. auto.
      * intros _. eexists. split; [left; reflexivity | reflexivity].
    + split; [intros (r & [] & _) | intros (_ & H & _); contradiction].
  - destruct (HasPrefix requirement "User: @"); split.
    + intros (r & [<- | []] & Hst). status_clash.
    + intros (H & _). discriminate H.
    + intros (r & [] & _).
    + intros (H & _). discriminate H.
Qed.

Lemma validateAccessPermissions_blocker access capabilities assignTeams :
  (exists r,
      In r (validation.validateAccessPermissions EqualFold access capabilities assignTeams)
      /\ Status r = ValidationBlocker)
  <-> (exists team,
          In team (AccessTeams access)
          /\ validation.isTeamAvailable EqualFold (validation.extractTeamName team)
               (Teams capabilities) = false)
      \/ (exists requirement,
             In requirement (CodeownersRequirements access)
             /\ HasPrefix requirement "Team: @" = true
             /\ List.length (Split (TrimPrefix requirement "Team: @") "/") = 2%nat
             /\ validation.isTeamAvailable EqualFold
                  (nth 1 (Split (TrimPrefix requirement "Team: @") "/") "")
                  (Teams capabilities) = false).
Proof.
  unfold validation.validateAccessPermissions. cbn zeta.
  rewrite (fold_left_appending (validation.validateCodeownersRequirement EqualFold capabilities))
    by (intros; apply validateCodeownersRequirement_appending).
  rewrite fold_left_appending by appending.
  rewrite fold_left_appending by appending.
  cbn [app]. rewrite !exists_status_app.
  rewrite (exists_status_flat_map _
             (fun team => validation.isTeamAvailable EqualFold
                            (validation.extractTeamName team) (Teams capabilities) = false)).
  2:{ intros team.
      destruct (validation.isTeamAvailable EqualFold _ (Teams capabilities));
        cbn beta iota; split.
      - intros (r & [<- | []] & Hst). status_clash.
      - discriminate.
      - reflexivity.
      - intros _. eexists. split; [left; reflexivity | reflexivity]. }
  rewrite (exists_status_flat_map _ (fun _ => False)).
  2:{ intros collaborator. split; [| intros []].
      intros (r & [<- | []] & Hst). status_clash. }
  rewrite (exists_status_flat_map _ _ _ _
             (validateCodeownersRequirement_blocker capabilities)).
  split.
  - intros [[H | (x & _ & [])] | H]; auto.
  - intros [H | H]; auto.
Qed.

End BlockedProperties.


Lemma calculateSummary_counts (v : MigrationValidation) :
  Z.of_nat (List.length (validation.allResults v)) <= int_max ->
  summary_counts (validation.allResults v) (validation.calculateSummary v).
Proof.
  intros Hle. unfold validation.calculateSummary.
  apply (fold_countResult_counts _ [] (mkValidationSummary 0 0 0 0 0 0 0)).
  - unfold summary_counts. cbn. repeat split; reflexivity.
  - exact Hle.
Qed.

Lemma no_status_in (P : ValidationStatus -> Prop) (st : ValidationStatus)
    (l : list ValidationResult) :
  Forall (fun r => P (Status r)) l -> ~ P st ->
  ~ exists r, In r l /\ Status r = st.
Proof.
  intros Hall Hst (r & Hin & Hr).
  apply (proj1 (List.Forall_forall _ _)) with (x := r) in Hall; [| exact Hin].
  rewrite Hr in Hall. exact (Hst Hall).
Qed.

Lemma blocker_not_mild : ~ mild_status ValidationBlocker.
Proof. intros H. apply mild_status_not_blocker in H as [H _]. exact (H eq_refl). Qed.

Section VerdictProperties.

Variable ToLower : string -> string.
Variable EqualFold : string -> string -> bool.

(** X3: a migration is blocked exactly when an installed app is neither
    available in the target nor one of the common apps, or a team with
    access is missing in the target, or a CODEOWNERS team reference
    ["Team: @org/name"] names a team missing in the target (the number of
    results being within [int]). *)
Theorem migration_blocked_iff deps capabilities assignTeams :
  Z.of_nat
    (List.length
       (validation.allResults
          (validation.ValidateAgainstTarget ToLower EqualFold deps capabilities assignTeams)))
    <= int_max ->
  (OverallReadiness
     (validation.ValidateAgainstTarget ToLower EqualFold deps capabilities assignTeams)
   = ValidationBlocker
   <-> (exists app,
           In app (InstalledGitHubApps (d_AppsIntegrations deps))
           /\ validation.isAppAvailable EqualFold (validation.extractAppName app)
                (Apps capabilities) = false
           /\ validation.isCommonApp ToLower (validation.extractAppName app) = false)
       \/ (exists team,
              In team (AccessTeams (d_AccessPermissions deps))
              /\ validation.isTeamAvailable EqualFold (validation.extractTeamName team)
                   (Teams capabilities) = false)
       \/ (exists requirement,
              In requirement (CodeownersRequirements (d_AccessPermissions deps))
              /\ HasPrefix requirement "Team: @" = true
              /\ List.length (Split (TrimPrefix requirement "Team: @") "/") = 2%nat
              /\ validation.isTeamAvailable EqualFold
                   (nth 1 (Split (TrimPrefix requirement "Team: @") "/") "")
                   (Teams capabilities) = false)).
Proof.
  intros Hle.
  pose proof (calculateSummary_counts _ Hle) as (_ & _ & Hb & _).
  change (OverallReadiness
            (validation.ValidateAgainstTarget ToLower EqualFold deps capabilities assignTeams))
    with (validation.determineOverallReadiness
            (validation.calculateSummary
               (validation.ValidateAgainstTarget ToLower EqualFold deps capabilities
                  assignTeams))).
  rewrite determineOverallReadiness_blocker, Hb.
  assert (Hpos : forall n : nat, Z.of_nat n > 0 <-> (0 < n)%nat) by (intros; lia).
  rewrite Hpos, count_status_pos.
  unfold validation.allResults.
  cbn [validation.ValidateAgainstTarget v_AppsIntegrations v_AccessPermissions
       v_CIDependencies v_Governance v_CodeDependencies v_SecurityCompliance].
  rewrite !exists_status_app.
  rewrite validateAppsIntegrations_blocker, validateAccessPermissions_blocker.
  pose proof (no_status_in mild_status ValidationBlocker _
                (validateCIDependencies_mild EqualFold (d_ActionsCIDependencies deps) capabilities)
                blocker_not_mild) as Hci.
  pose proof (no_status_in mild_status ValidationBlocker _
                (validateGovernance_mild ToLower EqualFold (d_OrgGovernance deps) capabilities)
                blocker_not_mild) as Hgov.
  pose proof (no_status_in mild_status ValidationBlocker _
                (validateCodeDependencies_mild (d_CodeDependencies deps) capabilities)
                blocker_not_mild) as Hcode.
  pose proof (no_status_in mild_status ValidationBlocker _
                (validateSecurityCompliance_mild (d_SecurityCompliance deps) capabilities)
                blocker_not_mild) as Hsec.
  tauto.
Qed.

(** X4: the overall readiness is [ready] exactly when every result is
    ready; in particular a repository with no discovered dependency is
    ready for any target (the number of results being within [int]). *)
Theorem ready_iff_all_ready deps capabilities assignTeams :
  Z.of_nat
    (List.length
       (validation.allResults
          (validation.ValidateAgainstTarget ToLower EqualFold deps capabilities assignTeams)))
    <= int_max ->
  (OverallReadiness
     (validation.ValidateAgainstTarget ToLower EqualFold deps capabilities assignTeams)
   = ValidationReady
   <-> forall r,
         In r (validation.allResults
                 (validation.ValidateAgainstTarget ToLower EqualFold deps capabilities
                    assignTeams)) ->
         Status r = ValidationReady)
  /\ (validation.allResults
        (validation.ValidateAgainstTarget ToLower EqualFold deps capabilities assignTeams) = [] ->
      OverallReadiness
        (validation.ValidateAgainstTarget ToLower EqualFold deps capabilities assignTeams)
      = ValidationReady).
Proof.
  intros Hle.
  pose proof (calculateSummary_counts _ Hle) as (Hr & Hs & Hb & Hw & Hv & _ & Ht).
  pose proof (Validate_status ToLower EqualFold deps capabilities assignTeams) as Hall.
  change (OverallReadiness
            (validation.ValidateAgainstTarget ToLower EqualFold deps capabilities assignTeams))
    with (validation.determineOverallReadiness
            (validation.calculateSummary
               (validation.ValidateAgainstTarget ToLower EqualFold deps capabilities
                  assignTeams))).
  set (v := validation.ValidateAgainstTarget ToLower EqualFold deps capabilities assignTeams) in *.
  set (s := validation.calculateSummary v) in *.
  assert (Hiff :
    validation.determineOverallReadiness s = ValidationReady
    <-> forall r, In r (validation.allResults v) -> Status r = ValidationReady).
  { split.
    - intros Hready r Hin.
      assert (Hzero : count_status ValidationSetupNeeded (validation.allResults v) = 0%nat
                      /\ count_status ValidationBlocker (validation.allResults v) = 0%nat
                      /\ count_status ValidationWarning (validation.allResults v) = 0%nat
                      /\ count_status ValidationReview (validation.allResults v) = 0%nat).
      { revert Hready. unfold validation.determineOverallReadiness.
        destruct (Z.gtb_spec (Blockers s) 0); [discriminate|].
        destruct (Z.gtb_spec (SetupNeeded s) 0); [discriminate|].
        destruct (Z.gtb_spec (Review s) 0); [discriminate|].
        destruct (Z.gtb_spec (Warnings s) 0); [discriminate|].
        intros _. lia. }
      destruct Hzero as (Zs & Zb & Zw & Zv).
      apply (proj1 (List.Forall_forall _ _)) with (x := r) in Hall; [| exact Hin].
      destruct Hall as [H | [H | [H | [H | H]]]]; [exact H | exfalso ..].
      + assert (Hpos : (0 < count_status ValidationSetupNeeded (validation.allResults v))%nat)
          by (apply count_status_pos; exists r; auto). lia.
      + assert (Hpos : (0 < count_status ValidationBlocker (validation.allResults v))%nat)
          by (apply count_status_pos; exists r; auto). lia.
      + assert (Hpos : (0 < count_status ValidationWarning (validation.allResults v))%nat)
          by (apply count_status_pos; exists r; auto). lia.
      + assert (Hpos : (0 < count_status ValidationReview (validation.allResults v))%nat)
          by (apply count_status_pos; exists r; auto). lia.
    - intros Hready.
      assert (Hnone : forall st, st <> ValidationReady ->
                count_status st (validation.allResults v) = 0%nat).
      { intros st Hst. apply count_status_none. intros r Hin Hstatus.
        rewrite (Hready r Hin) in Hstatus. congruence. }
      rewrite (Hnone ValidationSetupNeeded) in Hs by discriminate.
      rewrite (Hnone ValidationBlocker) in Hb by discriminate.
      rewrite (Hnone ValidationWarning) in Hw by discriminate.
      rewrite (Hnone ValidationReview) in Hv by discriminate.
      rewrite (count_status_all _ _ Hready) in Hr.
      unfold validation.determineOverallReadiness.
      rewrite Hb, Hs, Hv, Hw, Hr, Ht. cbn [Z.of_nat Z.gtb Z.compare orb].
      rewrite Z.eqb_refl. reflexivity. }
  split; [exact Hiff|].
  intros Hnil. apply Hiff. rewrite Hnil. intros r [].
Qed.

End VerdictProperties.


(** ** One result per item, in input order *)

Lemma map_flat_map_single {A B C : Type} (f : B -> C) (g : A -> list B) (h : A -> C)
    (l : list A) :
  (forall x, map f (g x) = [h x]) -> map f (flat_map g l) = map h l.
Proof.
  intros Hg. induction l as [|x l IH]; [reflexivity|].
  simpl. rewrite map_app, Hg, IH. reflexivity.
Qed.

Lemma map_flat_map_filter {A B : Type} (f : B -> A) (g : A -> list B) (keep : A -> bool)
    (l : list A) :
  (forall x, map f (g x) = if keep x then [x] else []) ->
  map f (flat_map g l) = List.filter keep l.
Proof.
  intros Hg. induction l as [|x l IH]; [reflexivity|].
  simpl. rewrite map_app, Hg, IH. destruct (keep x); reflexivity.
Qed.

Section ItemProperties.

Variable ToLower : string -> string.
Variable EqualFold : string -> string -> bool.

Local Ltac split_ifs :=
  repeat match goal with
         | |- context [if ?b then _ else _] => destruct b
         end.

Local Ltac appending :=
  intros acc x; split_ifs; cbn beta iota; rewrite ?app_nil_r; reflexivity.

Local Ltac one_item :=
  let x := fresh "x" in intros x; split_ifs; reflexivity.

(** X5: every category list of a validation names the discovered items
    once each and in input order: the installed apps; the teams, then the
    individual collaborators, then the CODEOWNERS requirements that are
    kept; the secrets, variables, runners and required workflows; the
    organization policies (as ["name (status: s)"]), then the issue and the
    pull-request templates; the submodules; the security campaigns. *)
Theorem results_follow_items deps capabilities assignTeams :
  map Item (v_AppsIntegrations
              (validation.ValidateAgainstTarget ToLower EqualFold deps capabilities assignTeams))
  = InstalledGitHubApps (d_AppsIntegrations deps)
  /\ map Item (v_AccessPermissions
                 (validation.ValidateAgainstTarget ToLower EqualFold deps capabilities
                    assignTeams))
     = AccessTeams (d_AccessPermissions deps)
       ++ IndividualCollaborators (d_AccessPermissions deps)
       ++ List.filter codeowners_kept (CodeownersRequirements (d_AccessPermissions deps))
  /\ map Item (v_CIDependencies
                 (validation.ValidateAgainstTarget ToLower EqualFold deps capabilities
                    assignTeams))
     = OrganizationSecrets (d_ActionsCIDependencies deps)
       ++ OrganizationVariables (d_ActionsCIDependencies deps)
       ++ SelfHostedRunners (d_ActionsCIDependencies deps)
       ++ RequiredWorkflows (d_ActionsCIDependencies deps)
  /\ map Item (v_Governance
                 (validation.ValidateAgainstTarget ToLower EqualFold deps capabilities
                    assignTeams))
     = map validation.policyItem (OrganizationPolicies (d_OrgGovernance deps))
       ++ IssueTemplates (d_OrgGovernance deps)
       ++ PullRequestTemplates (d_OrgGovernance deps)
  /\ map Item (v_CodeDependencies
                 (validation.ValidateAgainstTarget ToLower EqualFold deps capabilities
                    assignTeams))
     = GitSubmodules (d_CodeDependencies deps)
  /\ map Item (v_SecurityCompliance
                 (validation.ValidateAgainstTarget ToLower EqualFold deps capabilities
                    assignTeams))
     = SecurityCampaigns (d_SecurityCompliance deps).
Proof.
  cbn [validation.ValidateAgainstTarget v_AppsIntegrations v_AccessPermissions
       v_CIDependencies v_Governance v_CodeDependencies v_SecurityCompliance].
  repeat split.
  - unfold validation.validateAppsIntegrations.
    rewrite fold_left_appending by appending. cbn [app].
    rewrite (map_flat_map_single _ _ (fun x => x)) by one_item. apply map_id.
  - unfold validation.validateAccessPermissions. cbn zeta.
    rewrite (fold_left_appending (validation.validateCodeownersRequirement EqualFold capabilities))
      by (intros; apply validateCodeownersRequirement_appending).
    rewrite fold_left_appending by appending.
    rewrite fold_left_appending by appending.
    cbn [app]. rewrite !map_app, <- app_assoc. f_equal; [| f_equal].
    + rewrite (map_flat_map_single _ _ (fun x => x)) by one_item. apply map_id.
    + rewrite (map_flat_map_single _ _ (fun x => x)) by one_item. apply map_id.
    + apply map_flat_map_filter. intros requirement.
      unfold validation.validateCodeownersRequirement, codeowners_kept.
      split_ifs; reflexivity.
  - unfold validation.validateCIDependencies. cbn zeta.
    rewrite !fold_left_appending by appending.
    cbn [app]. rewrite !map_app, <- !app_assoc. repeat f_equal.
    all: rewrite (map_flat_map_single _ _ (fun x => x)) by one_item; apply map_id.
  - unfold validation.validateGovernance. cbn zeta.
    rewrite !fold_left_appending by appending.
    cbn [app]. rewrite !map_app, <- !app_assoc. repeat f_equal.
    + apply map_flat_map_single. intros policy.
      unfold validation.validateMemberPrivilegePolicy, validation.validateRepositoryPolicy.
      cbn zeta. split_ifs; reflexivity.
    + rewrite (map_flat_map_single _ _ (fun x => x)) by one_item. apply map_id.
    + rewrite (map_flat_map_single _ _ (fun x => x)) by one_item. apply map_id.
  - unfold validation.validateCodeDependencies.
    rewrite fold_left_appending by appending. cbn [app].
    rewrite (map_flat_map_single _ _ (fun x => x)) by one_item. apply map_id.
  - unfold validation.validateSecurityCompliance.
    rewrite fold_left_appending by appending. cbn [app].
    rewrite (map_flat_map_single _ _ (fun x => x)) by one_item. apply map_id.
Qed.

End ItemProperties.


(** ** Go's string functions *)

Lemma append_cons (c : ascii) (s t : string) : String c s +:+ t = String c (s +:+ t).
Proof. reflexivity. Qed.

Lemma append_nil_l (t : string) : "" +:+ t = t.
Proof. reflexivity. Qed.

Lemma append_assoc (s t u : string) : (s +:+ t) +:+ u = s +:+ (t +:+ u).
Proof.
  induction s as [|c s IH]; [reflexivity|].
  rewrite !append_cons, IH. reflexivity.
Qed.

Lemma append_nil_r (s : string) : s +:+ "" = s.
Proof.
  induction s as [|c s IH]; [reflexivity|].
  rewrite append_cons, IH. reflexivity.
Qed.

Lemma length_append (s t : string) :
  String.length (s +:+ t) = (String.length s + String.length t)%nat.
Proof.
  induction s as [|c s IH]; [reflexivity|].
  rewrite append_cons. cbn [String.length]. rewrite IH. reflexivity.
Qed.

Lemma prefix_cons (c d : ascii) (p s : string) :
  String.prefix (String c p) (String d s) = Ascii.eqb c d && String.prefix p s.
Proof.
  cbn [String.prefix]. destruct (ascii_dec c d) as [->|Hne].
  - rewrite Ascii.eqb_refl. reflexivity.
  - apply Ascii.eqb_neq in Hne. rewrite Hne. reflexivity.
Qed.

Lemma prefix_nil (s : string) : String.prefix "" s = true.
Proof. destruct s; reflexivity. Qed.

Lemma prefix_append (p t : string) : String.prefix p (p +:+ t) = true.
Proof.
  induction p as [|c p IH]; [apply prefix_nil|].
  rewrite append_cons, prefix_cons, Ascii.eqb_refl. exact IH.
Qed.

Lemma slice_to_append (s t : string) : slice_to (String.length s) (s +:+ t) = s.
Proof.
  unfold slice_to. induction s as [|c s IH].
  - rewrite append_nil_l. destruct t; reflexivity.
  - rewrite append_cons. cbn [String.length String.substring]. rewrite IH. reflexivity.
Qed.

Lemma slice_from_append (s t : string) : slice_from (String.length s) (s +:+ t) = t.
Proof.
  induction s as [|c s IH]; [reflexivity|].
  rewrite append_cons. cbn [String.length slice_from]. exact IH.
Qed.

Lemma TrimPrefix_append (p t : string) : TrimPrefix (p +:+ t) p = t.
Proof.
  unfold TrimPrefix, HasPrefix. rewrite prefix_append. apply slice_from_append.
Qed.

Lemma Index_nil (sub : string) : Index "" sub = if String.prefix sub "" then 0 else -1.
Proof. reflexivity. Qed.

Lemma Index_cons (c : ascii) (s sub : string) :
  Index (String c s) sub
  = if String.prefix sub (String c s) then 0
    else if Index s sub <? 0 then -1 else Index s sub + 1.
Proof. reflexivity. Qed.

Lemma Index_lower_bound (s sub : string) : -1 <= Index s sub.
Proof.
  induction s as [|c s IH].
  - rewrite Index_nil. destruct (String.prefix sub ""); lia.
  - rewrite Index_cons. destruct (String.prefix sub (String c s)); [lia|].
    destruct (Z.ltb_spec (Index s sub) 0); lia.
Qed.

Lemma Contains_cons (c : ascii) (s sub : string) :
  Contains (String c s) sub = String.prefix sub (String c s) || Contains s sub.
Proof.
  unfold Contains. rewrite Index_cons.
  destruct (String.prefix sub (String c s)); [reflexivity|].
  pose proof (Index_lower_bound s sub).
  destruct (Z.ltb_spec (Index s sub) 0); cbn [orb].
  - symmetry. apply Z.leb_gt. lia.
  - transitivity true; [apply Z.leb_le; lia | symmetry; apply Z.leb_le; lia].
Qed.

Lemma Contains_nil (sub : string) : Contains "" sub = String.prefix sub "".
Proof. unfold Contains. rewrite Index_nil. destruct (String.prefix sub ""); reflexivity. Qed.

(** An occurrence of a two-byte separator with distinct bytes right after
    a text that does not contain it is the first one. *)
Lemma Index_after (a b : ascii) (name rest : string) :
  a <> b ->
  Contains name (String a (String b "")) = false ->
  Index (name +:+ String a (String b "") +:+ rest) (String a (String b ""))
  = Z.of_nat (String.length name).
Proof.
  intros Hab. induction name as [|c name IH]; intros Hnone.
  - pose proof (prefix_append (String a (String b "")) rest) as Hhere.
    rewrite append_nil_l. rewrite append_cons in Hhere |- *.
    rewrite Index_cons, Hhere. reflexivity.
  - rewrite Contains_cons in Hnone. apply orb_false_iff in Hnone as [Hhere Hlater].
    rewrite append_cons. cbn [String.length]. rewrite Index_cons.
    assert (Hnot : String.prefix (String a (String b ""))
                     (String c (name +:+ String a (String b "") +:+ rest)) = false).
    { destruct name as [|d name].
      - rewrite append_nil_l, append_cons, !prefix_cons.
        destruct (Ascii.eqb_spec a c); [| reflexivity].
        destruct (Ascii.eqb_spec b a); [congruence | reflexivity].
      - rewrite append_cons. rewrite !prefix_cons, prefix_nil in *.
        exact Hhere. }
    rewrite Hnot, (IH Hlater).
    destruct (Z.ltb_spec (Z.of_nat (String.length name)) 0); lia.
Qed.

(** ** Names before [" ("] *)

(** X6: the name that [extractTeamName] and [extractAppName] recover from an
    item formatted ["name (extra"] is [name], provided [name] itself holds
    no [" ("]; an item without [" ("] is its own name. *)
Theorem extract_name_round_trip (name extra : string) :
  Contains name " (" = false ->
  validation.extractTeamName (name +:+ " (" +:+ extra) = name
  /\ validation.extractAppName (name +:+ " (" +:+ extra) = name
  /\ validation.extractTeamName name = name
  /\ validation.extractAppName name = name.
Proof.
  intros Hnone.
  assert (Hfound : Index (name +:+ " (" +:+ extra) " (" = Z.of_nat (String.length name))
    by (apply Index_after; [discriminate | exact Hnone]).
  assert (Hmissing : Index name " (" = -1).
  { unfold Contains in Hnone. apply Z.leb_gt in Hnone.
    pose proof (Index_lower_bound name " ("). lia. }
  unfold validation.extractTeamName, validation.extractAppName.
  rewrite Hfound, Hmissing, Nat2Z.id, slice_to_append.
  replace (Z.of_nat (String.length name) =? -1) with false
    by (symmetry; apply Z.eqb_neq; lia).
  cbn [negb Z.eqb]. auto.
Qed.


(** ** Splitting on ['/'] *)

Lemma split_scan_slash_cons (cur : string) (c : ascii) (s : string) :
  split_scan "/" 0 cur (String c s)
  = if Ascii.eqb c "/" then cur :: split_scan "/" 0 "" s
    else split_scan "/" 0 (cur +:+ String c "") s.
Proof.
  cbn [split_scan]. rewrite prefix_cons, prefix_nil, andb_true_r.
  rewrite (Ascii.eqb_sym "/" c). reflexivity.
Qed.

Lemma split_scan_slash_length (s : string) :
  forall cur, List.length (split_scan "/" 0 cur s) = S (count_byte "/" s).
Proof.
  induction s as [|c s IH]; intros cur; [reflexivity|].
  rewrite split_scan_slash_cons. cbn [count_byte].
  destruct (Ascii.eqb c "/"); cbn [List.length]; rewrite IH; reflexivity.
Qed.

Lemma Split_slash_length (s : string) :
  List.length (Split s "/") = S (count_byte "/" s).
Proof. apply split_scan_slash_length. Qed.

Lemma split_scan_no_slash (s : string) :
  forall cur, count_byte "/" s = 0%nat -> split_scan "/" 0 cur s = [cur +:+ s].
Proof.
  induction s as [|c s IH]; intros cur Hnone.
  - rewrite append_nil_r. reflexivity.
  - rewrite split_scan_slash_cons. cbn [count_byte] in Hnone.
    destruct (Ascii.eqb c "/"); [discriminate|].
    rewrite IH by exact Hnone. rewrite append_assoc. reflexivity.
Qed.

Lemma split_scan_at_slash (s rest : string) :
  forall cur, count_byte "/" s = 0%nat ->
    split_scan "/" 0 cur (s +:+ "/" +:+ rest) = (cur +:+ s) :: split_scan "/" 0 "" rest.
Proof.
  induction s as [|c s IH]; intros cur Hnone.
  - rewrite append_nil_l, append_nil_r, append_cons, append_nil_l, split_scan_slash_cons.
    reflexivity.
  - rewrite append_cons, split_scan_slash_cons. cbn [count_byte] in Hnone.
    destruct (Ascii.eqb c "/"); [discriminate|].
    rewrite IH by exact Hnone. rewrite append_assoc. reflexivity.
Qed.

Lemma malformed_iff_slashes (repoSpec : string) :
  malformed repoSpec <-> count_byte "/" repoSpec <> 1%nat.
Proof. unfold malformed. rewrite Split_slash_length. lia. Qed.

(** X7: [parseRepository] accepts an identifier exactly when it holds one
    ['/'], and then returns what stands before and after it; it accepts an
    empty owner or an empty name. *)
Theorem parseRepository_one_slash :
  (forall repoSpec,
      snd (batch.parseRepository repoSpec) = None <-> count_byte "/" repoSpec = 1%nat)
  /\ (forall owner repo,
         count_byte "/" owner = 0%nat -> count_byte "/" repo = 0%nat ->
         batch.parseRepository (owner +:+ "/" +:+ repo) = (owner, repo, None))
  /\ batch.parseRepository "/" = ("", "", None).
Proof.
  split; [| split].
  - intros repoSpec. unfold batch.parseRepository.
    rewrite Split_slash_length.
    destruct (Nat.eqb_spec (S (count_byte "/" repoSpec)) 2); cbn [negb snd]; split;
      try discriminate; try lia; reflexivity.
  - intros owner repo Howner Hrepo. unfold batch.parseRepository, Split.
    rewrite split_scan_at_slash by exact Howner.
    rewrite split_scan_no_slash by exact Hrepo.
    rewrite !append_nil_l. reflexivity.
  - reflexivity.
Qed.

(** ** When a batch fails *)

Section BatchFailure.

Variable client : batch.Client.

(** X8: [AnalyzeRepositories] returns an error exactly when the list is
    empty or its first identifier is malformed, whatever the schedule of
    the tasks, the capacity of the cache and the answers of the client;
    with the error it returns no slot, and a failing organization loader
    never fails the batch. *)
Theorem batch_fails_iff (capacity : nat -> nat) (schedule : list nat) (repos : list string) :
  (snd (batch.AnalyzeRepositories client capacity schedule repos) = None
   <-> repos <> [] /\ ~ malformed (nth 0 repos ""))
  /\ (snd (batch.AnalyzeRepositories client capacity schedule repos) <> None ->
      fst (batch.AnalyzeRepositories client capacity schedule repos) = [])
  /\ (repos = [] ->
      batch.AnalyzeRepositories client capacity schedule repos
      = ([], Some "no repositories provided")).
Proof.
  destruct repos as [|first others].
  - cbn. repeat split; try congruence; try discriminate. intros [H _]. congruence.
  - destruct (malformed_dec first) as [Hbad | Hgood].
    + rewrite AnalyzeRepositories_aborts by (try discriminate; exact Hbad).
      cbn [fst snd nth]. repeat split; try discriminate; try reflexivity.
      intros [_ H]. contradiction.
    + rewrite AnalyzeRepositories_runs by (try discriminate; exact Hgood).
      cbn [fst snd nth].
      repeat split; try discriminate; try congruence; auto.
Qed.

End BatchFailure.


(** ** Filtering the cached policies for a repository *)

Lemma filterOrgRulesetsForRepo_fold (repo : string) (policies : list OrgPolicy) :
  forall (cells : list OrgPolicy) (slice : batch.PolicySlice),
    fold_left (fun '(cells, slice) policy => batch.filterPolicy repo cells slice policy)
      policies (cells, slice)
    = fold_left (fun '(cells, slice) policy => batch.sliceAppend cells slice policy)
        (List.filter (fun policy => batch.rulesetAppliesToRepo policy repo) policies)
        (cells, slice).
Proof.
  induction policies as [|policy policies IH]; intros cells slice; [reflexivity|].
  cbn [fold_left List.filter]. rewrite filterPolicy_appends.
  destruct (batch.rulesetAppliesToRepo policy repo); [| apply IH].
  cbn [fold_left]. destruct (batch.sliceAppend cells slice policy). apply IH.
Qed.

Lemma append_fresh (policies : list OrgPolicy) :
  forall cells elements,
    fold_left (fun '(cells, slice) policy => batch.sliceAppend cells slice policy)
      policies (cells, batch.Fresh elements)
    = (cells, batch.Fresh (elements ++ policies)).
Proof.
  induction policies as [|policy policies IH]; intros cells elements.
  - cbn [fold_left]. rewrite app_nil_r. reflexivity.
  - cbn [fold_left batch.sliceAppend]. rewrite IH, <- app_assoc. reflexivity.
Qed.

Lemma append_cached (policies : list OrgPolicy) :
  forall cells len,
    (len <= List.length cells)%nat ->
    batch.sliceElements
      (fst (fold_left (fun '(cells, slice) policy => batch.sliceAppend cells slice policy)
              policies (cells, batch.Cached len)))
      (snd (fold_left (fun '(cells, slice) policy => batch.sliceAppend cells slice policy)
              policies (cells, batch.Cached len)))
    = take len cells ++ policies
    /\ fst (fold_left (fun '(cells, slice) policy => batch.sliceAppend cells slice policy)
              policies (cells, batch.Cached len))
       = take len cells ++ take (List.length cells - len) policies
           ++ drop (len + List.length policies) cells.
Proof.
  induction policies as [|policy policies IH]; intros cells len Hlen.
  - cbn [fold_left fst snd batch.sliceElements List.length].
    rewrite app_nil_r, take_nil, Nat.add_0_r. cbn [app].
    split; [reflexivity | symmetry; apply take_drop].
  - cbn [fold_left batch.sliceAppend].
    destruct (Nat.ltb_spec len (List.length cells)) as [Hlt|Hge].
    + destruct (IH (<[len := policy]> cells) (S len)) as [Helements Hcells];
        [rewrite length_insert; lia|].
      rewrite Helements, Hcells, length_insert.
      assert (Htake : take (S len) (<[len := policy]> cells) = take len cells ++ [policy]).
      { rewrite (take_S_r _ _ policy) by (apply list_lookup_insert_eq; exact Hlt).
        rewrite take_insert_ge by lia. reflexivity. }
      rewrite Htake, <- !app_assoc. cbn [app List.length].
      split; [reflexivity|].
      replace (List.length cells - len)%nat with (S (List.length cells - S len)) by lia.
      cbn [take firstn].
      rewrite drop_insert_lt by lia.
      replace (S len + List.length policies)%nat with (len + S (List.length policies))%nat
        by lia.
      reflexivity.
    + rewrite append_fresh. cbn [fst snd batch.sliceElements].
      rewrite <- app_assoc. cbn [app].
      split; [reflexivity|].
      replace (List.length cells - len)%nat with 0%nat by lia.
      rewrite take_0, drop_ge, take_ge by (cbn [List.length]; lia).
      rewrite app_nil_r. reflexivity.
Qed.

(** X9: run without another task in between, [filterOrgRulesetsForRepo]
    leaves the header of the repository policies listing its former
    elements followed by the cached policies that the free-text resolver
    accepts for the repository, in their order, and returns no error.  It
    writes these policies, as many as fit, into the cells of the array of
    the cache from the length of the header on, where every other header
    on that array finds them, and leaves the other cells as they are; it
    reads neither the owner nor the policies behind the header. *)
Theorem filterOrgRulesetsForRepo_appends (owner repo : string) (orgGovernance : OrgGovernance)
    (cells : list OrgPolicy) (len : nat) :
  (len <= List.length cells)%nat ->
  exists cells' slice',
    batch.filterOrgRulesetsForRepo owner repo orgGovernance cells (batch.Cached len)
    = (cells', slice', None)
    /\ batch.sliceElements cells' slice'
       = take len cells
           ++ List.filter (fun policy => batch.rulesetAppliesToRepo policy repo)
                (OrganizationPolicies orgGovernance)
    /\ cells'
       = take len cells
           ++ take (List.length cells - len)
                (List.filter (fun policy => batch.rulesetAppliesToRepo policy repo)
                   (OrganizationPolicies orgGovernance))
           ++ drop
                (len
                 + List.length
                     (List.filter (fun policy => batch.rulesetAppliesToRepo policy repo)
                        (OrganizationPolicies orgGovernance)))
                cells.
Proof.
  intros Hlen. unfold batch.filterOrgRulesetsForRepo.
  rewrite filterOrgRulesetsForRepo_fold.
  destruct (append_cached
              (List.filter (fun policy => batch.rulesetAppliesToRepo policy repo)
                 (OrganizationPolicies orgGovernance))
              cells len Hlen) as [Helements Hcells].
  destruct (fold_left _ _ _) as [cells' slice']. cbn [fst snd] in *.
  exists cells', slice'. split; [reflexivity|]. split; assumption.
Qed.

(** ** The repository policies of a batch *)

Section BatchSlots.

Variable client : batch.Client.
Variable capacity : nat -> nat.

Lemma cacheArray_length (orgCtx : batch.OrganizationContext) :
  List.length (batch.cacheArray capacity orgCtx)
  = (List.length (cachedPolicies orgCtx)
     + (capacity (List.length (cachedPolicies orgCtx))
        - List.length (cachedPolicies orgCtx)))%nat.
Proof.
  unfold batch.cacheArray, cachedPolicies. cbv zeta.
  rewrite length_app, length_replicate. reflexivity.
Qed.

Lemma sliceElements_inv (cells cached done : list OrgPolicy) (slice : batch.PolicySlice) :
  take (List.length cached) cells = cached ->
  slice_inv cached (List.length cells) slice done ->
  exists extra,
    batch.sliceElements cells slice = cached ++ extra
    /\ List.length extra = List.length done
    /\ (List.length cells = List.length cached -> extra = done)
    /\ ((List.length cached + List.length done <= List.length cells)%nat ->
        batch.sliceElements cells slice
        = take (List.length cached + List.length done) cells).
Proof.
  intros Hcached.
  destruct slice as [len|elements]; cbn [slice_inv batch.sliceElements].
  - intros [-> Hle]. exists (drop (List.length cached) (take (List.length cached + List.length done) cells)).
    split.
    { rewrite <- (take_drop (List.length cached)
                    (take (List.length cached + List.length done) cells)) at 1.
      rewrite take_take.
      replace (List.length cached `min` (List.length cached + List.length done))%nat
        with (List.length cached) by lia.
      rewrite Hcached. reflexivity. }
    split; [rewrite length_drop, length_take; lia|].
    split; [| reflexivity].
    intros Hfull.
    assert (Hdone : done = []) by (apply length_zero_iff_nil; lia).
    subst done. rewrite Nat.add_0_r. apply drop_ge. rewrite length_take. lia.
  - intros (Hlen & Hprefix & Hover & Hfull). exists (drop (List.length cached) elements).
    split.
    { rewrite <- (take_drop (List.length cached) elements) at 1.
      rewrite Hprefix. reflexivity. }
    split; [rewrite length_drop; lia|].
    split; [| lia].
    intros Hcap. rewrite (Hfull Hcap). apply drop_app_length.
Qed.

Lemma final_cells (orgCtx : batch.OrganizationContext) (schedule : list nat)
    (repos : list string) :
  List.length (batch.st_cells (finalState client capacity orgCtx schedule repos))
  = List.length (batch.cacheArray capacity orgCtx)
  /\ take (List.length (cachedPolicies orgCtx))
       (batch.st_cells (finalState client capacity orgCtx schedule repos))
     = cachedPolicies orgCtx.
Proof.
  destruct (final_inv client capacity orgCtx schedule repos) as (_ & _ & Hlen & Hcached & _).
  split; assumption.
Qed.

(** X17: in a batch, whatever the schedule of the tasks, the slot of a
    repository with a well-formed identifier lists the cached repository
    policies followed by as many further policies as the free-text
    resolver accepts for that repository among the cached organization
    policies.  When the array of the cache has no spare capacity, the
    further policies are the accepted ones themselves, in their order, so
    that a cached repository policy that is accepted for the repository is
    listed twice. *)
Theorem batch_repository_policies (schedule : list nat) (repos : list string)
    (index : nat) (repository : string) :
  repos <> [] ->
  ~ malformed (nth 0 repos "") ->
  repos !! index = Some repository ->
  ~ malformed repository ->
  exists deps extra,
    fst (batch.AnalyzeRepositories client capacity schedule repos) !! index
    = Some (batch.mkBatchAnalysisResult repository (Some deps) None)
    /\ RepositoryPolicies (d_OrgGovernance deps)
       = cachedPolicies (batch_context client repos) ++ extra
    /\ List.length extra
       = List.length (acceptedPolicies (batch_context client repos) repository)
    /\ ((capacity (List.length (cachedPolicies (batch_context client repos)))
         <= List.length (cachedPolicies (batch_context client repos)))%nat ->
        extra = acceptedPolicies (batch_context client repos) repository).
Proof.
  intros Hne Hfirst Hrepository Hgood.
  rewrite AnalyzeRepositories_runs by assumption. cbn [fst].
  destruct (read_slot client capacity (batch_context client repos) schedule repos
              index repository Hrepository) as [_ Hwell].
  destruct (Hwell Hgood) as (slice & Hslot & Hslice).
  destruct (final_cells (batch_context client repos) schedule repos) as [Hlen Hcached].
  rewrite <- Hlen in Hslice.
  destruct (sliceElements_inv _ _ _ _ Hcached Hslice) as (extra & Helements & Hextra & Hfull & _).
  eexists _, extra. split; [exact Hslot|].
  cbn [batch.withRepositoryPolicies d_OrgGovernance RepositoryPolicies].
  split; [exact Helements|]. split; [exact Hextra|].
  intros Hcap. apply Hfull. rewrite Hlen, cacheArray_length. lia.
Qed.

(** X24: in a batch, whatever the schedule of the tasks, two repositories
    whose accepted policies both fit the spare capacity of the array of
    the cache show the same policy at every position that both slots
    have, whatever the resolver accepted for each of them: both slots
    read the cells of that one array. *)
Theorem batch_slots_share_cells (schedule : list nat) (repos : list string)
    (i j : nat) (first second : string) :
  repos <> [] ->
  ~ malformed (nth 0 repos "") ->
  repos !! i = Some first -> ~ malformed first ->
  repos !! j = Some second -> ~ malformed second ->
  (List.length (cachedPolicies (batch_context client repos))
   + List.length (acceptedPolicies (batch_context client repos) first)
   <= capacity (List.length (cachedPolicies (batch_context client repos))))%nat ->
  (List.length (cachedPolicies (batch_context client repos))
   + List.length (acceptedPolicies (batch_context client repos) second)
   <= capacity (List.length (cachedPolicies (batch_context client repos))))%nat ->
  exists deps deps',
    fst (batch.AnalyzeRepositories client capacity schedule repos) !! i
    = Some (batch.mkBatchAnalysisResult first (Some deps) None)
    /\ fst (batch.AnalyzeRepositories client capacity schedule repos) !! j
       = Some (batch.mkBatchAnalysisResult second (Some deps') None)
    /\ forall position,
         (position < List.length (RepositoryPolicies (d_OrgGovernance deps)))%nat ->
         (position < List.length (RepositoryPolicies (d_OrgGovernance deps')))%nat ->
         RepositoryPolicies (d_OrgGovernance deps) !! position
         = RepositoryPolicies (d_OrgGovernance deps') !! position.
Proof.
  intros Hne Hfirst Hi Hgood Hj Hgood' Hfits Hfits'.
  rewrite AnalyzeRepositories_runs by assumption. cbn [fst].
  destruct (read_slot client capacity (batch_context client repos) schedule repos
              i first Hi) as [_ Hwell].
  destruct (read_slot client capacity (batch_context client repos) schedule repos
              j second Hj) as [_ Hwell'].
  destruct (Hwell Hgood) as (slice & Hslot & Hslice).
  destruct (Hwell' Hgood') as (slice' & Hslot' & Hslice').
  destruct (final_cells (batch_context client repos) schedule repos) as [Hlen Hcached].
  rewrite <- Hlen in Hslice, Hslice'.
  pose proof (cacheArray_length (batch_context client repos)) as Hcap.
  destruct (sliceElements_inv _ _ _ _ Hcached Hslice) as (extra & _ & _ & _ & Htake).
  destruct (sliceElements_inv _ _ _ _ Hcached Hslice') as (extra' & _ & _ & _ & Htake').
  eexists _, _. split; [exact Hslot|]. split; [exact Hslot'|].
  cbn [batch.withRepositoryPolicies d_OrgGovernance RepositoryPolicies].
  rewrite Htake, Htake' by lia.
  intros position Hposition Hposition'.
  rewrite length_take in Hposition, Hposition'.
  rewrite !lookup_take_lt by lia. reflexivity.
Qed.

End BatchSlots.

(** ** Policies without targeting *)

Lemma range_return_none {A R : Type} (body : A -> option R) (xs : list A) :
  (forall x, In x xs -> body x = None) -> range_return xs body = None.
Proof.
  induction xs as [|x xs IH]; intros Hnone; [reflexivity|].
  cbn [range_return]. rewrite (Hnone x) by (left; reflexivity).
  apply IH. intros y Hy. apply Hnone. right. exact Hy.
Qed.

(** X10: a policy none of whose restriction strings mentions
    ["Targets repos:"] or ["Excludes repos:"] is accepted by the free-text
    resolver for every repository. *)
Theorem untargeted_policy_applies_everywhere (policy : OrgPolicy) (repo : string) :
  (forall restriction,
      In restriction (Restrictions policy) ->
      Contains restriction "Targets repos:" = false
      /\ Contains restriction "Excludes repos:" = false) ->
  batch.rulesetAppliesToRepo policy repo = true.
Proof.
  intros Hnone. unfold batch.rulesetAppliesToRepo.
  rewrite range_return_none.
  - rewrite range_return_none; [reflexivity|].
    intros restriction Hin. destruct (Hnone restriction Hin) as [-> _]. reflexivity.
  - intros restriction Hin. destruct (Hnone restriction Hin) as [-> ->]. reflexivity.
Qed.


(** ** Joining with [", "] and splitting again *)

Lemma prefix_two_after (a b c : ascii) (name rest : string) :
  a <> b ->
  String.prefix (String a (String b "")) (String c name) = false ->
  String.prefix (String a (String b ""))
    (String c (name +:+ String a (String b "") +:+ rest)) = false.
Proof.
  intros Hab Hhere. destruct name as [|d name].
  - rewrite append_nil_l, append_cons, !prefix_cons.
    destruct (Ascii.eqb_spec a c); [| reflexivity].
    destruct (Ascii.eqb_spec b a); [congruence | reflexivity].
  - rewrite append_cons. rewrite !prefix_cons, prefix_nil in *. exact Hhere.
Qed.

Lemma split_scan_comma_name (name : string) :
  forall cur, Contains name ", " = false -> split_scan ", " 0 cur name = [cur +:+ name].
Proof.
  induction name as [|c name IH]; intros cur Hnone.
  - rewrite append_nil_r. reflexivity.
  - rewrite Contains_cons in Hnone. apply orb_false_iff in Hnone as [Hhere Hlater].
    cbn [split_scan]. rewrite Hhere, IH by exact Hlater.
    rewrite append_assoc. reflexivity.
Qed.

Lemma split_scan_comma_next (name rest : string) :
  forall cur, Contains name ", " = false ->
    split_scan ", " 0 cur (name +:+ ", " +:+ rest)
    = (cur +:+ name) :: split_scan ", " 0 "" rest.
Proof.
  induction name as [|c name IH]; intros cur Hnone.
  - rewrite append_nil_l, append_nil_r, !append_cons, append_nil_l.
    cbn [split_scan]. rewrite !prefix_cons, prefix_nil, !Ascii.eqb_refl.
    reflexivity.
  - rewrite Contains_cons in Hnone. apply orb_false_iff in Hnone as [Hhere Hlater].
    rewrite append_cons. cbn [split_scan].
    rewrite (prefix_two_after "," " " c name rest) by (discriminate || exact Hhere).
    rewrite IH by exact Hlater. rewrite append_assoc. reflexivity.
Qed.

Lemma Split_Join_comma (names : list string) :
  names <> [] -> splittable names -> Split (Join names ", ") ", " = names.
Proof.
  unfold Split, Join, splittable. intros Hne Hnames.
  destruct names as [|name names]; [congruence|]. clear Hne.
  revert name Hnames. induction names as [|next names IH]; intros name Hnames.
  - cbn [String.concat]. rewrite split_scan_comma_name by (apply Hnames; left; reflexivity).
    reflexivity.
  - change (String.concat ", " (name :: next :: names))
      with (name +:+ ", " +:+ String.concat ", " (next :: names)).
    rewrite split_scan_comma_next by (apply Hnames; left; reflexivity).
    rewrite append_nil_l, IH; [reflexivity|].
    intros n Hn. apply Hnames. right. exact Hn.
Qed.

Lemma Join_single_or_comma (names : list string) :
  Contains (Join names ", ") ", " = false -> names = [] \/ exists name, names = [name].
Proof.
  destruct names as [|name [|next names]]; eauto.
  intros Hnone. exfalso. revert Hnone.
  change (Join (name :: next :: names) ", ")
    with (name +:+ ", " +:+ String.concat ", " (next :: names)).
  generalize (String.concat ", " (next :: names)). intros rest.
  induction name as [|c name IH].
  - rewrite append_nil_l, append_cons, Contains_cons.
    pose proof (prefix_append ", " rest) as Hp. rewrite append_cons in Hp.
    rewrite Hp. discriminate.
  - rewrite append_cons, Contains_cons. intros H.
    apply orb_false_iff in H as [_ H]. exact (IH H).
Qed.


(** ** The free-text resolver on what the scanner stores *)

Lemma Contains_of_prefix (s sub : string) : String.prefix sub s = true -> Contains s sub = true.
Proof.
  intros Hp. unfold Contains. destruct s as [|c s].
  - rewrite Index_nil, Hp. reflexivity.
  - rewrite Index_cons, Hp. reflexivity.
Qed.

Lemma Contains_append_self (p t : string) : Contains (p +:+ t) p = true.
Proof. apply Contains_of_prefix, prefix_append. Qed.

Lemma Join_not_all_repositories (names : list string) :
  names <> [] -> splittable names -> ~ In "All repositories" names ->
  String.eqb (Join names ", ") "All repositories" = false.
Proof.
  intros Hne Hsplit Hnot. apply String.eqb_neq. intros Heq.
  destruct (Join_single_or_comma names) as [Hnil | [name Hone]].
  - rewrite Heq. reflexivity.
  - congruence.
  - subst names. apply Hnot. left. exact Heq.
Qed.

(** The answer of the free-text resolver on a list that starts with a
    plain string is its answer on the rest. *)
Lemma free_text_skip_plain (name status restriction : string) (rest : list string)
    (repo : string) :
  plain_restriction restriction ->
  batch.rulesetAppliesToRepo (mkOrgPolicy name status (restriction :: rest)) repo
  = batch.rulesetAppliesToRepo (mkOrgPolicy name status rest) repo.
Proof.
  intros [Ht He]. unfold batch.rulesetAppliesToRepo.
  cbn [Restrictions range_return]. rewrite Ht, He. reflexivity.
Qed.

Lemma free_text_targets (name status : string) (names rest : list string) (repo : string) :
  names <> [] -> splittable names -> ~ In "All repositories" names ->
  batch.rulesetAppliesToRepo
    (mkOrgPolicy name status (("Targets repos: " +:+ Join names ", ") :: rest)) repo
  = existsb (entry_matches repo) names.
Proof.
  intros Hne Hsplit Hnot. unfold batch.rulesetAppliesToRepo.
  cbn [Restrictions range_return].
  replace (Contains ("Targets repos: " +:+ Join names ", ") "Targets repos:") with true.
  2:{ symmetry. apply Contains_of_prefix.
      change "Targets repos: " with ("Targets repos:" +:+ " ").
      rewrite append_assoc. apply prefix_append. }
  rewrite TrimPrefix_append, Join_not_all_repositories by assumption.
  rewrite Split_Join_comma by assumption.
  rewrite (range_return_guard (entry_matches repo) true) by reflexivity.
  destruct (existsb (entry_matches repo) names); reflexivity.
Qed.

Lemma free_text_excludes (name status : string) (names rest : list string) (repo : string) :
  names <> [] -> splittable names ->
  Contains ("Excludes repos: " +:+ Join names ", ") "Targets repos:" = false ->
  batch.rulesetAppliesToRepo
    (mkOrgPolicy name status (("Excludes repos: " +:+ Join names ", ") :: rest)) repo
  = negb (existsb (entry_matches repo) names)
    && batch.rulesetAppliesToRepo (mkOrgPolicy name status rest) repo.
Proof.
  intros Hne Hsplit Hplain. unfold batch.rulesetAppliesToRepo.
  cbn [Restrictions range_return]. rewrite Hplain.
  replace (Contains ("Excludes repos: " +:+ Join names ", ") "Excludes repos:") with true.
  2:{ symmetry. apply Contains_of_prefix.
      change "Excludes repos: " with ("Excludes repos:" +:+ " ").
      rewrite append_assoc. apply prefix_append. }
  rewrite TrimPrefix_append, Split_Join_comma by assumption.
  rewrite (range_return_guard (entry_matches repo) false) by reflexivity.
  destruct (existsb (entry_matches repo) names); reflexivity.
Qed.

Lemma free_text_no_restriction (name status : string) (repo : string) :
  batch.rulesetAppliesToRepo (mkOrgPolicy name status []) repo = true.
Proof. reflexivity. Qed.

Lemma free_text_all_repositories (name status : string) (rest : list string)
    (repo : string) :
  batch.rulesetAppliesToRepo
    (mkOrgPolicy name status ("Targets repos: All repositories" :: rest)) repo = true.
Proof. reflexivity. Qed.

Lemma plain_protected : plain_restriction "Applies to protected repositories".
Proof. split; reflexivity. Qed.

Lemma free_text_structured_agree (ruleset : dependencies.OrgRuleset) (repo : string) :
  includeNames ruleset = [] \/ excludeNames ruleset = [] ->
  plain_restriction ("Enforcement: " +:+ dependencies.Enforcement ruleset) ->
  plain_restriction ("Rules: " +:+ Join (dependencies.Rules ruleset) ", ") ->
  Contains ("Excludes repos: " +:+ Join (excludeNames ruleset) ", ") "Targets repos:" = false ->
  splittable (includeNames ruleset) ->
  splittable (excludeNames ruleset) ->
  ~ In "All repositories" (includeNames ruleset) ->
  batch.rulesetAppliesToRepo (dependencies.rulesetPolicy ruleset) repo
  = dependencies.rulesetAppliesToRepo ruleset repo.
Proof.
  intros Hone Henf Hrules Hexc Hsi Hse Hall.
  rewrite structured_resolver_searches.
  unfold dependencies.rulesetPolicy, dependencies.rulesetRestrictions.
  unfold includeNames, excludeNames in *.
  destruct ruleset as [id name enforcement source target [refs [inc exc protected] props] rules].
  cbn [dependencies.rs_Name dependencies.Enforcement dependencies.Rules
       dependencies.Conditions dependencies.RepositoryName dependencies.rn_Include
       dependencies.rn_Exclude dependencies.Protected] in *.
  cbv zeta.
  destruct (0 <? List.length rules)%nat; destruct protected;
    destruct inc as [|i0 inc]; destruct exc as [|e0 exc];
    try (destruct Hone; discriminate);
    cbn [List.length Nat.ltb Nat.leb Nat.eqb andb negb app existsb];
    rewrite free_text_skip_plain by exact Henf;
    repeat first
      [ rewrite free_text_all_repositories
      | rewrite free_text_targets by (assumption || discriminate)
      | rewrite free_text_excludes by (assumption || discriminate)
      | rewrite free_text_skip_plain by (exact Hrules || exact plain_protected)
      | rewrite free_text_no_restriction ];
    rewrite ?andb_true_r; reflexivity.
Qed.

(** X11: on the restriction strings the scanner stores for a ruleset that
    does not use includes and excludes together, the free-text resolver
    gives the answer of the structured resolver, provided the names hold no
    [", "], no include is literally ["All repositories"], and the strings
    of the enforcement, of the rules and of the excludes do not themselves
    spell a targeting prefix. *)
Theorem free_text_agrees_with_structured (ruleset : dependencies.OrgRuleset) (repo : string) :
  includeNames ruleset = [] \/ excludeNames ruleset = [] ->
  plain_restriction ("Enforcement: " +:+ dependencies.Enforcement ruleset) ->
  plain_restriction ("Rules: " +:+ Join (dependencies.Rules ruleset) ", ") ->
  Contains ("Excludes repos: " +:+ Join (excludeNames ruleset) ", ") "Targets repos:" = false ->
  splittable (includeNames ruleset) ->
  splittable (excludeNames ruleset) ->
  ~ In "All repositories" (includeNames ruleset) ->
  batch.rulesetAppliesToRepo (dependencies.rulesetPolicy ruleset) repo
  = dependencies.rulesetAppliesToRepo ruleset repo.
Proof. apply free_text_structured_agree. Qed.


(** ** Member privileges *)

Section MemberPrivilegeProperties.

Variable ToLower : string -> string.

Lemma missingRestrictions_strictest (targetPrivileges : OrgMemberPrivileges)
    (restrictions : list string) :
  strictest targetPrivileges ->
  forall missing,
    fold_left
      (fun missingRestrictions restriction =>
         let restrictionLower := ToLower restriction in
         if Contains restrictionLower "repository creation restricted" then
           if CanCreateRepos targetPrivileges
           then missingRestrictions ++ ["Repository creation needs to be restricted"]
           else missingRestrictions
         else if Contains restrictionLower "private repository forking restricted" then
           if CanForkPrivateRepos targetPrivileges
           then missingRestrictions ++ ["Private repository forking needs to be restricted"]
           else missingRestrictions
         else if Contains restrictionLower "two-factor authentication required" then
           if negb (TwoFactorRequired targetPrivileges)
           then missingRestrictions ++ ["Two-factor authentication needs to be required"]
           else missingRestrictions
         else if Contains restrictionLower "web commit signoff required" then
           if negb (WebCommitSignoffRequired targetPrivileges)
           then missingRestrictions ++ ["Web commit signoff needs to be required"]
           else missingRestrictions
         else missingRestrictions)
      restrictions missing
    = missing.
Proof.
  intros (Hc & Hf & Ht & Hw).
  destruct targetPrivileges as [create fork twoFactor signoff permission active].
  cbn [CanCreateRepos CanForkPrivateRepos TwoFactorRequired WebCommitSignoffRequired] in *.
  subst create fork twoFactor signoff.
  induction restrictions as [|restriction restrictions IH]; intros missing; [reflexivity|].
  cbn [fold_left]. cbv zeta. cbn [negb].
  repeat match goal with
         | |- context [if Contains ?s ?k then _ else _] => destruct (Contains s k)
         end; apply IH.
Qed.

(** X12: against a target that restricts repository creation and private
    forking and requires two-factor authentication and web commit signoff,
    every member-privilege policy is ready, whatever its restrictions say;
    so is a policy without restrictions against any target. *)
Theorem strictest_target_meets_every_policy (policy : OrgPolicy)
    (targetPrivileges : OrgMemberPrivileges) :
  strictest targetPrivileges \/ Restrictions policy = [] ->
  validation.validateMemberPrivilegePolicy ToLower policy targetPrivileges
  = mkValidationResult (validation.policyItem policy) ValidationReady
      "Member privilege settings meet policy requirements" "".
Proof.
  intros [Hstrict | Hnone]; unfold validation.validateMemberPrivilegePolicy; cbv zeta.
  - rewrite missingRestrictions_strictest by exact Hstrict. reflexivity.
  - rewrite Hnone. reflexivity.
Qed.

End MemberPrivilegeProperties.


(** ** The organization-level analyzers *)

Lemma extractAppName_org_wide (name : string) :
  Contains name " (" = false ->
  validation.extractAppName (name +:+ " (org-wide installation)") = name.
Proof.
  intros Hname.
  pose proof (Index_after " " "(" name "org-wide installation)") as Hidx.
  unfold validation.extractAppName.
  change (name +:+ " (org-wide installation)")
    with (name +:+ " (" +:+ "org-wide installation)").
  rewrite Hidx by (discriminate || exact Hname).
  rewrite Nat2Z.id, slice_to_append.
  replace (Z.of_nat (String.length name) =? -1) with false
    by (symmetry; apply Z.eqb_neq; lia).
  reflexivity.
Qed.

Section OrgLevelProperties.

Variable ToLower : string -> string.
Variable EqualFold : string -> string -> bool.
Variable client : rest.RESTClient.

Lemma installations_fold (response : list rest.Installation) :
  forall apps,
    fold_left
      (fun apps installation =>
         let appInfo := rest.AppName installation in
         let appInfo :=
           if String.eqb appInfo "" then rest.AppSlug installation else appInfo in
         let appInfo :=
           if String.eqb appInfo "" && negb (String.eqb (rest.App_Name installation) "")
           then rest.App_Name installation else appInfo in
         mkOrgAppsIntegrations
           (org_InstalledGitHubApps apps ++ [appInfo +:+ " (org-wide installation)"]))
      response apps
    = mkOrgAppsIntegrations
        (org_InstalledGitHubApps apps
           ++ map (fun installation =>
                     installationName installation +:+ " (org-wide installation)")
                response).
Proof.
  induction response as [|installation response IH]; intros apps.
  - cbn [fold_left map]. rewrite app_nil_r. destruct apps. reflexivity.
  - cbn [fold_left map]. rewrite IH. cbn [org_InstalledGitHubApps].
    rewrite <- app_assoc. cbn [app]. unfold installationName. cbv zeta.
    destruct (String.eqb (rest.AppName installation) "") eqn:Ea;
      destruct (String.eqb (rest.AppSlug installation) "") eqn:Es;
      destruct (String.eqb (rest.App_Name installation) "") eqn:En;
      rewrite ?Ea, ?Es, ?En; cbn [negb andb]; try reflexivity.
    apply String.eqb_eq in Es. apply String.eqb_eq in En. rewrite Es, En. reflexivity.
Qed.

(** X13: when the installations request fails,
    [AnalyzeAppsIntegrationsOrgLevel] leaves the apps as they are and
    returns the wrapped error; otherwise it appends, for every installation
    in answer order, its name (app name, else slug, else name of the app)
    followed by [" (org-wide installation)"], from which [extractAppName]
    recovers the name as long as the name holds no [" ("]. *)
Theorem org_apps_recorded (owner : string) (apps : OrgAppsIntegrations) :
  (forall e,
      snd (rest.GetInstallations client ("orgs/" +:+ owner +:+ "/installations")) = Some e ->
      orglevel.AnalyzeAppsIntegrationsOrgLevel client owner apps
      = (apps, Some ("failed to get organization app installations: " +:+ e)))
  /\ (snd (rest.GetInstallations client ("orgs/" +:+ owner +:+ "/installations")) = None ->
      orglevel.AnalyzeAppsIntegrationsOrgLevel client owner apps
      = (mkOrgAppsIntegrations
           (org_InstalledGitHubApps apps
              ++ map (fun installation =>
                        installationName installation +:+ " (org-wide installation)")
                   (fst (rest.GetInstallations client
                           ("orgs/" +:+ owner +:+ "/installations")))),
         None))
  /\ (forall installation,
         Contains (installationName installation) " (" = false ->
         validation.extractAppName
           (installationName installation +:+ " (org-wide installation)")
         = installationName installation).
Proof.
  unfold orglevel.AnalyzeAppsIntegrationsOrgLevel.
  destruct (rest.GetInstallations client ("orgs/" +:+ owner +:+ "/installations"))
    as [response [e|]]; cbn [fst snd].
  - split; [intros e' [= <-]; reflexivity|]. split; [discriminate|].
    intros installation Hname. apply extractAppName_org_wide, Hname.
  - split; [discriminate|]. split; [intros _; rewrite installations_fold; reflexivity|].
    intros installation Hname. apply extractAppName_org_wide, Hname.
Qed.

(** X14: an app recorded by the organization-level analyzer whose name is
    among the apps of the target is classified ready, given that
    [EqualFold] holds of the name and itself. *)
Theorem shared_app_is_ready (installation : rest.Installation) (tokens : list string)
    (capabilities : TargetOrgCapabilities) :
  EqualFold (installationName installation) (installationName installation) = true ->
  Contains (installationName installation) " (" = false ->
  In (installationName installation) (Apps capabilities) ->
  validation.validateAppsIntegrations ToLower EqualFold
    (mkAppsIntegrations
       [installationName installation +:+ " (org-wide installation)"] tokens)
    capabilities
  = [mkValidationResult (installationName installation +:+ " (org-wide installation)")
       ValidationReady "App is available in target organization" ""].
Proof.
  intros Hrefl Hname Hin.
  unfold validation.validateAppsIntegrations. cbn [InstalledGitHubApps fold_left].
  assert (Hextract :
    validation.extractAppName (installationName installation +:+ " (org-wide installation)")
    = installationName installation)
    by (apply extractAppName_org_wide, Hname).
  rewrite Hextract.
  assert (Havailable :
    validation.isAppAvailable EqualFold (installationName installation) (Apps capabilities)
    = true).
  { unfold validation.isAppAvailable. apply existsb_exists.
    exists (installationName installation). split; [exact Hin | exact Hrefl]. }
  rewrite Havailable. reflexivity.
Qed.

End OrgLevelProperties.


(** ** Organization governance *)

Lemma policies_appended_refl (g : OrgGovernance) : policies_appended g g.
Proof. exists []. rewrite app_nil_r. destruct g. reflexivity. Qed.

Lemma policies_appended_policy (g g' : OrgGovernance) (policy : OrgPolicy) :
  policies_appended g g' -> policies_appended g (orglevel.appendPolicy g' policy).
Proof.
  intros [ps ->]. exists (ps ++ [policy]). unfold orglevel.appendPolicy.
  cbn [OrganizationPolicies RepositoryPolicies MemberPrivileges RepositoryRulesets
       IssueTemplates PullRequestTemplates RequiredStatusChecks].
  rewrite app_assoc. reflexivity.
Qed.

Lemma separate_fold (member : OrgPolicy -> bool) (policies : list OrgPolicy) :
  forall repoPolicies memberPrivileges,
    fold_left
      (fun '(repoPolicies, memberPrivileges) policy =>
         if member policy then
           (repoPolicies,
            fold_left (fun memberPrivileges restriction => memberPrivileges ++ [restriction])
              (Restrictions policy) memberPrivileges)
         else (repoPolicies ++ [policy], memberPrivileges))
      policies (repoPolicies, memberPrivileges)
    = (repoPolicies ++ List.filter (fun policy => negb (member policy)) policies,
       memberPrivileges ++ flat_map Restrictions (List.filter member policies)).
Proof.
  induction policies as [|policy policies IH]; intros repoPolicies memberPrivileges.
  - cbn. rewrite !app_nil_r. reflexivity.
  - cbn [fold_left List.filter]. destruct (member policy); cbn [negb].
    + rewrite IH. cbn [flat_map].
      rewrite (fold_left_appending (fun acc restriction => acc ++ [restriction]))
        by (intros; reflexivity).
      replace (flat_map (fun restriction : string => [] ++ [restriction]) (Restrictions policy))
        with (Restrictions policy)
        by (induction (Restrictions policy) as [|r rs IHr]; cbn in *; congruence).
      rewrite <- app_assoc. reflexivity.
    + rewrite IH, <- app_assoc. reflexivity.
Qed.

Section GovernanceProperties.

Variable ToLower : string -> string.
Variable client : rest.RESTClient.

Local Ltac split_matches :=
  repeat match goal with
         | |- context [match ?x with _ => _ end] =>
             match type of x with
             | option _ => destruct x
             | bool => destruct x
             | prod _ _ => destruct x
             end
         end.

Lemma separatePoliciesForJSONOrgLevel_spec (governance : OrgGovernance) :
  orglevel.separatePoliciesForJSONOrgLevel ToLower governance
  = mkOrgGovernance (OrganizationPolicies governance)
      (List.filter
         (fun policy => negb (dependencies.isMemberPrivilegePolicyOrgLevel ToLower policy))
         (OrganizationPolicies governance))
      (flat_map Restrictions
         (List.filter (dependencies.isMemberPrivilegePolicyOrgLevel ToLower)
            (OrganizationPolicies governance)))
      (RepositoryRulesets governance) (IssueTemplates governance)
      (PullRequestTemplates governance) (RequiredStatusChecks governance).
Proof.
  unfold orglevel.separatePoliciesForJSONOrgLevel.
  rewrite (separate_fold (dependencies.isMemberPrivilegePolicyOrgLevel ToLower)).
  reflexivity.
Qed.

Lemma checkSecurity_appends (owner : string) (g g' : OrgGovernance) :
  policies_appended g g' ->
  policies_appended g
    (fst (orglevel.checkSecurityAndMemberPoliciesOrgLevel client owner g')).
Proof.
  intros Happ. unfold orglevel.checkSecurityAndMemberPoliciesOrgLevel.
  destruct (rest.GetOrgInfo client ("orgs/" +:+ owner)) as [orgInfo [e|]]; cbn [fst].
  - exact Happ.
  - cbv zeta.
    destruct (0 <? List.length (orglevel.membershipRestrictions orgInfo))%nat;
      destruct (0 <? List.length (orglevel.securityRestrictions orgInfo))%nat;
      repeat apply policies_appended_policy; exact Happ.
Qed.

Lemma rulesets_fold_appends (rulesets : list dependencies.OrgRuleset) :
  forall g g',
    policies_appended g g' ->
    policies_appended g
      (fold_left
         (fun governance ruleset =>
            if String.eqb (dependencies.Target ruleset) "repository"
            then orglevel.appendPolicy governance (dependencies.rulesetPolicy ruleset)
            else governance)
         rulesets g').
Proof.
  induction rulesets as [|ruleset rulesets IH]; intros g g' Happ; [exact Happ|].
  cbn [fold_left]. apply IH.
  destruct (String.eqb (dependencies.Target ruleset) "repository");
    [apply policies_appended_policy|]; exact Happ.
Qed.

Lemma analyzeOrgRepositoryRulesets_appends (owner : string) (g g' : OrgGovernance) :
  policies_appended g g' ->
  policies_appended g (fst (orglevel.analyzeOrgRepositoryRulesets client owner g'))
  /\ snd (orglevel.analyzeOrgRepositoryRulesets client owner g') = None.
Proof.
  intros Happ. unfold orglevel.analyzeOrgRepositoryRulesets.
  destruct (rest.GetRulesets client _) as [rulesets [e|]]; cbn [fst snd];
    (split; [| reflexivity]); [exact Happ | apply rulesets_fold_appends, Happ].
Qed.

Lemma analyzeSecurityPoliciesOrgLevel_appends (owner : string) (g g' : OrgGovernance) :
  policies_appended g g' ->
  policies_appended g (fst (orglevel.analyzeSecurityPoliciesOrgLevel client owner g'))
  /\ snd (orglevel.analyzeSecurityPoliciesOrgLevel client owner g') = None.
Proof.
  intros Happ. unfold orglevel.analyzeSecurityPoliciesOrgLevel. cbv zeta. cbn [fst snd].
  split; [| reflexivity].
  destruct (rest.GetContent client
              ("repos/" +:+ owner +:+ "/.github/contents/SECURITY.md"));
    destruct (rest.GetContent client
                ("repos/" +:+ owner +:+ "/.github/contents/.github/dependabot.yml"));
    repeat apply policies_appended_policy; exact Happ.
Qed.

(** The policies step fails exactly with the organization request. *)
Lemma analyzeOrganizationPoliciesOrgLevel_outcome (owner : string) (g : OrgGovernance) :
  match snd (rest.GetOrgInfo client ("orgs/" +:+ owner)) with
  | Some e =>
      orglevel.analyzeOrganizationPoliciesOrgLevel client owner g
      = (g, Some ("failed to check security and member policies: "
                    +:+ "failed to get organization info: " +:+ e))
  | None =>
      policies_appended g (fst (orglevel.analyzeOrganizationPoliciesOrgLevel client owner g))
      /\ snd (orglevel.analyzeOrganizationPoliciesOrgLevel client owner g) = None
  end.
Proof.
  unfold orglevel.analyzeOrganizationPoliciesOrgLevel.
  pose proof (checkSecurity_appends owner g g (policies_appended_refl g)) as Hfirst.
  unfold orglevel.checkSecurityAndMemberPoliciesOrgLevel in *.
  destruct (rest.GetOrgInfo client ("orgs/" +:+ owner)) as [orgInfo [e|]]; cbn [fst snd] in *.
  - reflexivity.
  - cbv zeta in *.
    match type of Hfirst with
    | policies_appended _ ?g1 =>
        destruct (analyzeOrgRepositoryRulesets_appends owner g g1 Hfirst) as [Hsecond Hnone2];
        destruct (orglevel.analyzeOrgRepositoryRulesets client owner g1) as [g2 err2]
    end.
    cbn [fst snd] in *. subst err2.
    destruct (analyzeSecurityPoliciesOrgLevel_appends owner g g2 Hsecond) as [Hthird Hnone3].
    destruct (orglevel.analyzeSecurityPoliciesOrgLevel client owner g2) as [g3 err3].
    cbn [fst snd] in *. subst err3. cbn [fst snd]. auto.
Qed.

Lemma analyzeOrganizationTemplates_extends (owner : string) (g g' : OrgGovernance) :
  policies_appended g g' ->
  governance_extends g (fst (orglevel.analyzeOrganizationTemplates client owner g'))
  /\ snd (orglevel.analyzeOrganizationTemplates client owner g') = None.
Proof.
  intros [ps ->]. unfold orglevel.analyzeOrganizationTemplates.
  destruct (rest.GetContent client ("repos/" +:+ owner +:+ "/" +:+ ".github")) as [e|];
    [| destruct (orglevel.firstTemplate client owner
                   [".github/ISSUE_TEMPLATE"; "ISSUE_TEMPLATE"]) as [issue|];
       destruct (orglevel.firstTemplate client owner
                   [".github/PULL_REQUEST_TEMPLATE"; "PULL_REQUEST_TEMPLATE"]) as [pr|]];
    cbv zeta; cbn [fst snd]; (split; [| reflexivity]); unfold governance_extends;
    cbn [OrganizationPolicies IssueTemplates PullRequestTemplates RepositoryRulesets
         RequiredStatusChecks];
    (split; [exists ps; reflexivity |]);
    (split; [first [ exists []; rewrite app_nil_r; split; [reflexivity | cbn; lia]
                   | eexists; split; [reflexivity | cbn; lia] ] |]);
    (split; [first [ exists []; rewrite app_nil_r; split; [reflexivity | cbn; lia]
                   | eexists; split; [reflexivity | cbn; lia] ] |]);
    split; reflexivity.
Qed.

End GovernanceProperties.


Section GovernanceOutcome.

Variable ToLower : string -> string.
Variable client : rest.RESTClient.

Lemma AnalyzeOrgGovernanceOrgLevel_success (owner : string) (governance : OrgGovernance) :
  snd (rest.GetOrgInfo client ("orgs/" +:+ owner)) = None ->
  exists collected,
    governance_extends governance collected
    /\ orglevel.AnalyzeOrgGovernanceOrgLevel ToLower client owner governance
       = (orglevel.separatePoliciesForJSONOrgLevel ToLower collected, None).
Proof.
  intros Hok. unfold orglevel.AnalyzeOrgGovernanceOrgLevel.
  pose proof (analyzeOrganizationPoliciesOrgLevel_outcome client owner governance) as Hpol.
  rewrite Hok in Hpol. destruct Hpol as [Happ Hnone].
  destruct (orglevel.analyzeOrganizationPoliciesOrgLevel client owner governance) as [g1 err1].
  cbn [fst snd] in *. subst err1.
  destruct (analyzeOrganizationTemplates_extends client owner governance g1 Happ)
    as [Hext Hnone].
  destruct (orglevel.analyzeOrganizationTemplates client owner g1) as [g2 err2].
  cbn [fst snd] in *. subst err2.
  exists g2. auto.
Qed.

Lemma org_governance_separated_aux (owner : string) (governance : OrgGovernance) :
  snd (rest.GetOrgInfo client ("orgs/" +:+ owner)) = None ->
  RepositoryPolicies
    (fst (orglevel.AnalyzeOrgGovernanceOrgLevel ToLower client owner governance))
  = List.filter
      (fun policy => negb (dependencies.isMemberPrivilegePolicyOrgLevel ToLower policy))
      (OrganizationPolicies
         (fst (orglevel.AnalyzeOrgGovernanceOrgLevel ToLower client owner governance))).
Proof.
  intros Hok.
  destruct (AnalyzeOrgGovernanceOrgLevel_success owner governance Hok)
    as (collected & Hext & ->).
  cbn [fst]. rewrite separatePoliciesForJSONOrgLevel_spec. reflexivity.
Qed.

(** X15: [AnalyzeOrgGovernanceOrgLevel] fails exactly when the request for
    the organization record fails; it then returns the governance it was
    given, untouched, and the error under its three prefixes.  No other
    request (rulesets, SECURITY.md, dependabot.yml, templates) can make it
    fail. *)
Theorem org_governance_fails_iff (owner : string) (governance : OrgGovernance) :
  (snd (orglevel.AnalyzeOrgGovernanceOrgLevel ToLower client owner governance) = None
   <-> snd (rest.GetOrgInfo client ("orgs/" +:+ owner)) = None)
  /\ (forall e,
         snd (rest.GetOrgInfo client ("orgs/" +:+ owner)) = Some e ->
         orglevel.AnalyzeOrgGovernanceOrgLevel ToLower client owner governance
         = (governance,
            Some ("could not access organization policies: "
                    +:+ "failed to check security and member policies: "
                    +:+ "failed to get organization info: " +:+ e))).
Proof.
  assert (Hfail : forall e,
    snd (rest.GetOrgInfo client ("orgs/" +:+ owner)) = Some e ->
    orglevel.AnalyzeOrgGovernanceOrgLevel ToLower client owner governance
    = (governance,
       Some ("could not access organization policies: "
               +:+ "failed to check security and member policies: "
               +:+ "failed to get organization info: " +:+ e))).
  { intros e He. unfold orglevel.AnalyzeOrgGovernanceOrgLevel.
    pose proof (analyzeOrganizationPoliciesOrgLevel_outcome client owner governance) as Hpol.
    rewrite He in Hpol. rewrite Hpol. reflexivity. }
  split; [| exact Hfail].
  destruct (snd (rest.GetOrgInfo client ("orgs/" +:+ owner))) as [e|] eqn:Hinfo.
  - rewrite (Hfail e eq_refl). cbn [snd]. split; discriminate.
  - destruct (AnalyzeOrgGovernanceOrgLevel_success owner governance Hinfo)
      as (collected & _ & ->).
    cbn [snd]. split; reflexivity.
Qed.

(** X16: when [AnalyzeOrgGovernanceOrgLevel] succeeds, the organization
    policies it returns are those it was given followed by the ones found,
    each template list gained at most one entry, and the repository
    policies and member privileges are recomputed from the organization
    policies: the policies that are not member-privilege policies, and the
    restrictions of those that are, both in order. *)
Theorem org_governance_separated (owner : string) (governance : OrgGovernance) :
  snd (rest.GetOrgInfo client ("orgs/" +:+ owner)) = None ->
  governance_extends governance
    (fst (orglevel.AnalyzeOrgGovernanceOrgLevel ToLower client owner governance))
  /\ RepositoryPolicies
       (fst (orglevel.AnalyzeOrgGovernanceOrgLevel ToLower client owner governance))
     = List.filter
         (fun policy => negb (dependencies.isMemberPrivilegePolicyOrgLevel ToLower policy))
         (OrganizationPolicies
            (fst (orglevel.AnalyzeOrgGovernanceOrgLevel ToLower client owner governance)))
  /\ MemberPrivileges
       (fst (orglevel.AnalyzeOrgGovernanceOrgLevel ToLower client owner governance))
     = flat_map Restrictions
         (List.filter (dependencies.isMemberPrivilegePolicyOrgLevel ToLower)
            (OrganizationPolicies
               (fst (orglevel.AnalyzeOrgGovernanceOrgLevel ToLower client owner governance)))).
Proof.
  intros Hok.
  destruct (AnalyzeOrgGovernanceOrgLevel_success owner governance Hok)
    as (collected & Hext & ->).
  cbn [fst]. rewrite separatePoliciesForJSONOrgLevel_spec.
  cbn [OrganizationPolicies RepositoryPolicies MemberPrivileges].
  split; [| split; reflexivity].
  unfold governance_extends in *.
  cbn [OrganizationPolicies IssueTemplates PullRequestTemplates RepositoryRulesets
       RequiredStatusChecks].
  exact Hext.
Qed.

End GovernanceOutcome.


(** ** The scanner of the target organization *)

Lemma blocked_by_result (v : MigrationValidation) :
  Z.of_nat (List.length (validation.allResults v)) <= int_max ->
  (exists r, In r (validation.allResults v) /\ Status r = ValidationBlocker) ->
  validation.determineOverallReadiness (validation.calculateSummary v) = ValidationBlocker.
Proof.
  intros Hle Hex.
  pose proof (calculateSummary_counts v Hle) as (_ & _ & Hb & _).
  apply determineOverallReadiness_blocker. rewrite Hb.
  apply count_status_pos in Hex. lia.
Qed.

Section ScannerProperties.

Variable ToLower : string -> string.
Variable EqualFold : string -> string -> bool.
Variable client : rest.RESTClient.
Variable policiesFound : string -> list OrgPolicy.

Lemma scan_fold_apps (installations : list (string * string)) :
  forall capabilities,
    fold_left
      (fun capabilities installation =>
         let appInfo := fst installation in
         let appInfo := if String.eqb appInfo "" then snd installation else appInfo in
         mkTargetOrgCapabilities (Organization capabilities)
           (Apps capabilities ++ [appInfo]) (Teams capabilities)
           (cap_RepositoryPolicies capabilities) (cap_MemberPrivileges capabilities)
           (Rulesets capabilities) (Secrets capabilities) (Variables capabilities)
           (Runners capabilities))
      installations capabilities
    = mkTargetOrgCapabilities (Organization capabilities)
        (Apps capabilities ++ map listedAppName installations) (Teams capabilities)
        (cap_RepositoryPolicies capabilities) (cap_MemberPrivileges capabilities)
        (Rulesets capabilities) (Secrets capabilities) (Variables capabilities)
        (Runners capabilities).
Proof.
  induction installations as [|installation installations IH]; intros capabilities.
  - cbn [fold_left map]. rewrite app_nil_r. destruct capabilities. reflexivity.
  - cbn [fold_left map]. rewrite IH. cbn. rewrite <- app_assoc. reflexivity.
Qed.

Lemma scan_fold_teams (teams : list string) :
  forall capabilities,
    fold_left
      (fun capabilities team =>
         mkTargetOrgCapabilities (Organization capabilities)
           (Apps capabilities) (Teams capabilities ++ [team])
           (cap_RepositoryPolicies capabilities) (cap_MemberPrivileges capabilities)
           (Rulesets capabilities) (Secrets capabilities) (Variables capabilities)
           (Runners capabilities))
      teams capabilities
    = mkTargetOrgCapabilities (Organization capabilities)
        (Apps capabilities) (Teams capabilities ++ teams)
        (cap_RepositoryPolicies capabilities) (cap_MemberPrivileges capabilities)
        (Rulesets capabilities) (Secrets capabilities) (Variables capabilities)
        (Runners capabilities).
Proof.
  induction teams as [|team teams IH]; intros capabilities.
  - cbn [fold_left]. rewrite app_nil_r. destruct capabilities. reflexivity.
  - cbn [fold_left]. rewrite IH. cbn. rewrite <- app_assoc. reflexivity.
Qed.

Lemma scan_fold_secrets (secrets : list string) :
  forall capabilities,
    fold_left
      (fun capabilities secret =>
         mkTargetOrgCapabilities (Organization capabilities)
           (Apps capabilities) (Teams capabilities)
           (cap_RepositoryPolicies capabilities) (cap_MemberPrivileges capabilities)
           (Rulesets capabilities) (Secrets capabilities ++ [secret])
           (Variables capabilities) (Runners capabilities))
      secrets capabilities
    = mkTargetOrgCapabilities (Organization capabilities)
        (Apps capabilities) (Teams capabilities)
        (cap_RepositoryPolicies capabilities) (cap_MemberPrivileges capabilities)
        (Rulesets capabilities) (Secrets capabilities ++ secrets)
        (Variables capabilities) (Runners capabilities).
Proof.
  induction secrets as [|secret secrets IH]; intros capabilities.
  - cbn [fold_left]. rewrite app_nil_r. destruct capabilities. reflexivity.
  - cbn [fold_left]. rewrite IH. cbn. rewrite <- app_assoc. reflexivity.
Qed.

Lemma scan_fold_variables (variables : list string) :
  forall capabilities,
    fold_left
      (fun capabilities variable =>
         mkTargetOrgCapabilities (Organization capabilities)
           (Apps capabilities) (Teams capabilities)
           (cap_RepositoryPolicies capabilities) (cap_MemberPrivileges capabilities)
           (Rulesets capabilities) (Secrets capabilities)
           (Variables capabilities ++ [variable]) (Runners capabilities))
      variables capabilities
    = mkTargetOrgCapabilities (Organization capabilities)
        (Apps capabilities) (Teams capabilities)
        (cap_RepositoryPolicies capabilities) (cap_MemberPrivileges capabilities)
        (Rulesets capabilities) (Secrets capabilities)
        (Variables capabilities ++ variables) (Runners capabilities).
Proof.
  induction variables as [|variable variables IH]; intros capabilities.
  - cbn [fold_left]. rewrite app_nil_r. destruct capabilities. reflexivity.
  - cbn [fold_left]. rewrite IH. cbn. rewrite <- app_assoc. reflexivity.
Qed.

Lemma scan_fold_runners (runners : list rest.Runner) :
  forall capabilities,
    fold_left
      (fun capabilities runner =>
         if String.eqb (ToLower (rest.runner_Status runner)) "online" then
           mkTargetOrgCapabilities (Organization capabilities)
             (Apps capabilities) (Teams capabilities)
             (cap_RepositoryPolicies capabilities) (cap_MemberPrivileges capabilities)
             (Rulesets capabilities) (Secrets capabilities)
             (Variables capabilities) (Runners capabilities ++ [rest.runner_Name runner])
         else capabilities)
      runners capabilities
    = mkTargetOrgCapabilities (Organization capabilities)
        (Apps capabilities) (Teams capabilities)
        (cap_RepositoryPolicies capabilities) (cap_MemberPrivileges capabilities)
        (Rulesets capabilities) (Secrets capabilities) (Variables capabilities)
        (Runners capabilities
           ++ map rest.runner_Name
                (List.filter
                   (fun runner => String.eqb (ToLower (rest.runner_Status runner)) "online")
                   runners)).
Proof.
  induction runners as [|runner runners IH]; intros capabilities.
  - cbn [fold_left List.filter map]. rewrite app_nil_r. destruct capabilities. reflexivity.
  - cbn [fold_left List.filter].
    destruct (String.eqb (ToLower (rest.runner_Status runner)) "online").
    + rewrite IH. cbn. rewrite <- app_assoc. reflexivity.
    + apply IH.
Qed.

Lemma scanAvailableApps_fst (targetOrg : string) (capabilities : TargetOrgCapabilities) :
  fst (scanner.scanAvailableApps client targetOrg capabilities)
  = mkTargetOrgCapabilities (Organization capabilities)
      (Apps capabilities
         ++ map listedAppName
              (answered (rest.GetAppList client ("orgs/" +:+ targetOrg +:+ "/installations"))))
      (Teams capabilities)
      (cap_RepositoryPolicies capabilities) (cap_MemberPrivileges capabilities)
      (Rulesets capabilities) (Secrets capabilities) (Variables capabilities)
      (Runners capabilities).
Proof.
  unfold scanner.scanAvailableApps, answered.
  destruct (rest.GetAppList client _) as [apps [e|]]; cbn [fst snd map].
  - rewrite app_nil_r. destruct capabilities. reflexivity.
  - apply scan_fold_apps.
Qed.

Lemma scanAvailableTeams_fst (targetOrg : string) (capabilities : TargetOrgCapabilities) :
  fst (scanner.scanAvailableTeams client targetOrg capabilities)
  = mkTargetOrgCapabilities (Organization capabilities)
      (Apps capabilities)
      (Teams capabilities
         ++ answered (rest.GetNames client ("orgs/" +:+ targetOrg +:+ "/teams")))
      (cap_RepositoryPolicies capabilities) (cap_MemberPrivileges capabilities)
      (Rulesets capabilities) (Secrets capabilities) (Variables capabilities)
      (Runners capabilities).
Proof.
  unfold scanner.scanAvailableTeams, answered.
  destruct (rest.GetNames client _) as [teams [e|]]; cbn [fst snd].
  - rewrite app_nil_r. destruct capabilities. reflexivity.
  - apply scan_fold_teams.
Qed.

Lemma scanMemberPrivileges_fst (targetOrg : string) (capabilities : TargetOrgCapabilities) :
  fst (scanner.scanMemberPrivileges client targetOrg capabilities)
  = mkTargetOrgCapabilities (Organization capabilities)
      (Apps capabilities) (Teams capabilities)
      (cap_RepositoryPolicies capabilities)
      (match snd (rest.GetOrgInfo client ("orgs/" +:+ targetOrg)) with
       | None => scanner.memberPrivilegesOf
                   (fst (rest.GetOrgInfo client ("orgs/" +:+ targetOrg)))
       | Some _ => cap_MemberPrivileges capabilities
       end)
      (Rulesets capabilities) (Secrets capabilities) (Variables capabilities)
      (Runners capabilities).
Proof.
  unfold scanner.scanMemberPrivileges.
  destruct (rest.GetOrgInfo client _) as [info [e|]]; cbn [fst snd].
  - destruct capabilities. reflexivity.
  - reflexivity.
Qed.

Lemma scanAvailableSecrets_fst (targetOrg : string) (capabilities : TargetOrgCapabilities) :
  fst (scanner.scanAvailableSecrets client targetOrg capabilities)
  = mkTargetOrgCapabilities (Organization capabilities)
      (Apps capabilities) (Teams capabilities)
      (cap_RepositoryPolicies capabilities) (cap_MemberPrivileges capabilities)
      (Rulesets capabilities)
      (Secrets capabilities
         ++ answered (rest.GetNames client ("orgs/" +:+ targetOrg +:+ "/actions/secrets")))
      (Variables capabilities) (Runners capabilities).
Proof.
  unfold scanner.scanAvailableSecrets, answered.
  destruct (rest.GetNames client _) as [secrets [e|]]; cbn [fst snd].
  - rewrite app_nil_r. destruct capabilities. reflexivity.
  - apply scan_fold_secrets.
Qed.

Lemma scanAvailableVariables_fst (targetOrg : string) (capabilities : TargetOrgCapabilities) :
  fst (scanner.scanAvailableVariables client targetOrg capabilities)
  = mkTargetOrgCapabilities (Organization capabilities)
      (Apps capabilities) (Teams capabilities)
      (cap_RepositoryPolicies capabilities) (cap_MemberPrivileges capabilities)
      (Rulesets capabilities) (Secrets capabilities)
      (Variables capabilities
         ++ answered (rest.GetNames client ("orgs/" +:+ targetOrg +:+ "/actions/variables")))
      (Runners capabilities).
Proof.
  unfold scanner.scanAvailableVariables, answered.
  destruct (rest.GetNames client _) as [variables [e|]]; cbn [fst snd].
  - rewrite app_nil_r. destruct capabilities. reflexivity.
  - apply scan_fold_variables.
Qed.

Lemma scanAvailableRunners_fst (targetOrg : string) (capabilities : TargetOrgCapabilities) :
  fst (scanner.scanAvailableRunners ToLower client targetOrg capabilities)
  = mkTargetOrgCapabilities (Organization capabilities)
      (Apps capabilities) (Teams capabilities)
      (cap_RepositoryPolicies capabilities) (cap_MemberPrivileges capabilities)
      (Rulesets capabilities) (Secrets capabilities) (Variables capabilities)
      (Runners capabilities
         ++ map rest.runner_Name
              (List.filter
                 (fun runner => String.eqb (ToLower (rest.runner_Status runner)) "online")
                 (answered (rest.GetRunners client
                              ("orgs/" +:+ targetOrg +:+ "/actions/runners"))))).
Proof.
  unfold scanner.scanAvailableRunners, answered.
  destruct (rest.GetRunners client _) as [runners [e|]]; cbn [fst snd List.filter map].
  - rewrite app_nil_r. destruct capabilities. reflexivity.
  - apply scan_fold_runners.
Qed.

Lemma let_fst {A B C : Type} (p : A * B) (k : A -> C) :
  (let '(a, _) := p in k a) = k (fst p).
Proof. destruct p. reflexivity. Qed.

Ltac scanned :=
  cbn [fst Organization Apps Teams cap_RepositoryPolicies cap_MemberPrivileges Rulesets
       Secrets Variables Runners app].

Lemma ScanTargetOrganization_answers (targetOrg : string) :
  scanner.ScanTargetOrganization ToLower client policiesFound targetOrg
  = (mkTargetOrgCapabilities targetOrg
       (map listedAppName
          (answered (rest.GetAppList client ("orgs/" +:+ targetOrg +:+ "/installations"))))
       (answered (rest.GetNames client ("orgs/" +:+ targetOrg +:+ "/teams")))
       (policiesFound targetOrg)
       (match snd (rest.GetOrgInfo client ("orgs/" +:+ targetOrg)) with
        | None => scanner.memberPrivilegesOf
                    (fst (rest.GetOrgInfo client ("orgs/" +:+ targetOrg)))
        | Some _ => mkOrgMemberPrivileges false false false false "" []
        end)
       []
       (answered (rest.GetNames client ("orgs/" +:+ targetOrg +:+ "/actions/secrets")))
       (answered (rest.GetNames client ("orgs/" +:+ targetOrg +:+ "/actions/variables")))
       (map rest.runner_Name
          (List.filter
             (fun runner => String.eqb (ToLower (rest.runner_Status runner)) "online")
             (answered (rest.GetRunners client
                          ("orgs/" +:+ targetOrg +:+ "/actions/runners"))))),
     None).
Proof.
  unfold scanner.ScanTargetOrganization. cbv zeta.
  rewrite !let_fst.
  rewrite scanAvailableApps_fst; scanned.
  rewrite scanAvailableTeams_fst; scanned.
  unfold scanner.scanRepositoryPolicies; scanned.
  rewrite scanMemberPrivileges_fst; scanned.
  rewrite scanAvailableSecrets_fst; scanned.
  rewrite scanAvailableVariables_fst; scanned.
  rewrite scanAvailableRunners_fst; scanned.
  reflexivity.
Qed.

(** X18: [ScanTargetOrganization] never fails and never fills [Rulesets].
    Each list it returns is what its own request answered (names in answer
    order; for apps the app name, else the slug; of the runners those whose
    status lower-cases to ["online"]) and is empty when that request
    failed, whatever the other requests did; the member privileges are
    those of the organization record, or all false when its request failed. *)
Theorem scan_collects_answers (targetOrg : string) :
  scanner.ScanTargetOrganization ToLower client policiesFound targetOrg
  = (mkTargetOrgCapabilities targetOrg
       (map listedAppName
          (answered (rest.GetAppList client ("orgs/" +:+ targetOrg +:+ "/installations"))))
       (answered (rest.GetNames client ("orgs/" +:+ targetOrg +:+ "/teams")))
       (policiesFound targetOrg)
       (match snd (rest.GetOrgInfo client ("orgs/" +:+ targetOrg)) with
        | None => scanner.memberPrivilegesOf
                    (fst (rest.GetOrgInfo client ("orgs/" +:+ targetOrg)))
        | Some _ => mkOrgMemberPrivileges false false false false "" []
        end)
       []
       (answered (rest.GetNames client ("orgs/" +:+ targetOrg +:+ "/actions/secrets")))
       (answered (rest.GetNames client ("orgs/" +:+ targetOrg +:+ "/actions/variables")))
       (map rest.runner_Name
          (List.filter
             (fun runner => String.eqb (ToLower (rest.runner_Status runner)) "online")
             (answered (rest.GetRunners client
                          ("orgs/" +:+ targetOrg +:+ "/actions/runners"))))),
     None).
Proof. apply ScanTargetOrganization_answers. Qed.

(** X19: when the teams request of the scan fails, every repository with
    a team is blocked against the scanned capabilities (the number of
    results being within [int]). *)
Theorem failed_team_scan_blocks (targetOrg : string) (e : batch.error)
    (deps : OrganizationalDependencies) (assignTeams : bool) (team : string) :
  snd (rest.GetNames client ("orgs/" +:+ targetOrg +:+ "/teams")) = Some e ->
  In team (AccessTeams (d_AccessPermissions deps)) ->
  Z.of_nat
    (List.length
       (validation.allResults
          (validation.ValidateAgainstTarget ToLower EqualFold deps
             (fst (scanner.ScanTargetOrganization ToLower client policiesFound targetOrg))
             assignTeams)))
    <= int_max ->
  Teams (fst (scanner.ScanTargetOrganization ToLower client policiesFound targetOrg)) = []
  /\ OverallReadiness
       (validation.ValidateAgainstTarget ToLower EqualFold deps
          (fst (scanner.ScanTargetOrganization ToLower client policiesFound targetOrg))
          assignTeams)
     = ValidationBlocker.
Proof.
  intros Hfail Hteam Hle.
  assert (Hnone :
    Teams (fst (scanner.ScanTargetOrganization ToLower client policiesFound targetOrg)) = []).
  { rewrite ScanTargetOrganization_answers. cbn [fst Teams]. unfold answered.
    rewrite Hfail. reflexivity. }
  split; [exact Hnone|].
  change (OverallReadiness
            (validation.ValidateAgainstTarget ToLower EqualFold deps
               (fst (scanner.ScanTargetOrganization ToLower client policiesFound targetOrg))
               assignTeams))
    with (validation.determineOverallReadiness
            (validation.calculateSummary
               (validation.ValidateAgainstTarget ToLower EqualFold deps
                  (fst (scanner.ScanTargetOrganization ToLower client policiesFound targetOrg))
                  assignTeams))).
  apply blocked_by_result; [exact Hle|].
  assert (Hblock :
    exists r,
      In r (validation.validateAccessPermissions EqualFold (d_AccessPermissions deps)
              (fst (scanner.ScanTargetOrganization ToLower client policiesFound targetOrg))
              assignTeams)
      /\ Status r = ValidationBlocker).
  { apply validateAccessPermissions_blocker. left. exists team.
    split; [exact Hteam|]. rewrite Hnone. reflexivity. }
  destruct Hblock as (r & Hin & Hst). exists r. split; [| exact Hst].
  unfold validation.allResults.
  cbn [validation.ValidateAgainstTarget v_AppsIntegrations v_AccessPermissions
       v_CIDependencies v_Governance v_CodeDependencies v_SecurityCompliance].
  do 4 (apply in_or_app; left). apply in_or_app. right. exact Hin.
Qed.

End ScannerProperties.


(** ** Member privileges, from scan to verdict *)

(** X20: through [validateGovernance], against a target whose member
    privileges are those scanned from the organization record [target]:
    the ["Member Management Policy"] recorded for a source organization is
    ready exactly when the target restricts repository creation and
    private forking wherever the source does; the restrictions on deleting
    repositories and issues and on creating teams are never compared.  The
    ["Security Policy"] recorded for a source that requires two-factor
    authentication or web commit signoff is ready exactly when the target
    requires them wherever the source does.  The ["Security Policy"] of a
    source that requires neither, which holds the default permission only,
    is taken for a repository policy: its result is setup_needed or
    review, never ready, whatever the target.  (Default permission one of
    read, write, admin, none; ASCII text, on which [ToLowerASCII] and
    [EqualFoldASCII] are Go's [strings.ToLower] and [strings.EqualFold].) *)
Theorem member_policies_against_scanned_target (source target : batch.OrgInfo)
    (capabilities : TargetOrgCapabilities) :
  cap_MemberPrivileges capabilities = scanner.memberPrivilegesOf target ->
  (map Status
     (validation.validateGovernance ToLowerASCII EqualFoldASCII
        (governanceOf
           (mkOrgPolicy "Member Management Policy" "active"
              (orglevel.membershipRestrictions source)))
        capabilities)
   = [ValidationReady]
   <-> (batch.MembersCanCreateRepos source = false ->
        batch.MembersCanCreateRepos target = false)
       /\ (batch.MembersCanForkPrivateRepos source = false ->
           batch.MembersCanForkPrivateRepos target = false))
  /\ (In (batch.DefaultRepositoryPermission source) ["read"; "write"; "admin"; "none"] ->
      (batch.TwoFactorRequirementEnabled source = true
       \/ batch.oi_WebCommitSignoffRequired source = true ->
       (map Status
          (validation.validateGovernance ToLowerASCII EqualFoldASCII
             (governanceOf
                (mkOrgPolicy "Security Policy" "active"
                   (orglevel.securityRestrictions source)))
             capabilities)
        = [ValidationReady]
        <-> (batch.TwoFactorRequirementEnabled source = true ->
             batch.TwoFactorRequirementEnabled target = true)
            /\ (batch.oi_WebCommitSignoffRequired source = true ->
                batch.oi_WebCommitSignoffRequired target = true)))
      /\ (batch.TwoFactorRequirementEnabled source = false ->
          batch.oi_WebCommitSignoffRequired source = false ->
          map Status
            (validation.validateGovernance ToLowerASCII EqualFoldASCII
               (governanceOf
                  (mkOrgPolicy "Security Policy" "active"
                     (orglevel.securityRestrictions source)))
               capabilities)
          = [ValidationSetupNeeded]
          \/ map Status
               (validation.validateGovernance ToLowerASCII EqualFoldASCII
                  (governanceOf
                     (mkOrgPolicy "Security Policy" "active"
                        (orglevel.securityRestrictions source)))
                  capabilities)
             = [ValidationReview])).
Proof.
  destruct source as [sperm screate s1 s2 s3 s4 sfork ssign sdelrepo sdeliss steams stwo].
  destruct target as [tperm tcreate t1 t2 t3 t4 tfork tsign tdelrepo tdeliss tteams ttwo].
  destruct capabilities as [org apps teams policies privileges rulesets secrets variables
                            runners].
  cbn [cap_MemberPrivileges batch.MembersCanCreateRepos batch.MembersCanForkPrivateRepos
       batch.TwoFactorRequirementEnabled batch.oi_WebCommitSignoffRequired
       batch.DefaultRepositoryPermission].
  intros ->. split.
  - destruct screate, sfork, sdelrepo, sdeliss, steams, tcreate, tfork;
      vm_compute; split; try tauto; try discriminate;
      try (intros [H1 H2]; first [discriminate (H1 eq_refl) | discriminate (H2 eq_refl)]).
  - intros Hperm. split.
    + intros Hrequires.
      destruct Hperm as [<- | [<- | [<- | [<- | []]]]];
        destruct stwo, ssign;
        try (destruct Hrequires; discriminate);
        destruct ttwo, tsign;
        vm_compute; split; try tauto; try discriminate;
        try (intros [H1 H2]; first [discriminate (H1 eq_refl) | discriminate (H2 eq_refl)]).
    + intros -> ->.
      unfold validation.validateGovernance, governanceOf.
      cbn [OrganizationPolicies IssueTemplates PullRequestTemplates fold_left app].
      assert (Hrepository :
        validation.isMemberPrivilegePolicy ToLowerASCII
          (mkOrgPolicy "Security Policy" "active"
             (orglevel.securityRestrictions
                (batch.mkOrgInfo sperm screate s1 s2 s3 s4 sfork false sdelrepo sdeliss
                   steams false)))
        = false)
        by (destruct Hperm as [<- | [<- | [<- | [<- | []]]]]; vm_compute; reflexivity).
      rewrite Hrepository. cbn [cap_RepositoryPolicies].
      unfold validation.validateRepositoryPolicy.
      match goal with
      | |- context [if ?found then _ else _] => destruct found
      end; cbn [map Status]; auto.
Qed.



(** ** Governance of a single repository *)

Lemma separate_three_fold (member ruleset : OrgPolicy -> bool) (policies : list OrgPolicy) :
  forall repoPolicies repoRulesets memberPrivileges,
    fold_left
      (fun '(repoPolicies, repoRulesets, memberPrivileges) policy =>
         if member policy then
           (repoPolicies, repoRulesets,
            fold_left (fun memberPrivileges restriction => memberPrivileges ++ [restriction])
              (Restrictions policy) memberPrivileges)
         else if ruleset policy then
           (repoPolicies, repoRulesets ++ [policy], memberPrivileges)
         else (repoPolicies ++ [policy], repoRulesets, memberPrivileges))
      policies (repoPolicies, repoRulesets, memberPrivileges)
    = (repoPolicies
         ++ List.filter (fun policy => negb (member policy) && negb (ruleset policy)) policies,
       repoRulesets
         ++ List.filter (fun policy => negb (member policy) && ruleset policy) policies,
       memberPrivileges ++ flat_map Restrictions (List.filter member policies)).
Proof.
  induction policies as [|policy policies IH];
    intros repoPolicies repoRulesets memberPrivileges.
  - cbn. rewrite !app_nil_r. reflexivity.
  - cbn [fold_left List.filter].
    destruct (member policy); [| destruct (ruleset policy)]; cbn [negb andb].
    + rewrite IH. cbn [flat_map].
      rewrite (fold_left_appending (fun acc restriction => acc ++ [restriction]))
        by (intros; reflexivity).
      replace (flat_map (fun restriction : string => [] ++ [restriction]) (Restrictions policy))
        with (Restrictions policy)
        by (induction (Restrictions policy) as [|r rs IHr]; cbn in *; congruence).
      rewrite <- app_assoc. reflexivity.
    + rewrite IH, <- app_assoc. reflexivity.
    + rewrite IH, <- app_assoc. reflexivity.
Qed.

Lemma three_way_lengths {A : Type} (member ruleset : A -> bool) (l : list A) :
  List.length l
  = (List.length (List.filter member l)
     + List.length (List.filter (fun x => negb (member x) && ruleset x) l)
     + List.length (List.filter (fun x => negb (member x) && negb (ruleset x)) l))%nat.
Proof.
  induction l as [|x l IH]; [reflexivity|].
  cbn [List.filter]. destruct (member x); [| destruct (ruleset x)];
    cbn [negb andb List.length]; lia.
Qed.

Section SingleRepositoryProperties.

Variable ToLower : string -> string.
Variable client : rest.RESTClient.

Lemma isRepositoryRuleset_names (policy : OrgPolicy) :
  governance.isRepositoryRuleset ToLower policy = names_branch_rules ToLower policy.
Proof.
  unfold governance.isRepositoryRuleset, names_branch_rules.
  destruct (HasPrefix (Name policy) "Repository Ruleset:"); [reflexivity|].
  cbn [orb].
  rewrite (range_return_guard
             (fun restriction =>
                existsb (fun keyword => Contains (ToLower restriction) keyword)
                  branchRuleKeywords) true).
  2:{ intros restriction. cbv zeta. unfold branchRuleKeywords. cbn [existsb].
      rewrite orb_false_r, !orb_assoc. reflexivity. }
  destruct (existsb _ (Restrictions policy)); [reflexivity|].
  rewrite (range_return_guard
             (fun restriction =>
                Contains (ToLower restriction) "repository_visibility"
                || Contains (ToLower restriction) "repository_create"
                || Contains (ToLower restriction) "repository_delete") false)
    by (intros restriction; reflexivity).
  destruct (existsb _ (Restrictions policy)); reflexivity.
Qed.

(** X21: [separatePoliciesForJSON] sorts every organization policy into
    exactly one of three classes, keeping the order: the restrictions of
    the member-privilege policies, the repository rulesets (the other
    policies that are named ["Repository Ruleset:"] or hold a branch-rule
    keyword) and the repository policies (the rest).  The words
    [repository_visibility], [repository_create] and [repository_delete],
    which [isRepositoryRuleset] also looks for, never change a class. *)
Theorem policies_separated_three_ways (deps : OrganizationalDependencies) :
  MemberPrivileges (d_OrgGovernance (governance.separatePoliciesForJSON ToLower deps))
  = flat_map Restrictions
      (List.filter (dependencies.isMemberPrivilegePolicyOrgLevel ToLower)
         (OrganizationPolicies (d_OrgGovernance deps)))
  /\ RepositoryRulesets (d_OrgGovernance (governance.separatePoliciesForJSON ToLower deps))
     = List.filter
         (fun policy =>
            negb (dependencies.isMemberPrivilegePolicyOrgLevel ToLower policy)
            && names_branch_rules ToLower policy)
         (OrganizationPolicies (d_OrgGovernance deps))
  /\ RepositoryPolicies (d_OrgGovernance (governance.separatePoliciesForJSON ToLower deps))
     = List.filter
         (fun policy =>
            negb (dependencies.isMemberPrivilegePolicyOrgLevel ToLower policy)
            && negb (names_branch_rules ToLower policy))
         (OrganizationPolicies (d_OrgGovernance deps))
  /\ OrganizationPolicies (d_OrgGovernance (governance.separatePoliciesForJSON ToLower deps))
     = OrganizationPolicies (d_OrgGovernance deps)
  /\ List.length (OrganizationPolicies (d_OrgGovernance deps))
     = (List.length
          (List.filter (dependencies.isMemberPrivilegePolicyOrgLevel ToLower)
             (OrganizationPolicies (d_OrgGovernance deps)))
        + List.length
            (RepositoryRulesets
               (d_OrgGovernance (governance.separatePoliciesForJSON ToLower deps)))
        + List.length
            (RepositoryPolicies
               (d_OrgGovernance (governance.separatePoliciesForJSON ToLower deps))))%nat.
Proof.
  unfold governance.separatePoliciesForJSON.
  rewrite (separate_three_fold (dependencies.isMemberPrivilegePolicyOrgLevel ToLower)
             (governance.isRepositoryRuleset ToLower)).
  cbn [d_OrgGovernance MemberPrivileges RepositoryRulesets RepositoryPolicies
       OrganizationPolicies app].
  rewrite (List.filter_ext
             (fun policy =>
                negb (dependencies.isMemberPrivilegePolicyOrgLevel ToLower policy)
                && governance.isRepositoryRuleset ToLower policy)
             (fun policy =>
                negb (dependencies.isMemberPrivilegePolicyOrgLevel ToLower policy)
                && names_branch_rules ToLower policy))
    by (intros policy; rewrite isRepositoryRuleset_names; reflexivity).
  rewrite (List.filter_ext
             (fun policy =>
                negb (dependencies.isMemberPrivilegePolicyOrgLevel ToLower policy)
                && negb (governance.isRepositoryRuleset ToLower policy))
             (fun policy =>
                negb (dependencies.isMemberPrivilegePolicyOrgLevel ToLower policy)
                && negb (names_branch_rules ToLower policy)))
    by (intros policy; rewrite isRepositoryRuleset_names; reflexivity).
  repeat (split; [reflexivity|]).
  apply three_way_lengths.
Qed.

Lemma single_rulesets_fold (repo : string) (rulesets : list dependencies.OrgRuleset) :
  forall deps,
    fold_left
      (fun deps ruleset =>
         if String.eqb (dependencies.Target ruleset) "repository"
            && dependencies.rulesetAppliesToRepo ruleset repo
         then
           let orgPolicy := dependencies.rulesetPolicy ruleset in
           governance.withOrganizationPolicies deps
             (OrganizationPolicies (d_OrgGovernance deps) ++ [orgPolicy])
         else deps)
      rulesets deps
    = governance.withOrganizationPolicies deps
        (OrganizationPolicies (d_OrgGovernance deps)
           ++ map dependencies.rulesetPolicy
                (List.filter
                   (fun ruleset =>
                      String.eqb (dependencies.Target ruleset) "repository"
                      && dependencies.rulesetAppliesToRepo ruleset repo)
                   rulesets)).
Proof.
  induction rulesets as [|ruleset rulesets IH]; intros deps.
  - cbn [fold_left List.filter map]. rewrite app_nil_r.
    destruct deps as [? ? ? ? ? ? [] ?]. reflexivity.
  - cbn [fold_left List.filter].
    destruct (String.eqb (dependencies.Target ruleset) "repository"
              && dependencies.rulesetAppliesToRepo ruleset repo).
    + rewrite IH. cbv zeta. unfold governance.withOrganizationPolicies.
      cbn [d_OrgGovernance OrganizationPolicies RepositoryPolicies MemberPrivileges
           RepositoryRulesets IssueTemplates PullRequestTemplates RequiredStatusChecks
           Repository d_CodeDependencies d_ActionsCIDependencies d_AccessPermissions
           d_SecurityCompliance d_AppsIntegrations Validation map].
      rewrite <- app_assoc. reflexivity.
    + apply IH.
Qed.

Lemma stored_rulesets_fold (rulesets : list dependencies.OrgRuleset) :
  forall governance,
    OrganizationPolicies
      (fold_left
         (fun governance ruleset =>
            if String.eqb (dependencies.Target ruleset) "repository"
            then orglevel.appendPolicy governance (dependencies.rulesetPolicy ruleset)
            else governance)
         rulesets governance)
    = OrganizationPolicies governance
        ++ map dependencies.rulesetPolicy
             (List.filter
                (fun ruleset => String.eqb (dependencies.Target ruleset) "repository")
                rulesets).
Proof.
  induction rulesets as [|ruleset rulesets IH]; intros governance.
  - cbn. rewrite app_nil_r. reflexivity.
  - cbn [fold_left List.filter]. rewrite IH.
    destruct (String.eqb (dependencies.Target ruleset) "repository"); [| reflexivity].
    cbn [orglevel.appendPolicy OrganizationPolicies map]. rewrite <- app_assoc. reflexivity.
Qed.

Lemma free_text_filter_stored (repo : string) (rulesets : list dependencies.OrgRuleset) :
  (forall ruleset, In ruleset rulesets -> stored_faithfully ruleset) ->
  List.filter (fun policy => batch.rulesetAppliesToRepo policy repo)
    (map dependencies.rulesetPolicy
       (List.filter (fun ruleset => String.eqb (dependencies.Target ruleset) "repository")
          rulesets))
  = map dependencies.rulesetPolicy
      (List.filter
         (fun ruleset =>
            String.eqb (dependencies.Target ruleset) "repository"
            && dependencies.rulesetAppliesToRepo ruleset repo)
         rulesets).
Proof.
  induction rulesets as [|ruleset rulesets IH]; intros Hstored; [reflexivity|].
  assert (IH' := IH (fun r Hr => Hstored r (or_intror Hr))).
  destruct (Hstored ruleset (or_introl eq_refl)) as (H1 & H2 & H3 & H4 & H5 & H6 & H7).
  pose proof (free_text_structured_agree ruleset repo H1 H2 H3 H4 H5 H6 H7) as Hagree.
  cbn [List.filter].
  destruct (String.eqb (dependencies.Target ruleset) "repository"); cbn [andb]; [| exact IH'].
  cbn [map List.filter]. rewrite Hagree.
  destruct (dependencies.rulesetAppliesToRepo ruleset repo); cbn [map]; rewrite IH'; reflexivity.
Qed.

(** X22: when the rulesets request fails, the analyzer of a single
    repository returns the wrapped error and leaves the dependencies as
    they are; otherwise it appends to the organization policies, in answer
    order, the policy of every ruleset whose target is ["repository"] and
    which the structured resolver accepts for the repository, and changes
    nothing else. *)
Theorem single_repository_rulesets_recorded (owner repo : string)
    (deps : OrganizationalDependencies) :
  (forall e,
      snd (rest.GetRulesets client ("orgs/" +:+ owner +:+ "/rulesets")) = Some e ->
      governance.analyzeOrgLevelRepositoryRulesets client owner repo deps
      = (deps, Some ("failed to get org rulesets: " +:+ e)))
  /\ (snd (rest.GetRulesets client ("orgs/" +:+ owner +:+ "/rulesets")) = None ->
      governance.analyzeOrgLevelRepositoryRulesets client owner repo deps
      = (governance.withOrganizationPolicies deps
           (OrganizationPolicies (d_OrgGovernance deps)
              ++ map dependencies.rulesetPolicy
                   (List.filter
                      (fun ruleset =>
                         String.eqb (dependencies.Target ruleset) "repository"
                         && dependencies.rulesetAppliesToRepo ruleset repo)
                      (fst (rest.GetRulesets client ("orgs/" +:+ owner +:+ "/rulesets"))))),
         None)).
Proof.
  unfold governance.analyzeOrgLevelRepositoryRulesets.
  destruct (rest.GetRulesets client ("orgs/" +:+ owner +:+ "/rulesets"))
    as [rulesets [e|]]; cbn [fst snd].
  - split; [intros e' [= <-]; reflexivity | discriminate].
  - split; [discriminate|]. intros _. rewrite single_rulesets_fold. reflexivity.
Qed.

(** X23: the two ways of finding the rulesets of a repository agree on
    rulesets that are stored faithfully: the policies that the analyzer of
    a single repository appends (structured resolver) are those that the
    free-text resolver of the batch analyzer keeps of the policies that the
    organization-level analyzer appends for the same answer. *)
Theorem single_and_batch_rulesets_agree (owner repo : string)
    (deps : OrganizationalDependencies) (cached : OrgGovernance) :
  (forall ruleset,
      In ruleset (fst (rest.GetRulesets client ("orgs/" +:+ owner +:+ "/rulesets"))) ->
      stored_faithfully ruleset) ->
  exists stored,
    OrganizationPolicies (fst (orglevel.analyzeOrgRepositoryRulesets client owner cached))
    = OrganizationPolicies cached ++ stored
    /\ OrganizationPolicies
         (d_OrgGovernance
            (fst (governance.analyzeOrgLevelRepositoryRulesets client owner repo deps)))
       = OrganizationPolicies (d_OrgGovernance deps)
           ++ List.filter (fun policy => batch.rulesetAppliesToRepo policy repo) stored.
Proof.
  intros Hstored.
  unfold orglevel.analyzeOrgRepositoryRulesets, governance.analyzeOrgLevelRepositoryRulesets.
  destruct (rest.GetRulesets client ("orgs/" +:+ owner +:+ "/rulesets"))
    as [rulesets [e|]]; cbn [fst snd] in *.
  - exists []. cbn [List.filter]. rewrite !app_nil_r. split; reflexivity.
  - exists (map dependencies.rulesetPolicy
              (List.filter
                 (fun ruleset => String.eqb (dependencies.Target ruleset) "repository")
                 rulesets)).
    split; [apply stored_rulesets_fold|].
    rewrite single_rulesets_fold, (free_text_filter_stored repo rulesets Hstored).
    reflexivity.
Qed.

End SingleRepositoryProperties.


(** * The further properties at the samples *)

(** X1, at the sample: four ready, three setup_needed, two blockers, two
    warnings, three review, fourteen in all. *)
Lemma summary_counts_results_witness :
  Z.of_nat (List.length (validation.allResults sampleValidation)) <= int_max
  /\ summary_counts (validation.allResults sampleValidation) (Summary sampleValidation)
  /\ count_status ValidationBlocker (validation.allResults sampleValidation) = 2%nat.
Proof.
  assert (Hle : Z.of_nat (List.length (validation.allResults sampleValidation)) <= int_max)
    by (vm_compute; discriminate).
  split; [exact Hle|]. split; [| vm_compute; reflexivity].
  exact (summary_counts_results ToLowerASCII EqualFoldASCII
           sampleDependencies sampleCapabilities false Hle).
Defined.

(** X2, at the sample: the result for the secret [DEPLOY_KEY]. *)
Lemma four_categories_never_block_witness :
  In (mkValidationResult "DEPLOY_KEY" ValidationSetupNeeded
        "Secret needs to be created in target organization"
        "Create secret 'DEPLOY_KEY' in target organization")
     (v_CIDependencies sampleValidation)
  /\ mild_status ValidationSetupNeeded.
Proof.
  assert (Hin :
    In (mkValidationResult "DEPLOY_KEY" ValidationSetupNeeded
          "Secret needs to be created in target organization"
          "Create secret 'DEPLOY_KEY' in target organization")
       (v_CIDependencies sampleValidation))
    by (vm_compute; right; left; reflexivity).
  split; [exact Hin|].
  exact (proj1 (four_categories_never_block ToLowerASCII EqualFoldASCII
                  sampleDependencies sampleCapabilities false _ (or_introl Hin))).
Defined.

(** X3, at the sample: the team [backend] is missing in the target. *)
Lemma migration_blocked_iff_witness :
  Z.of_nat (List.length (validation.allResults sampleValidation)) <= int_max
  /\ OverallReadiness sampleValidation = ValidationBlocker.
Proof.
  assert (Hle : Z.of_nat (List.length (validation.allResults sampleValidation)) <= int_max)
    by (vm_compute; discriminate).
  split; [exact Hle|].
  apply (proj2 (migration_blocked_iff ToLowerASCII EqualFoldASCII
                  sampleDependencies sampleCapabilities false Hle)).
  right. left. exists "backend (admin)".
  split; [vm_compute; right; left; reflexivity | vm_compute; reflexivity].
Defined.

(** X4, at a repository without dependencies. *)
Lemma ready_iff_all_ready_witness :
  validation.allResults
    (validation.ValidateAgainstTarget ToLowerASCII EqualFoldASCII
       (batch.zeroDependencies "acme/site") sampleCapabilities true) = []
  /\ OverallReadiness
       (validation.ValidateAgainstTarget ToLowerASCII EqualFoldASCII
          (batch.zeroDependencies "acme/site") sampleCapabilities true)
     = ValidationReady.
Proof.
  assert (Hnone :
    validation.allResults
      (validation.ValidateAgainstTarget ToLowerASCII EqualFoldASCII
         (batch.zeroDependencies "acme/site") sampleCapabilities true) = [])
    by (vm_compute; reflexivity).
  split; [exact Hnone|].
  refine (proj2 (ready_iff_all_ready ToLowerASCII EqualFoldASCII
                   (batch.zeroDependencies "acme/site") sampleCapabilities true _) Hnone).
  vm_compute; discriminate.
Defined.

(** X6, at a team with its permission. *)
Lemma extract_name_round_trip_witness :
  Contains "frontend" " (" = false
  /\ validation.extractTeamName "frontend (write)" = "frontend"
  /\ validation.extractAppName "frontend (write)" = "frontend".
Proof.
  assert (Hname : Contains "frontend" " (" = false) by (vm_compute; reflexivity).
  split; [exact Hname|].
  pose proof (extract_name_round_trip "frontend" "write)" Hname) as (Hteam & Happ & _).
  split; [exact Hteam | exact Happ].
Defined.

(** X10, at the security policy. *)
Lemma untargeted_policy_applies_everywhere_witness :
  plain_restriction "Two-factor authentication required"
  /\ batch.rulesetAppliesToRepo securityPolicy "site" = true.
Proof.
  assert (Hplain : plain_restriction "Two-factor authentication required")
    by (split; vm_compute; reflexivity).
  split; [exact Hplain|].
  apply (untargeted_policy_applies_everywhere securityPolicy "site").
  intros restriction [<-|[]]. exact Hplain.
Defined.

(** X11, at a ruleset with two includes: both resolvers accept [api]. *)
Lemma free_text_agrees_with_structured_witness :
  excludeNames includeRuleset = []
  /\ batch.rulesetAppliesToRepo (dependencies.rulesetPolicy includeRuleset) "api"
     = dependencies.rulesetAppliesToRepo includeRuleset "api"
  /\ dependencies.rulesetAppliesToRepo includeRuleset "api" = true.
Proof.
  split; [reflexivity|]. split; [| vm_compute; reflexivity].
  apply (free_text_agrees_with_structured includeRuleset "api").
  - right. reflexivity.
  - split; vm_compute; reflexivity.
  - split; vm_compute; reflexivity.
  - vm_compute; reflexivity.
  - intros name [<-|[<-|[]]]; vm_compute; reflexivity.
  - intros name [].
  - intros [H|[H|[]]]; discriminate H.
Defined.

(** X12, at the privileges scanned from an organization that restricts
    everything. *)
Lemma strictest_target_meets_every_policy_witness :
  strictest (scanner.memberPrivilegesOf strictOrgInfo)
  /\ Status
       (validation.validateMemberPrivilegePolicy ToLowerASCII securityPolicy
          (scanner.memberPrivilegesOf strictOrgInfo))
     = ValidationReady.
Proof.
  assert (Hstrict : strictest (scanner.memberPrivilegesOf strictOrgInfo))
    by (repeat split; reflexivity).
  split; [exact Hstrict|].
  rewrite (strictest_target_meets_every_policy ToLowerASCII securityPolicy
             (scanner.memberPrivilegesOf strictOrgInfo) (or_introl Hstrict)).
  reflexivity.
Defined.

(** X14, at the installation of the sample organization, against the
    capabilities scanned from that organization. *)
Lemma shared_app_is_ready_witness :
  In "deploy-bot" (Apps scannedCapabilities)
  /\ validation.validateAppsIntegrations ToLowerASCII EqualFoldASCII
       (mkAppsIntegrations ["deploy-bot (org-wide installation)"] [])
       scannedCapabilities
     = [mkValidationResult "deploy-bot (org-wide installation)" ValidationReady
          "App is available in target organization" ""].
Proof.
  assert (Hin : In "deploy-bot" (Apps scannedCapabilities))
    by (vm_compute; left; reflexivity).
  split; [exact Hin|].
  refine (shared_app_is_ready ToLowerASCII EqualFoldASCII
            (rest.mkInstallation "" "deploy-bot" "") [] scannedCapabilities _ _ Hin);
    vm_compute; reflexivity.
Defined.

(** X16, at the sample organization. *)
Lemma org_governance_separated_witness :
  snd (rest.GetOrgInfo sampleREST "orgs/acme") = None
  /\ map Name (RepositoryPolicies analyzedGovernance)
     = ["Security Policy"; "release rules"; "Organization Security Policy";
        "Dependabot Configuration Policy"]
  /\ governance_extends batch.zeroOrgGovernance analyzedGovernance.
Proof.
  split; [reflexivity|]. split; [vm_compute; reflexivity|].
  exact (proj1 (org_governance_separated ToLowerASCII sampleREST "acme"
                  batch.zeroOrgGovernance eq_refl)).
Defined.

(** X9, at the array of the sample organization, which has one spare
    cell: the policy accepted for [a] is written into that cell. *)
Lemma filterOrgRulesetsForRepo_appends_witness :
  exists cells' slice',
    batch.filterOrgRulesetsForRepo "acme" "a"
      (batch.ctx_Governance (batch_context rulesetsClient ["acme/a"; "acme/b"]))
      (batch.cacheArray doublingCapacity (batch_context rulesetsClient ["acme/a"; "acme/b"]))
      (batch.Cached 3)
    = (cells', slice', None)
    /\ map Name (batch.sliceElements cells' slice') = ["only-a"; "only-b"; "only-c"; "only-a"]
    /\ map Name cells' = ["only-a"; "only-b"; "only-c"; "only-a"].
Proof.
  destruct (filterOrgRulesetsForRepo_appends "acme" "a"
              (batch.ctx_Governance (batch_context rulesetsClient ["acme/a"; "acme/b"]))
              (batch.cacheArray doublingCapacity
                 (batch_context rulesetsClient ["acme/a"; "acme/b"]))
              3%nat)
    as (cells' & slice' & Hrun & Helements & Hcells); [vm_compute; lia|].
  exists cells', slice'. split; [exact Hrun|].
  rewrite Helements, Hcells. split; vm_compute; reflexivity.
Defined.

(** X17, at the sample organization with an array without a spare cell:
    each slot lists the three cached policies and then the policy of its
    own repository, whatever the schedule. *)
Lemma batch_repository_policies_witness :
  slotPolicies
    (fst (batch.AnalyzeRepositories rulesetsClient fullCapacity [1; 0; 1; 0]%nat
            ["acme/a"; "acme/b"])) 1
  = ["only-a"; "only-b"; "only-c"; "only-b"]
  /\ exists deps extra,
       fst (batch.AnalyzeRepositories rulesetsClient fullCapacity [1; 0; 1; 0]%nat
              ["acme/a"; "acme/b"]) !! 1%nat
       = Some (batch.mkBatchAnalysisResult "acme/b" (Some deps) None)
       /\ RepositoryPolicies (d_OrgGovernance deps)
          = cachedPolicies (batch_context rulesetsClient ["acme/a"; "acme/b"]) ++ extra
       /\ extra = acceptedPolicies (batch_context rulesetsClient ["acme/a"; "acme/b"]) "acme/b".
Proof.
  split; [vm_compute; reflexivity|].
  destruct (batch_repository_policies rulesetsClient fullCapacity [1; 0; 1; 0]%nat
              ["acme/a"; "acme/b"] 1%nat "acme/b")
    as (deps & extra & Hslot & Hpolicies & _ & Hfull).
  - discriminate.
  - vm_compute. intros H. apply H. reflexivity.
  - reflexivity.
  - vm_compute. intros H. apply H. reflexivity.
  - exists deps, extra. split; [exact Hslot|]. split; [exact Hpolicies|].
    apply Hfull. vm_compute. lia.
Defined.

(** X24, at the sample organization with one spare cell in the array: the
    task that appends last decides what both slots show in that cell. *)
Lemma batch_slots_share_cells_witness :
  slotPolicies
    (fst (batch.AnalyzeRepositories rulesetsClient doublingCapacity
            [0; 0; 0; 0; 1; 1; 1; 1]%nat ["acme/a"; "acme/b"])) 0
  = ["only-a"; "only-b"; "only-c"; "only-b"]
  /\ slotPolicies
       (fst (batch.AnalyzeRepositories rulesetsClient doublingCapacity
               [1; 1; 1; 1; 0; 0; 0; 0]%nat ["acme/a"; "acme/b"])) 1
     = ["only-a"; "only-b"; "only-c"; "only-a"]
  /\ exists deps deps',
       fst (batch.AnalyzeRepositories rulesetsClient doublingCapacity
              [0; 0; 0; 0; 1; 1; 1; 1]%nat ["acme/a"; "acme/b"]) !! 0%nat
       = Some (batch.mkBatchAnalysisResult "acme/a" (Some deps) None)
       /\ fst (batch.AnalyzeRepositories rulesetsClient doublingCapacity
                 [0; 0; 0; 0; 1; 1; 1; 1]%nat ["acme/a"; "acme/b"]) !! 1%nat
          = Some (batch.mkBatchAnalysisResult "acme/b" (Some deps') None)
       /\ RepositoryPolicies (d_OrgGovernance deps) !! 3%nat
          = RepositoryPolicies (d_OrgGovernance deps') !! 3%nat.
Proof.
  split; [vm_compute; reflexivity|]. split; [vm_compute; reflexivity|].
  destruct (batch_slots_share_cells rulesetsClient doublingCapacity
              [0; 0; 0; 0; 1; 1; 1; 1]%nat ["acme/a"; "acme/b"] 0%nat 1%nat
              "acme/a" "acme/b")
    as (deps & deps' & Hslot & Hslot' & Hsame).
  - discriminate.
  - vm_compute. intros H. apply H. reflexivity.
  - reflexivity.
  - vm_compute. intros H. apply H. reflexivity.
  - reflexivity.
  - vm_compute. intros H. apply H. reflexivity.
  - vm_compute. lia.
  - vm_compute. lia.
  - exists deps, deps'. split; [exact Hslot|]. split; [exact Hslot'|].
    apply Hsame.
    + assert (Hlen : List.length (RepositoryPolicies (d_OrgGovernance deps)) = 4%nat).
      { assert (Hget : fst (batch.AnalyzeRepositories rulesetsClient doublingCapacity
                              [0; 0; 0; 0; 1; 1; 1; 1]%nat ["acme/a"; "acme/b"]) !! 0%nat
                       = Some (batch.mkBatchAnalysisResult "acme/a" (Some deps) None))
          by exact Hslot.
        vm_compute in Hget. injection Hget as <-. reflexivity. }
      lia.
    + assert (Hlen : List.length (RepositoryPolicies (d_OrgGovernance deps')) = 4%nat).
      { assert (Hget : fst (batch.AnalyzeRepositories rulesetsClient doublingCapacity
                              [0; 0; 0; 0; 1; 1; 1; 1]%nat ["acme/a"; "acme/b"]) !! 1%nat
                       = Some (batch.mkBatchAnalysisResult "acme/b" (Some deps') None))
          by exact Hslot'.
        vm_compute in Hget. injection Hget as <-. reflexivity. }
      lia.
Defined.

(** X19, at the sample organization, whose teams cannot be listed. *)
Lemma failed_team_scan_blocks_witness :
  snd (rest.GetNames sampleREST "orgs/acme/teams") = Some "HTTP 403"
  /\ Teams scannedCapabilities = []
  /\ OverallReadiness
       (validation.ValidateAgainstTarget ToLowerASCII EqualFoldASCII sampleDependencies
          scannedCapabilities false)
     = ValidationBlocker.
Proof.
  split; [reflexivity|].
  refine (failed_team_scan_blocks ToLowerASCII EqualFoldASCII sampleREST (fun _ => [])
            "acme" "HTTP 403" sampleDependencies false "frontend (write)" eq_refl _ _).
  - vm_compute. left. reflexivity.
  - vm_compute. discriminate.
Defined.


(** X20, at the sample organization as source and as scanned target. *)
Lemma member_policies_against_scanned_target_witness :
  cap_MemberPrivileges scannedCapabilities = scanner.memberPrivilegesOf strictOrgInfo
  /\ map Status
       (validation.validateGovernance ToLowerASCII EqualFoldASCII
          (governanceOf
             (mkOrgPolicy "Member Management Policy" "active"
                (orglevel.membershipRestrictions strictOrgInfo)))
          scannedCapabilities)
     = [ValidationReady].
Proof.
  assert (Hscan :
    cap_MemberPrivileges scannedCapabilities = scanner.memberPrivilegesOf strictOrgInfo)
    by (vm_compute; reflexivity).
  split; [exact Hscan|].
  apply (proj1 (member_policies_against_scanned_target strictOrgInfo strictOrgInfo
                  scannedCapabilities Hscan)).
  split; intros _; reflexivity.
Defined.

(** X23, at the sample organization and the repository [api]. *)
Lemma single_and_batch_rulesets_agree_witness :
  stored_faithfully includeRuleset
  /\ exists stored,
       OrganizationPolicies
         (fst (orglevel.analyzeOrgRepositoryRulesets sampleREST "acme" batch.zeroOrgGovernance))
       = OrganizationPolicies batch.zeroOrgGovernance ++ stored
       /\ OrganizationPolicies
            (d_OrgGovernance
               (fst (governance.analyzeOrgLevelRepositoryRulesets sampleREST "acme" "api"
                       (batch.zeroDependencies "acme/api"))))
          = OrganizationPolicies (d_OrgGovernance (batch.zeroDependencies "acme/api"))
              ++ List.filter (fun policy => batch.rulesetAppliesToRepo policy "api") stored.
Proof.
  assert (Hstored : stored_faithfully includeRuleset).
  { split; [right; reflexivity|].
    split; [split; vm_compute; reflexivity|].
    split; [split; vm_compute; reflexivity|].
    split; [vm_compute; reflexivity|].
    split; [intros name [<-|[<-|[]]]; vm_compute; reflexivity|].
    split; [intros name []|].
    intros [H|[H|[]]]; discriminate H. }
  split; [exact Hstored|].
  apply (single_and_batch_rulesets_agree sampleREST "acme" "api"
           (batch.zeroDependencies "acme/api") batch.zeroOrgGovernance).
  intros ruleset [<-|[]]. exact Hstored.
Defined.
